(** * The ES device of the IOS HLE layer (Source/Core/Core/IOS/ES/ES.cpp)

    A shallow embedding of the title context, the content access table, the
    title import and export sessions, the launch path and the AES-CBC
    ioctlvs of [IOS::HLE::Device::ES], followed by the properties of the
    specification that were checked against it.

    Machine integers are [Z] with the wrap-around written out, byte buffers
    are [list Z], the [std::map]s of the device are [gmap Z _]. *)

From Stdlib Require Import ZArith Lia Sorted.
From stdpp Require Import gmap list strings.

Local Open Scope Z_scope.

(** ** Fixed-width integers (Common/CommonTypes.h) *)

Definition to_u8 (z : Z) : Z := z mod 2 ^ 8.
Definition to_u16 (z : Z) : Z := z mod 2 ^ 16.
Definition to_u32 (z : Z) : Z := z mod 2 ^ 32.
Definition to_u64 (z : Z) : Z := z mod 2 ^ 64.

(** [static_cast<s32>] of a 32-bit pattern. *)
Definition to_s32 (z : Z) : Z :=
  let w := to_u32 z in if w <? 2 ^ 31 then w else w - 2 ^ 32.

Definition is_u16 (z : Z) : Prop := 0 <= z < 2 ^ 16.

(** ** AES-128-CBC (Externals/mbedtls, not under src/)

    The block cipher itself is a parameter: [aes_encrypt_block key b] and
    [aes_decrypt_block key b] stand for [mbedtls_aes_crypt_ecb] under the key
    schedule of [mbedtls_aes_setkey_enc] and [mbedtls_aes_setkey_dec].  The
    chaining is that of [mbedtls_aes_crypt_cbc]. *)

Inductive aes_mode := MBEDTLS_AES_ENCRYPT | MBEDTLS_AES_DECRYPT.

Definition MBEDTLS_ERR_AES_INVALID_INPUT_LENGTH : Z := -34.

Definition xor_block (a b : list Z) : list Z := zip_with Z.lxor a b.

Section mbedtls.
Variable aes_encrypt_block : list Z -> list Z -> list Z.
Variable aes_decrypt_block : list Z -> list Z -> list Z.

(** Modelled from the spec: the encrypting loop of [mbedtls_aes_crypt_cbc],
    which is not under src/.  The spec has "AES-128-CBC encrypt/decrypt
    primitives over buffers with explicit IV in/out" and a "fixed 16-byte
    block"; its export stream relies on the call leaving the chaining state
    in the IV buffer ("IV state persists across calls — streaming CBC").
    One iteration per 16-byte block; the result is the final [iv] (the last
    ciphertext block) and the bytes written to [output]. *)
Fixpoint cbc_encrypt (key : list Z) (blocks : nat) (iv input : list Z)
  : list Z * list Z :=
  match blocks with
  | O => (iv, [])
  | S n =>
      let out := aes_encrypt_block key (xor_block (take 16 input) iv) in
      let r := cbc_encrypt key n out (drop 16 input) in
      (r.1, out ++ r.2)
  end.

(** Modelled from the spec: the decrypting loop of [mbedtls_aes_crypt_cbc],
    under the same words; the final [iv] is the last ciphertext block of
    the input. *)
Fixpoint cbc_decrypt (key : list Z) (blocks : nat) (iv input : list Z)
  : list Z * list Z :=
  match blocks with
  | O => (iv, [])
  | S n =>
      let temp := take 16 input in
      let out := xor_block (aes_decrypt_block key temp) iv in
      let r := cbc_decrypt key n temp (drop 16 input) in
      (r.1, out ++ r.2)
  end.

(** Modelled from the spec: [mbedtls_aes_crypt_cbc(ctx, mode, length, iv,
    input, output)], which is not under src/: the return code, the updated
    [iv] and the updated [output] buffer.  With a "fixed 16-byte block", a
    [length] that is not a multiple of 16 is refused with
    [MBEDTLS_ERR_AES_INVALID_INPUT_LENGTH] before anything is written (the
    export path aligns its buffer "for cipher alignment" and tests the
    return code). *)
Definition mbedtls_aes_crypt_cbc (key : list Z) (mode : aes_mode)
    (length : Z) (iv input output : list Z) : Z * list Z * list Z :=
  if bool_decide (length mod 16 = 0) then
    let r := match mode with
             | MBEDTLS_AES_ENCRYPT =>
                 cbc_encrypt key (Z.to_nat (length / 16)) iv input
             | MBEDTLS_AES_DECRYPT =>
                 cbc_decrypt key (Z.to_nat (length / 16)) iv input
             end in
    (0, r.1, r.2 ++ drop (List.length r.2) output)
  else (MBEDTLS_ERR_AES_INVALID_INPUT_LENGTH, iv, output).
End mbedtls.

(** ** The key table *)

Definition s_key_sd : list Z :=
  [0xab; 0x01; 0xb9; 0xd8; 0xe1; 0x62; 0x2b; 0x08;
   0xaf; 0xba; 0xd8; 0x4d; 0xbf; 0xc2; 0xa5; 0x5d].
(** [s_key_ecc[0x1e]]: twenty-nine zero bytes and a final 0x01. *)
Definition s_key_ecc : list Z := replicate 29 0x00 ++ [0x01].
(** [s_key_empty[0x10]]: sixteen zero bytes. *)
Definition s_key_empty : list Z := replicate 16 0x00.

Definition s_key_table : list (list Z) :=
  [ s_key_ecc;    (* ECC Private Key *)
    s_key_empty;  (* Console ID *)
    s_key_empty;  (* NAND AES Key *)
    s_key_empty;  (* NAND HMAC *)
    s_key_empty;  (* Common Key *)
    s_key_empty;  (* PRNG seed *)
    s_key_sd;     (* SD Key *)
    s_key_empty;  (* Unknown *)
    s_key_empty;  (* Unknown *)
    s_key_empty;  (* Unknown *)
    s_key_empty   (* Unknown *) ].

(** ** Title metadata, tickets and content loaders

    [IOS::ES::Content], [IOS::ES::TMDReader] and [IOS::ES::TicketReader] are
    declared in Core/IOS/ES/Formats.h, [DiscIO::CNANDContentLoader] in
    DiscIO/NANDContentLoader.h; neither is under src/.  A reader is
    represented by what its accessors return. *)

Module Content.
(** Modelled from the spec: [IOS::ES::Content], a "ContentEntry {content id,
    index, size, content hash, shared flag}"; the flag is a bit of [type].
    As ES.cpp uses them, [id] is 32 bits wide, [index] 16 and [size] 64. *)
Record t := mk { id : Z; index : Z; type : Z; size : Z; sha1 : list Z }.
Definition IsShared (c : t) : bool := negb (Z.land (type c) 0x8000 =? 0).
End Content.

Module TMDReader.
(** Modelled from the spec: [IOS::ES::TMDReader], a "signed record containing
    TitleIdentifier, required service version, group id, and an ordered list
    of ContentEntry", whose validity "is a derived boolean". *)
Record t := mk {
  GetRawTMD : list Z;
  IsValid : bool;
  GetTitleId : Z;
  GetIOSId : Z;
  GetGroupId : Z;
  GetContents : list Content.t }.

(** The reader after [SetBytes({})]: no bytes, not valid. *)
Definition empty : t := mk [] false 0 0 0 [].

(** Modelled from the spec: [FindContentById(id, &content)], the entry of
    the "ordered list of ContentEntry" with that content id. *)
Definition FindContentById (tmd : t) (id : Z) : option Content.t :=
  List.find (fun c => Content.id c =? id) (GetContents tmd).
End TMDReader.

Module TicketReader.
(** Modelled from the spec: [IOS::ES::TicketReader], a "signed record
    containing TitleIdentifier and an encrypted 128-bit title key" that
    "exposes the decrypted title key". *)
Record t := mk {
  GetRawTicket : list Z;
  IsValid : bool;
  GetTitleId : Z;
  GetTitleKey : list Z }.

Definition empty : t := mk [] false 0 [].
End TicketReader.

Module SNANDContent.
(** Modelled from the spec: [DiscIO::SNANDContent], a content of a loader
    "exposing open()/read_range(pos,len,out)/close()"; [m_Data] is the blob
    behind them. *)
Record t := mk { m_metadata : Content.t; m_Data : list Z }.

(** Modelled from the spec: [m_Data->GetRange(start, size, buffer)], the
    "read_range(pos,len,out)" of a content: the bytes read, or [None] when
    the range is not inside the blob (the call returns false). *)
Definition GetRange (c : t) (start size : Z) : option (list Z) :=
  if bool_decide (start + size <= Z.of_nat (length (m_Data c))) then
    Some (take (Z.to_nat size) (drop (Z.to_nat start) (m_Data c)))
  else None.
End SNANDContent.

Module CNANDContentLoader.
(** Modelled from the spec: [DiscIO::CNANDContentLoader], "a content loader
    keyed by title id exposing is_valid(), get_tmd(), get_ticket(),
    get_content_by_index(i), get_content_by_id(id)". *)
Record t := mk {
  IsValid : bool;
  GetTMD : TMDReader.t;
  GetTicket : TicketReader.t;
  m_Content : list SNANDContent.t }.

(** Modelled from the spec: "get_content_by_index(i)", the content whose
    entry has that index, null when there is none. *)
Definition GetContentByIndex (l : t) (index : Z) : option SNANDContent.t :=
  List.find (fun c => Content.index (SNANDContent.m_metadata c) =? index)
            (m_Content l).

(** Modelled from the spec: "get_content_by_id(id)", likewise by content
    id. *)
Definition GetContentByID (l : t) (id : Z) : option SNANDContent.t :=
  List.find (fun c => Content.id (SNANDContent.m_metadata c) =? id)
            (m_Content l).

(** The loader returned for a title that is not installed. *)
Definition invalid : t := mk false TMDReader.empty TicketReader.empty [].
End CNANDContentLoader.

(** Modelled from the spec: [IOS::ES::TitleType::System] (Formats.h, not
    under src/).  "High 32 bits = title type"; the system type is the
    0x00000001 that [CanDeleteTitle] in ES.cpp tests for. *)
Definition TitleType_System : Z := 0x00000001.
(** Modelled from the spec: [IOS::ES::IsTitleType(title_id, type)] compares
    the "high 32 bits" of the title id with the type. *)
Definition IsTitleType (title_id title_type : Z) : bool :=
  to_u32 (Z.shiftr title_id 32) =? to_u32 title_type.

(** ** Requests and replies (Core/IOS/Device.h, not under src/) *)

Module IOVector.
(** Modelled from the spec: a descriptor of a request, "{32-bit guest
    address, 32-bit byte length}". *)
Record t := mk { address : Z; size : Z }.
End IOVector.

(** The ioctlv codes of ES.h whose handlers are embedded below; the numeric
    values are not needed.  [IOCTL_ES_unknown] is a code the switch of
    [ES::IOCtlV] has no case for. *)
Inductive ESIoctlv :=
| IOCTL_ES_ADDTICKET
| IOCTL_ES_ADDCONTENTSTART
| IOCTL_ES_ADDCONTENTDATA
| IOCTL_ES_ADDCONTENTFINISH
| IOCTL_ES_OPENTITLECONTENT
| IOCTL_ES_OPENCONTENT
| IOCTL_ES_READCONTENT
| IOCTL_ES_CLOSECONTENT
| IOCTL_ES_SEEKCONTENT
| IOCTL_ES_ENCRYPT
| IOCTL_ES_DECRYPT
| IOCTL_ES_EXPORTTITLEINIT
| IOCTL_ES_EXPORTCONTENTBEGIN
| IOCTL_ES_EXPORTCONTENTDATA
| IOCTL_ES_EXPORTCONTENTEND
| IOCTL_ES_EXPORTTITLEDONE
| IOCTL_ES_unknown (code : Z).

#[global] Instance ESIoctlv_eq_dec : EqDecision ESIoctlv.
Proof. solve_decision. Defined.

Module IOCtlVRequest.
(** Modelled from the spec: an IOCtlV request, its "self-reference" address,
    "an ioctl-vector code plus an ordered list of input descriptors and
    output descriptors". *)
Record t := mk {
  address : Z;
  request : ESIoctlv;
  in_vectors : list IOVector.t;
  io_vectors : list IOVector.t }.

(** Modelled from the spec: [HasInputVectorWithAddress], whether an output
    buffer is "also supplied as an input-with-same-address". *)
Definition HasInputVectorWithAddress (r : t) (vector_address : Z) : bool :=
  existsb (fun v => IOVector.address v =? vector_address) (in_vectors r).
End IOCtlVRequest.

#[global] Instance IOVector_inhabited : Inhabited IOVector.t :=
  populate (IOVector.mk 0 0).

(** The return codes ES.cpp names (Core/IOS/IPC.h, not under src/); their
    numeric values are not needed. *)
Inductive ReturnCode :=
| IPC_SUCCESS
| FS_ENOENT
| ES_READ_LESS_DATA_THAN_EXPECTED
| ES_WRITE_FAILURE
| ES_PARAMETER_SIZE_OR_ALIGNMENT
| ES_INVALID_TMD
| ES_NO_TICKET_INSTALLED.

(** What a handler passes to [GetDefaultReply]: a named return code or a
    computed 32-bit value (a descriptor, a byte count, a position, -1). *)
Inductive ReturnValue :=
| Code (c : ReturnCode)
| Value (v : Z).

Inductive IPCCommandResult :=
| GetDefaultReply (return_value : ReturnValue)
| GetNoReply.

(** ** Guest memory (Core/HW/Memmap.h, not under src/) *)

(** Modelled from the spec: guest memory, "a separate, already-defined flat
    memory image" with "fixed-size read/write/copy-in/copy-out/zero-fill by
    guest address".  Bytes that were never written read as 0; words are big
    endian. *)
Definition Memory := gmap Z Z.

Definition Read_U8 (m : Memory) (a : Z) : Z := to_u8 (default 0 (m !! a)).
Definition Read_U32 (m : Memory) (a : Z) : Z :=
  Read_U8 m a * 2 ^ 24 + Read_U8 m (a + 1) * 2 ^ 16 +
  Read_U8 m (a + 2) * 2 ^ 8 + Read_U8 m (a + 3).
Definition Read_U64 (m : Memory) (a : Z) : Z :=
  Read_U32 m a * 2 ^ 32 + Read_U32 m (a + 4).

Definition CopyFromEmu (m : Memory) (a : Z) (n : Z) : list Z :=
  (fun i => Read_U8 m (a + i)) <$> seqZ 0 n.

Fixpoint CopyToEmu (m : Memory) (a : Z) (bytes : list Z) : Memory :=
  match bytes with
  | [] => m
  | b :: bs => CopyToEmu (<[a := b]> m) (a + 1) bs
  end.

Definition Memset (m : Memory) (a : Z) (v : Z) (n : Z) : Memory :=
  CopyToEmu m a (replicate (Z.to_nat n) v).

(** [Memory::Write_U32(value, address)] and [Memory::Write_U64(value,
    address)], the fixed-size writes of the same interface: the bytes of
    the value, most significant first. *)
Definition Write_U32 (m : Memory) (value address : Z) : Memory :=
  CopyToEmu m address
    [to_u8 (Z.shiftr value 24); to_u8 (Z.shiftr value 16);
     to_u8 (Z.shiftr value 8); to_u8 value].
Definition Write_U64 (m : Memory) (value address : Z) : Memory :=
  Write_U32 (Write_U32 m (Z.shiftr value 32) address) value (address + 4).


(** Modelled from the spec: [Common::AlignUp(value, size)] (Common/Align.h,
    not under src/), [value] "rounded up to a 32-byte boundary" for
    [size = 32]. *)
Definition AlignUp (value size : Z) : Z :=
  value + (size - value mod size) mod size.

(** ** Directory listings and title ids in path names *)

(** Modelled from the spec: [File::FSTEntry] (Common/FileUtil.h, not under
    src/), a node of the tree [File::ScanDirectoryTree] returns for the
    "directory layout under a titles root", with the fields ES.cpp reads. *)
#[local] Set Warnings "-register-all".
Inductive FSTEntry := mkFSTEntry {
  isDirectory : bool;
  virtualName : string;
  children : list FSTEntry }.

(** The value of a hexadecimal digit: what [std::isxdigit] accepts and
    [std::stoul] with base 16 adds up. *)
Definition hex_value (c : Ascii.ascii) : option Z :=
  let n := Z.of_N (Ascii.N_of_ascii c) in
  if (48 <=? n) && (n <=? 57) then Some (n - 48)
  else if (97 <=? n) && (n <=? 102) then Some (n - 87)
  else if (65 <=? n) && (n <=? 70) then Some (n - 55)
  else None.

Definition isxdigit (c : Ascii.ascii) : bool :=
  match hex_value c with Some _ => true | None => false end.

(** [std::stoul(s, nullptr, 16)] on a string of hexadecimal digits. *)
Definition stoul16 (s : string) : Z :=
  foldl (fun acc c => acc * 16 + default 0 (hex_value c)) 0
    (String.list_ascii_of_string s).

(** The conversion [%08x] of [sprintf] and [StringFromFormat] for a 32-bit
    argument: eight hexadecimal digits in lower case. *)
Definition hex_char (d : Z) : Ascii.ascii :=
  Ascii.ascii_of_N (Z.to_N (if d <? 10 then 48 + d else 87 + d)).
Fixpoint hex_digits (n : nat) (v : Z) : list Ascii.ascii :=
  match n with
  | O => []
  | S n => hex_digits n (v / 16) ++ [hex_char (v mod 16)]
  end.
Definition format_08x (v : Z) : string :=
  String.string_of_list_ascii (hex_digits 8 (to_u32 v)).

(** The bytes of a C string, with its terminating NUL. *)
Definition c_str (s : string) : list Z :=
  ((fun c => Z.of_N (Ascii.N_of_ascii c)) <$> String.list_ascii_of_string s)
  ++ [0].

Definition IsValidPartOfTitleID (s : string) : bool :=
  (String.length s =? 8)%nat &&
  forallb isxdigit (String.list_ascii_of_string s).

(** [GetInstalledTitles()], given what [File::IsDirectory] says of the
    titles directory and what [File::ScanDirectoryTree] returns for it. *)
Definition GetInstalledTitles (titles_dir_is_directory : bool)
    (entries : FSTEntry) : list Z :=
  if negb titles_dir_is_directory then []
  else
    flat_map
      (fun title_type =>
         if negb (isDirectory title_type) ||
            negb (IsValidPartOfTitleID (virtualName title_type))
         then []
         else
           flat_map
             (fun title_identifier =>
                if negb (isDirectory title_identifier) ||
                   negb (IsValidPartOfTitleID (virtualName title_identifier))
                then []
                else
                  let type := to_u32 (stoul16 (virtualName title_type)) in
                  let identifier :=
                    to_u32 (stoul16 (virtualName title_identifier)) in
                  [Z.lor (Z.shiftl type 32) identifier])
             (children title_type))
      (children entries).

(** [GetTitlesWithTickets()], likewise for the tickets directory. *)
Definition GetTitlesWithTickets (titles_dir_is_directory : bool)
    (entries : FSTEntry) : list Z :=
  if negb titles_dir_is_directory then []
  else
    flat_map
      (fun title_type =>
         if negb (isDirectory title_type) ||
            negb (IsValidPartOfTitleID (virtualName title_type))
         then []
         else
           flat_map
             (fun ticket =>
                let name_without_ext :=
                  String.substring 0 8 (virtualName ticket) in
                if isDirectory ticket ||
                   negb (IsValidPartOfTitleID name_without_ext) ||
                   negb (String.eqb (name_without_ext +:+ ".tik")
                           (virtualName ticket))
                then []
                else
                  let type := to_u32 (stoul16 (virtualName title_type)) in
                  let identifier := to_u32 (stoul16 name_without_ext) in
                  [Z.lor (Z.shiftl type 32) identifier])
             (children title_type))
      (children entries).

(** ** State of the device

    Calls into collaborators that the properties below talk about are
    recorded, oldest first, in [State.trace]. *)

Inductive Path :=
| SharedContentPath (sha1 : list Z)
| TitleContentPath (title_id content_id : Z).

Inductive Event :=
| UpdateRunningGame (title_id : Z)
| ClearCache
| DataOpen (title_id content_id : Z)
| DataClose (title_id content_id : Z)
| WriteBytes (path : Path) (bytes : list Z)
| DiscIO_AddTicket (bytes : list Z)
| IOSReload (ios_title_id : Z)
| PPCBootstrap (title_id : Z)
| PanicAlert.

(** Calls into the NAND file system and the title index ([File::] of
    Common/FileUtil.h, the paths of Common/NandPaths.h and [DiscIO::cUIDsys];
    none under src/) that the title import and the disc verification make;
    the functions that make them return them, oldest first. *)
Inductive NandPath :=
| TMDFileName (title_id : Z)
| TitleDataPath (title_id : Z).

Inductive NandCall :=
| CreateFullPath (path : NandPath)
| File_WriteBytes (path : NandPath) (bytes : list Z)
| UIDSys_AddTitle (title_id : Z).

Module OpenedContent.
Record t := mk { m_title_id : Z; m_content : Content.t; m_position : Z }.
Definition set_position (c : t) (p : Z) : t :=
  mk (m_title_id c) (m_content c) p.
End OpenedContent.

Module TitleContext.
Record t := mk {
  ticket : TicketReader.t;
  tmd : TMDReader.t;
  active : bool;
  first_change : bool }.

(** [TitleContext{}]: the member initialisers of the struct. *)
Definition init : t := mk TicketReader.empty TMDReader.empty false true.

Definition Clear (c : t) : t :=
  mk TicketReader.empty TMDReader.empty false (first_change c).

(** [Update(tmd_, ticket_)], with the collaborator calls it makes. *)
Definition Update (c : t) (tmd_ : TMDReader.t) (ticket_ : TicketReader.t)
  : t * list Event :=
  if negb (TMDReader.IsValid tmd_) || negb (TicketReader.IsValid ticket_)
  then (c, [])
  else if first_change c
       then (mk ticket_ tmd_ true false,
             [UpdateRunningGame (TMDReader.GetTitleId tmd_)])
       else (mk ticket_ tmd_ true (first_change c), []).

(** [Update(content_loader)]. *)
Definition Update_loader (c : t) (content_loader : CNANDContentLoader.t)
  : t * list Event :=
  if negb (CNANDContentLoader.IsValid content_loader) then (c, [])
  else Update c (CNANDContentLoader.GetTMD content_loader)
                (CNANDContentLoader.GetTicket content_loader).
End TitleContext.

Module ExportContent.
Record t := mk { content : OpenedContent.t; iv : list Z }.
End ExportContent.

Module TitleExportContext.
Record t := mk {
  valid : bool;
  tmd : TMDReader.t;
  title_key : list Z;
  contents : gmap Z ExportContent.t }.
Definition set_valid (c : t) (v : bool) : t :=
  mk v (tmd c) (title_key c) (contents c).
Definition set_tmd (c : t) (x : TMDReader.t) : t :=
  mk (valid c) x (title_key c) (contents c).
Definition set_title_key (c : t) (k : list Z) : t :=
  mk (valid c) (tmd c) k (contents c).
Definition set_contents (c : t) (m : gmap Z ExportContent.t) : t :=
  mk (valid c) (tmd c) (title_key c) m.
End TitleExportContext.

Module State.
Record t := mk {
  s_content_file : string;
  s_title_context : TitleContext.t;
  s_title_to_launch : Z;
  m_ContentAccessMap : gmap Z OpenedContent.t;
  m_AccessIdentID : Z;
  m_addtitle_tmd : TMDReader.t;
  m_addtitle_content_id : Z;
  m_addtitle_content_buffer : list Z;
  m_export_title_context : TitleExportContext.t;
  m_is_active : bool;
  memory : Memory;
  trace : list Event }.

Definition set_title_context (s : t) (c : TitleContext.t) : t :=
  mk (s_content_file s) c (s_title_to_launch s) (m_ContentAccessMap s)
     (m_AccessIdentID s) (m_addtitle_tmd s) (m_addtitle_content_id s)
     (m_addtitle_content_buffer s) (m_export_title_context s)
     (m_is_active s) (memory s) (trace s).
Definition set_title_to_launch (s : t) (v : Z) : t :=
  mk (s_content_file s) (s_title_context s) v (m_ContentAccessMap s)
     (m_AccessIdentID s) (m_addtitle_tmd s) (m_addtitle_content_id s)
     (m_addtitle_content_buffer s) (m_export_title_context s)
     (m_is_active s) (memory s) (trace s).
Definition set_ContentAccessMap (s : t) (m : gmap Z OpenedContent.t) : t :=
  mk (s_content_file s) (s_title_context s) (s_title_to_launch s) m
     (m_AccessIdentID s) (m_addtitle_tmd s) (m_addtitle_content_id s)
     (m_addtitle_content_buffer s) (m_export_title_context s)
     (m_is_active s) (memory s) (trace s).
Definition set_AccessIdentID (s : t) (v : Z) : t :=
  mk (s_content_file s) (s_title_context s) (s_title_to_launch s)
     (m_ContentAccessMap s) v (m_addtitle_tmd s) (m_addtitle_content_id s)
     (m_addtitle_content_buffer s) (m_export_title_context s)
     (m_is_active s) (memory s) (trace s).
Definition set_addtitle_content_id (s : t) (v : Z) : t :=
  mk (s_content_file s) (s_title_context s) (s_title_to_launch s)
     (m_ContentAccessMap s) (m_AccessIdentID s) (m_addtitle_tmd s) v
     (m_addtitle_content_buffer s) (m_export_title_context s)
     (m_is_active s) (memory s) (trace s).
Definition set_addtitle_content_buffer (s : t) (b : list Z) : t :=
  mk (s_content_file s) (s_title_context s) (s_title_to_launch s)
     (m_ContentAccessMap s) (m_AccessIdentID s) (m_addtitle_tmd s)
     (m_addtitle_content_id s) b (m_export_title_context s)
     (m_is_active s) (memory s) (trace s).
Definition set_export_title_context (s : t) (c : TitleExportContext.t) : t :=
  mk (s_content_file s) (s_title_context s) (s_title_to_launch s)
     (m_ContentAccessMap s) (m_AccessIdentID s) (m_addtitle_tmd s)
     (m_addtitle_content_id s) (m_addtitle_content_buffer s) c
     (m_is_active s) (memory s) (trace s).
Definition set_is_active (s : t) (b : bool) : t :=
  mk (s_content_file s) (s_title_context s) (s_title_to_launch s)
     (m_ContentAccessMap s) (m_AccessIdentID s) (m_addtitle_tmd s)
     (m_addtitle_content_id s) (m_addtitle_content_buffer s)
     (m_export_title_context s) b (memory s) (trace s).
Definition set_memory (s : t) (m : Memory) : t :=
  mk (s_content_file s) (s_title_context s) (s_title_to_launch s)
     (m_ContentAccessMap s) (m_AccessIdentID s) (m_addtitle_tmd s)
     (m_addtitle_content_id s) (m_addtitle_content_buffer s)
     (m_export_title_context s) (m_is_active s) m (trace s).
Definition set_content_file (s : t) (f : string) : t :=
  mk f (s_title_context s) (s_title_to_launch s) (m_ContentAccessMap s)
     (m_AccessIdentID s) (m_addtitle_tmd s) (m_addtitle_content_id s)
     (m_addtitle_content_buffer s) (m_export_title_context s)
     (m_is_active s) (memory s) (trace s).
Definition set_addtitle_tmd (s : t) (x : TMDReader.t) : t :=
  mk (s_content_file s) (s_title_context s) (s_title_to_launch s)
     (m_ContentAccessMap s) (m_AccessIdentID s) x (m_addtitle_content_id s)
     (m_addtitle_content_buffer s) (m_export_title_context s)
     (m_is_active s) (memory s) (trace s).
(** Record the calls [evs] after those already made. *)
Definition emit (s : t) (evs : list Event) : t :=
  mk (s_content_file s) (s_title_context s) (s_title_to_launch s)
     (m_ContentAccessMap s) (m_AccessIdentID s) (m_addtitle_tmd s)
     (m_addtitle_content_id s) (m_addtitle_content_buffer s)
     (m_export_title_context s) (m_is_active s) (memory s) (trace s ++ evs).

(** A freshly constructed device, by the member initialisers of ES.h (not
    under src/): no title, nothing pending ("0xFFFFFFFF = no content in
    flight"), no export session ("valid=false is the closed/idle state"),
    empty tables, the counter at 0. *)
Definition init : t :=
  mk "" TitleContext.init 0 ∅ 0 TMDReader.empty 0xFFFFFFFF []
     (TitleExportContext.mk false TMDReader.empty [] ∅) false ∅ [].
End State.

(** ** Collaborators

    What the device calls and the repository defines elsewhere: the AES block
    cipher of mbedtls, the vector validity test of
    [IOCtlVRequest::HasNumberOfValidVectors], whether [Memory::GetPointer]
    yields a pointer, the NAND content manager, the ticket store, the title
    id of the system menu, and the IOS reload and PPC bootstrap of the
    kernel. *)
Record Platform := {
  aes_encrypt_block : list Z -> list Z -> list Z;
  aes_decrypt_block : list Z -> list Z -> list Z;
  IsValidVector : IOVector.t -> bool;
  GetPointer : Z -> bool;
  GetNANDLoader_file : string -> CNANDContentLoader.t;
  GetNANDLoader_title : Z -> CNANDContentLoader.t;
  FindSignedTicket : Z -> TicketReader.t;
  TITLEID_SYSMENU : Z;
  Reload : Z -> State.t -> bool * State.t;
  BootstrapPPC : CNANDContentLoader.t -> State.t -> bool * State.t }.

(** ** The device *)

Module ES.
Section WithPlatform.
Variable P : Platform.

(** A handler's reply and the state it leaves; [None] where the C++ code
    dereferences a null pointer or reads past the key table or past the end
    of a buffer, and where what it does is decided by code that is not under
    src/ ([memcpy] and the CBC routine on overlapping buffers). *)
Definition Result : Type := option (IPCCommandResult * State.t).

Definition reply (c : ReturnCode) (st : State.t) : Result :=
  Some (GetDefaultReply (Code c), st).
Definition reply_value (v : Z) (st : State.t) : Result :=
  Some (GetDefaultReply (Value (to_s32 v)), st).

(** Modelled from the spec: [request.HasNumberOfValidVectors(in_count,
    io_count)] (Core/IOS/Device.cpp, not under src/) accepts "the exact
    (input-count, output-count)" and only valid vectors; what makes a
    vector valid is a parameter of the platform. *)
Definition HasNumberOfValidVectors (request : IOCtlVRequest.t)
    (in_count io_count : nat) : bool :=
  bool_decide (length (IOCtlVRequest.in_vectors request) = in_count) &&
  bool_decide (length (IOCtlVRequest.io_vectors request) = io_count) &&
  forallb (IsValidVector P) (IOCtlVRequest.in_vectors request) &&
  forallb (IsValidVector P) (IOCtlVRequest.io_vectors request).

Definition in_vector (request : IOCtlVRequest.t) (i : nat) : IOVector.t :=
  IOCtlVRequest.in_vectors request !!! i.
Definition io_vector (request : IOCtlVRequest.t) (i : nat) : IOVector.t :=
  IOCtlVRequest.io_vectors request !!! i.

Definition AccessContentDevice (st : State.t) (title_id : Z)
  : CNANDContentLoader.t :=
  let ctx := State.s_title_context st in
  if TitleContext.active ctx &&
     (TMDReader.GetTitleId (TitleContext.tmd ctx) =? title_id) &&
     negb (bool_decide (State.s_content_file st = ""))
  then GetNANDLoader_file P (State.s_content_file st)
  else GetNANDLoader_title P title_id.

(** *** Crypto primitives *)

(** [DecryptContent(key_index, iv, input, size, new_iv, output)]: the
    16 bytes left in [new_iv] and the [output] buffer.  [new_iv] is
    overwritten by the [memcpy] before it is read, so only the previous
    contents of [output] are an argument. *)
Definition DecryptContent (key_index : Z) (iv input : list Z) (size : Z)
    (output : list Z) : option (list Z * list Z) :=
  key ← s_key_table !! Z.to_nat key_index;
  let new_iv := take 16 iv in
  let r := mbedtls_aes_crypt_cbc (aes_encrypt_block P) (aes_decrypt_block P)
             (take 16 key) MBEDTLS_AES_DECRYPT size new_iv input output in
  Some (r.1.2, r.2).

(** The body of [ES::Encrypt] once its five pointers are taken: the key
    schedule, the [memcpy] into [newIV] and the CBC call.  As in
    [DecryptContent], [newIV] is written before it is read. *)
Definition EncryptContent (keyIndex : Z) (IV source : list Z) (size : Z)
    (destination : list Z) : option (list Z * list Z) :=
  key ← s_key_table !! Z.to_nat keyIndex;
  let newIV := take 16 IV in
  let r := mbedtls_aes_crypt_cbc (aes_encrypt_block P) (aes_decrypt_block P)
             (take 16 key) MBEDTLS_AES_ENCRYPT size newIV source destination in
  Some (r.1.2, r.2).

(** Whether the [n] bytes at [a] and the [m] bytes at [b] share a byte. *)
Definition ranges_overlap (a n b m : Z) : bool :=
  (0 <? n) && (0 <? m) && (a <? b + m) && (b <? a + n).

(** Whether [mbedtls_aes_crypt_cbc] touches its data for this [length]: it
    returns at once for a length that is not a multiple of 16, and its loop
    runs once per block. *)
Definition cbc_processes (length : Z) : bool :=
  bool_decide (length mod 16 = 0) && (0 <? length).

(** What [ES::Encrypt] and [ES::Decrypt] need of their four pointers.  The
    [memcpy] reads 16 bytes at [IV] and writes 16 bytes at [newIV] whatever
    the sizes of the vectors: both pointers must be there, and the two
    ranges apart or the same (a range copied onto itself stays as it is).
    When the CBC routine processes blocks it reads [size] bytes at
    [source], writes [size] bytes at [destination] and updates [newIV] in
    place: the two pointers must be there, [newIV] apart from both
    buffers, and the buffers either apart or the same (in place). *)
Definition crypt_buffers_ok (IV source size newIV destination : Z) : bool :=
  GetPointer P IV && GetPointer P newIV &&
  ((newIV =? IV) || negb (ranges_overlap newIV 16 IV 16)) &&
  (negb (cbc_processes size) ||
   GetPointer P source && GetPointer P destination &&
   negb (ranges_overlap newIV 16 source size) &&
   negb (ranges_overlap newIV 16 destination size) &&
   ((source =? destination) ||
    negb (ranges_overlap source size destination size))).

(** The two ioctlvs take their buffers from guest memory and leave the
    results there.  [newIV] is written first, by the [memcpy]; the
    destination is written only when blocks are processed.  The debug
    assertion on the key index is not part of the behaviour. *)
Definition Encrypt (st : State.t) (request : IOCtlVRequest.t) : Result :=
  if negb (HasNumberOfValidVectors request 3 2)
  then reply ES_PARAMETER_SIZE_OR_ALIGNMENT st
  else
    let mem := State.memory st in
    let keyIndex := Read_U32 mem (IOVector.address (in_vector request 0)) in
    let IV := IOVector.address (in_vector request 1) in
    let source := IOVector.address (in_vector request 2) in
    let size := IOVector.size (in_vector request 2) in
    let newIV := IOVector.address (io_vector request 0) in
    let destination := IOVector.address (io_vector request 1) in
    if negb (crypt_buffers_ok IV source size newIV destination) then None
    else
      r ← EncryptContent keyIndex (CopyFromEmu mem IV 16)
            (CopyFromEmu mem source size) size
            (CopyFromEmu mem destination size);
      let mem := CopyToEmu mem newIV r.1 in
      let mem :=
        if cbc_processes size then CopyToEmu mem destination r.2 else mem in
      reply IPC_SUCCESS (State.set_memory st mem).

Definition Decrypt (st : State.t) (request : IOCtlVRequest.t) : Result :=
  if negb (HasNumberOfValidVectors request 3 2)
  then reply ES_PARAMETER_SIZE_OR_ALIGNMENT st
  else
    let mem := State.memory st in
    let keyIndex := Read_U32 mem (IOVector.address (in_vector request 0)) in
    let IV := IOVector.address (in_vector request 1) in
    let source := IOVector.address (in_vector request 2) in
    let size := IOVector.size (in_vector request 2) in
    let newIV := IOVector.address (io_vector request 0) in
    let destination := IOVector.address (io_vector request 1) in
    if negb (crypt_buffers_ok IV source size newIV destination) then None
    else
      r ← DecryptContent keyIndex (CopyFromEmu mem IV 16)
            (CopyFromEmu mem source size) size
            (CopyFromEmu mem destination size);
      let mem := CopyToEmu mem newIV r.1 in
      let mem :=
        if cbc_processes size then CopyToEmu mem destination r.2 else mem in
      reply IPC_SUCCESS (State.set_memory st mem).

(** *** Launching titles *)

Definition LaunchIOS (ios_title_id : Z) (st : State.t) : bool * State.t :=
  Reload P ios_title_id st.

(** [LaunchPPCTitle], with its call back into [LaunchTitle] as [launch]. *)
Definition LaunchPPCTitle_body
    (launch : Z -> bool -> State.t -> option (bool * State.t))
    (title_id : Z) (skip_reload : bool) (st : State.t)
  : option (bool * State.t) :=
  let content_loader := AccessContentDevice st title_id in
  if negb (CNANDContentLoader.IsValid content_loader)
  then Some (false, State.emit st [PanicAlert])
  else if negb (TMDReader.IsValid (CNANDContentLoader.GetTMD content_loader))
          || negb (TicketReader.IsValid
                     (CNANDContentLoader.GetTicket content_loader))
  then Some (false, st)
  else if negb skip_reload then
    let st := State.set_title_to_launch st title_id in
    let required_ios :=
      TMDReader.GetIOSId (CNANDContentLoader.GetTMD content_loader) in
    launch required_ios false st
  else
    let u := TitleContext.Update_loader (State.s_title_context st)
               content_loader in
    let st := State.emit (State.set_title_context st u.1) u.2 in
    Some (BootstrapPPC P content_loader st).

(** [LaunchTitle(title_id, skip_reload)].  The two functions call each
    other for as long as the required IOS is itself an ordinary title;
    [fuel] bounds the depth, and [None] is "deeper than [fuel]". *)
Fixpoint LaunchTitle (fuel : nat) (title_id : Z) (skip_reload : bool)
    (st : State.t) : option (bool * State.t) :=
  match fuel with
  | O => None
  | S fuel =>
      let st := State.set_title_context st
                  (TitleContext.Clear (State.s_title_context st)) in
      let st := State.emit st [ClearCache] in
      if IsTitleType title_id TitleType_System &&
         negb (title_id =? TITLEID_SYSMENU P)
      then Some (LaunchIOS title_id st)
      else LaunchPPCTitle_body (LaunchTitle fuel) title_id skip_reload st
  end.

Definition LaunchPPCTitle (fuel : nat) :=
  LaunchPPCTitle_body (LaunchTitle fuel).

(** [ES::Init], on a state whose statics are being reset. *)
Definition Init (fuel : nat) (st : State.t) : option State.t :=
  let st := State.mk "" TitleContext.init (State.s_title_to_launch st)
              (State.m_ContentAccessMap st) (State.m_AccessIdentID st)
              (State.m_addtitle_tmd st) (State.m_addtitle_content_id st)
              (State.m_addtitle_content_buffer st)
              (State.m_export_title_context st) (State.m_is_active st)
              (State.memory st) (State.trace st) in
  if negb (State.s_title_to_launch st =? 0) then
    r ← LaunchTitle fuel (State.s_title_to_launch st) true st;
    Some (State.set_title_to_launch r.2 0)
  else Some st.

(** *** Content access table *)

Definition Close (st : State.t) : State.t :=
  let st := State.set_ContentAccessMap st ∅ in
  let st := State.set_AccessIdentID st 0 in
  let st := State.set_is_active st false in
  State.emit st [ClearCache].

(** [OpenTitleContent(CFD, TitleID, Index)] *)
Definition OpenTitleContent_cfd (CFD TitleID Index : Z) (st : State.t)
  : Z * State.t :=
  let Loader := AccessContentDevice st TitleID in
  if negb (CNANDContentLoader.IsValid Loader)
     || negb (TMDReader.IsValid (CNANDContentLoader.GetTMD Loader))
     || negb (TicketReader.IsValid (CNANDContentLoader.GetTicket Loader))
  then (0xffffffff, st)
  else
    match CNANDContentLoader.GetContentByIndex Loader Index with
    | None => (0xffffffff, st)
    | Some pContent =>
        let content :=
          OpenedContent.mk TitleID (SNANDContent.m_metadata pContent) 0 in
        let st := State.emit st
                    [DataOpen TitleID
                       (Content.id (SNANDContent.m_metadata pContent))] in
        (CFD, State.set_ContentAccessMap st
                (<[CFD := content]> (State.m_ContentAccessMap st)))
    end.

(** [OpenTitleContent(request)] *)
Definition OpenTitleContent (st : State.t) (request : IOCtlVRequest.t)
  : Result :=
  if negb (HasNumberOfValidVectors request 3 0)
  then reply ES_PARAMETER_SIZE_OR_ALIGNMENT st
  else
    let mem := State.memory st in
    let TitleID := Read_U64 mem (IOVector.address (in_vector request 0)) in
    let Index := Read_U32 mem (IOVector.address (in_vector request 2)) in
    let id := State.m_AccessIdentID st in
    let st := State.set_AccessIdentID st (to_u32 (id + 1)) in
    let r := OpenTitleContent_cfd id TitleID (to_u16 Index) st in
    reply_value r.1 r.2.

Definition OpenContent (st : State.t) (request : IOCtlVRequest.t) : Result :=
  if negb (HasNumberOfValidVectors request 1 0)
  then reply ES_PARAMETER_SIZE_OR_ALIGNMENT st
  else
    let Index :=
      Read_U32 (State.memory st) (IOVector.address (in_vector request 0)) in
    if negb (TitleContext.active (State.s_title_context st))
    then reply ES_PARAMETER_SIZE_OR_ALIGNMENT st
    else
      let id := State.m_AccessIdentID st in
      let title_id :=
        TMDReader.GetTitleId (TitleContext.tmd (State.s_title_context st)) in
      let st := State.set_AccessIdentID st (to_u32 (id + 1)) in
      let r := OpenTitleContent_cfd id title_id (to_u16 Index) st in
      reply_value r.1 r.2.

Definition ReadContent (st : State.t) (request : IOCtlVRequest.t) : Result :=
  if negb (HasNumberOfValidVectors request 1 1)
  then reply ES_PARAMETER_SIZE_OR_ALIGNMENT st
  else
    let mem := State.memory st in
    let CFD := Read_U32 mem (IOVector.address (in_vector request 0)) in
    let Size := IOVector.size (io_vector request 0) in
    let Addr := IOVector.address (io_vector request 0) in
    match State.m_ContentAccessMap st !! CFD with
    | None => reply_value (-1) st
    | Some rContent =>
        let pDest := GetPointer P Addr in
        let position := OpenedContent.m_position rContent in
        let content := OpenedContent.m_content rContent in
        let Size :=
          if to_u32 (position + Size) >? Content.size content
          then to_u32 (to_u32 (Content.size content) - position)
          else Size in
        if Size >? 0 then
          if pDest then
            let ContentLoader :=
              AccessContentDevice st (OpenedContent.m_title_id rContent) in
            mem ← (if CNANDContentLoader.IsValid ContentLoader &&
                      TicketReader.IsValid
                        (CNANDContentLoader.GetTicket ContentLoader)
                   then
                     pContent ← CNANDContentLoader.GetContentByIndex
                                  ContentLoader (Content.index content);
                     match SNANDContent.GetRange pContent position Size with
                     | Some bytes => Some (CopyToEmu mem Addr bytes)
                     | None => Some mem
                     end
                   else Some mem);
            let rContent :=
              OpenedContent.set_position rContent (to_u32 (position + Size)) in
            let st := State.set_memory st mem in
            reply_value Size
              (State.set_ContentAccessMap st
                 (<[CFD := rContent]> (State.m_ContentAccessMap st)))
          else reply_value Size (State.emit st [PanicAlert])
        else reply_value Size st
    end.

Definition CloseContent (st : State.t) (request : IOCtlVRequest.t) : Result :=
  if negb (HasNumberOfValidVectors request 1 0)
  then reply ES_PARAMETER_SIZE_OR_ALIGNMENT st
  else
    let CFD :=
      Read_U32 (State.memory st) (IOVector.address (in_vector request 0)) in
    match State.m_ContentAccessMap st !! CFD with
    | None => reply_value (-1) st
    | Some entry =>
        let ContentLoader :=
          AccessContentDevice st (OpenedContent.m_title_id entry) in
        st ← (if CNANDContentLoader.IsValid ContentLoader then
                pContent ← CNANDContentLoader.GetContentByIndex ContentLoader
                             (Content.index (OpenedContent.m_content entry));
                Some (State.emit st
                        [DataClose (OpenedContent.m_title_id entry)
                           (Content.id (SNANDContent.m_metadata pContent))])
              else Some st);
        reply IPC_SUCCESS
          (State.set_ContentAccessMap st
             (delete CFD (State.m_ContentAccessMap st)))
    end.

Definition SeekContent (st : State.t) (request : IOCtlVRequest.t) : Result :=
  if negb (HasNumberOfValidVectors request 3 0)
  then reply ES_PARAMETER_SIZE_OR_ALIGNMENT st
  else
    let mem := State.memory st in
    let CFD := Read_U32 mem (IOVector.address (in_vector request 0)) in
    let Addr := Read_U32 mem (IOVector.address (in_vector request 1)) in
    let Mode := Read_U32 mem (IOVector.address (in_vector request 2)) in
    match State.m_ContentAccessMap st !! CFD with
    | None => reply_value (-1) st
    | Some rContent =>
        let position := OpenedContent.m_position rContent in
        let position :=
          if Mode =? 0 then Addr
          else if Mode =? 1 then to_u32 (position + Addr)
          else if Mode =? 2 then
            to_u32 (to_u32 (Content.size (OpenedContent.m_content rContent))
                    + Addr)
          else position in
        let rContent := OpenedContent.set_position rContent position in
        reply_value position
          (State.set_ContentAccessMap st
             (<[CFD := rContent]> (State.m_ContentAccessMap st)))
    end.

(** *** Title import *)

Definition AddTicket (st : State.t) (request : IOCtlVRequest.t) : Result :=
  if negb (HasNumberOfValidVectors request 3 0)
  then reply ES_PARAMETER_SIZE_OR_ALIGNMENT st
  else
    let ticket :=
      CopyFromEmu (State.memory st) (IOVector.address (in_vector request 0))
        (IOVector.size (in_vector request 0)) in
    reply IPC_SUCCESS (State.emit st [DiscIO_AddTicket ticket]).

Definition AddContentStart (st : State.t) (request : IOCtlVRequest.t)
  : Result :=
  if negb (HasNumberOfValidVectors request 2 0)
  then reply ES_PARAMETER_SIZE_OR_ALIGNMENT st
  else
    let mem := State.memory st in
    let title_id := Read_U64 mem (IOVector.address (in_vector request 0)) in
    let content_id := Read_U32 mem (IOVector.address (in_vector request 1)) in
    if negb (State.m_addtitle_content_id st =? 0xFFFFFFFF)
    then reply ES_WRITE_FAILURE st
    else
      let st := State.set_addtitle_content_id st content_id in
      let st := State.set_addtitle_content_buffer st [] in
      if negb (TMDReader.IsValid (State.m_addtitle_tmd st))
      then reply ES_PARAMETER_SIZE_OR_ALIGNMENT st
      else
        let content_fd := 0 in
        reply_value content_fd st.

(** The bytes from [data_start] to [data_end] are appended; with no
    pointer for the address the range starts at null, and is read unless
    it is empty. *)
Definition AddContentData (st : State.t) (request : IOCtlVRequest.t)
  : Result :=
  if negb (HasNumberOfValidVectors request 2 0)
  then reply ES_PARAMETER_SIZE_OR_ALIGNMENT st
  else
    let data_start := GetPointer P (IOVector.address (in_vector request 1)) in
    let size := IOVector.size (in_vector request 1) in
    if negb data_start && negb (size =? 0) then None
    else
      let data :=
        CopyFromEmu (State.memory st) (IOVector.address (in_vector request 1))
          size in
      reply IPC_SUCCESS
        (State.set_addtitle_content_buffer st
           (State.m_addtitle_content_buffer st ++ data)).

(** [WriteBytes] is handed [content_info.size] bytes of [decrypted_data],
    which has the size of the accumulated buffer: a content size beyond it
    reads past the end of the vector. *)
Definition AddContentFinish (st : State.t) (request : IOCtlVRequest.t)
  : Result :=
  if negb (HasNumberOfValidVectors request 1 0)
  then reply ES_PARAMETER_SIZE_OR_ALIGNMENT st
  else if negb (TMDReader.IsValid (State.m_addtitle_tmd st))
  then reply ES_PARAMETER_SIZE_OR_ALIGNMENT st
  else
    let tmd := State.m_addtitle_tmd st in
    let ticket := FindSignedTicket P (TMDReader.GetTitleId tmd) in
    if negb (TicketReader.IsValid ticket)
    then reply ES_NO_TICKET_INSTALLED st
    else
      match TMDReader.FindContentById tmd (State.m_addtitle_content_id st) with
      | None => reply ES_INVALID_TMD st
      | Some content_info =>
          let iv := replicate 16 0 in
          let iv :=
            <[0%nat := Z.land (Z.shiftr (Content.index content_info) 8) 0xFF]>
              iv in
          let iv := <[1%nat := Z.land (Content.index content_info) 0xFF]> iv in
          let buffer := State.m_addtitle_content_buffer st in
          let decrypted_data := replicate (length buffer) 0 in
          let r := mbedtls_aes_crypt_cbc (aes_encrypt_block P)
                     (aes_decrypt_block P)
                     (take 16 (TicketReader.GetTitleKey ticket))
                     MBEDTLS_AES_DECRYPT (Z.of_nat (length buffer)) iv buffer
                     decrypted_data in
          let decrypted_data := r.2 in
          let content_path :=
            if Content.IsShared content_info
            then SharedContentPath (Content.sha1 content_info)
            else TitleContentPath (TMDReader.GetTitleId tmd)
                   (State.m_addtitle_content_id st) in
          if Z.of_nat (length buffer) <? Content.size content_info then None
          else
            let st :=
              State.emit st
                [WriteBytes content_path
                   (take (Z.to_nat (Content.size content_info))
                      decrypted_data)] in
            reply IPC_SUCCESS (State.set_addtitle_content_id st 0xFFFFFFFF)
      end.

(** *** Title export *)

Definition ExportTitleInit (st : State.t) (request : IOCtlVRequest.t)
  : Result :=
  if negb (HasNumberOfValidVectors request 1 1) ||
     negb (IOVector.size (in_vector request 0) =? 8)
  then reply ES_PARAMETER_SIZE_OR_ALIGNMENT st
  else if TitleExportContext.valid (State.m_export_title_context st)
  then reply ES_PARAMETER_SIZE_OR_ALIGNMENT st
  else
    let content_loader :=
      AccessContentDevice st
        (Read_U64 (State.memory st)
           (IOVector.address (in_vector request 0))) in
    if negb (CNANDContentLoader.IsValid content_loader)
    then reply FS_ENOENT st
    else if negb (TMDReader.IsValid (CNANDContentLoader.GetTMD content_loader))
    then reply ES_INVALID_TMD st
    else
      let tmd := CNANDContentLoader.GetTMD content_loader in
      let ctx :=
        TitleExportContext.set_tmd (State.m_export_title_context st) tmd in
      let st := State.set_export_title_context st ctx in
      let ticket := FindSignedTicket P (TMDReader.GetTitleId tmd) in
      if negb (TicketReader.IsValid ticket)
      then reply ES_NO_TICKET_INSTALLED st
      else if negb (TicketReader.GetTitleId ticket =? TMDReader.GetTitleId tmd)
      then reply ES_PARAMETER_SIZE_OR_ALIGNMENT st
      else
        let ctx :=
          TitleExportContext.set_title_key ctx
            (TicketReader.GetTitleKey ticket) in
        let st := State.set_export_title_context st ctx in
        let raw_tmd := TMDReader.GetRawTMD tmd in
        if negb (IOVector.size (io_vector request 0) =?
                 Z.of_nat (length raw_tmd))
        then reply ES_PARAMETER_SIZE_OR_ALIGNMENT st
        else
          let st :=
            State.set_memory st
              (CopyToEmu (State.memory st)
                 (IOVector.address (io_vector request 0)) raw_tmd) in
          reply IPC_SUCCESS
            (State.set_export_title_context st
               (TitleExportContext.set_valid ctx true)).

(** [while (contents.find(cid) != contents.end()) cid++;] from [cid].  A
    map of [n] entries stops the loop within [n] increments, which is the
    [fuel] its caller passes. *)
Fixpoint scan_unused (contents : gmap Z ExportContent.t) (fuel : nat)
    (cid : Z) : Z :=
  match fuel with
  | O => cid
  | S fuel =>
      if bool_decide (is_Some (contents !! cid))
      then scan_unused contents fuel (to_u32 (cid + 1))
      else cid
  end.

(** [std::map::emplace]: no effect when the key is present. *)
Definition emplace (cid : Z) (x : ExportContent.t)
    (contents : gmap Z ExportContent.t) : gmap Z ExportContent.t :=
  match contents !! cid with
  | Some _ => contents
  | None => <[cid := x]> contents
  end.

Definition ExportContentBegin (st : State.t) (request : IOCtlVRequest.t)
  : Result :=
  if negb (HasNumberOfValidVectors request 2 0) ||
     negb (IOVector.size (in_vector request 0) =? 8) ||
     negb (IOVector.size (in_vector request 1) =? 4)
  then reply ES_PARAMETER_SIZE_OR_ALIGNMENT st
  else
    let mem := State.memory st in
    let title_id := Read_U64 mem (IOVector.address (in_vector request 0)) in
    let content_id := Read_U32 mem (IOVector.address (in_vector request 1)) in
    let ctx := State.m_export_title_context st in
    if negb (TitleExportContext.valid ctx) ||
       negb (TMDReader.GetTitleId (TitleExportContext.tmd ctx) =? title_id)
    then reply ES_PARAMETER_SIZE_OR_ALIGNMENT st
    else
      let content_loader := AccessContentDevice st title_id in
      if negb (CNANDContentLoader.IsValid content_loader)
      then reply FS_ENOENT st
      else
        match CNANDContentLoader.GetContentByID content_loader content_id with
        | None => reply ES_PARAMETER_SIZE_OR_ALIGNMENT st
        | Some content =>
            let metadata := SNANDContent.m_metadata content in
            let entry := OpenedContent.mk title_id metadata 0 in
            let st := State.emit st [DataOpen title_id (Content.id metadata)] in
            let contents := TitleExportContext.contents ctx in
            let cid := scan_unused contents (size contents) 0 in
            let iv := replicate 16 0 in
            let iv :=
              <[0%nat := Z.land (Z.shiftr (Content.index metadata) 8) 0xFF]>
                iv in
            let iv := <[1%nat := Z.land (Content.index metadata) 0xFF]> iv in
            let content_export := ExportContent.mk entry iv in
            let ctx :=
              TitleExportContext.set_contents ctx
                (emplace cid content_export contents) in
            reply_value cid (State.set_export_title_context st ctx)
        end.

Definition ExportContentData (st : State.t) (request : IOCtlVRequest.t)
  : Result :=
  if negb (HasNumberOfValidVectors request 1 1) ||
     negb (IOVector.size (in_vector request 0) =? 4) ||
     (IOVector.size (io_vector request 0) =? 0)
  then reply ES_PARAMETER_SIZE_OR_ALIGNMENT st
  else
    let content_id :=
      Read_U32 (State.memory st) (IOVector.address (in_vector request 0)) in
    let bytes_to_read := IOVector.size (io_vector request 0) in
    let ctx := State.m_export_title_context st in
    match TitleExportContext.contents ctx !! content_id with
    | None => reply ES_PARAMETER_SIZE_OR_ALIGNMENT st
    | Some it =>
        let metadata := ExportContent.content it in
        let position := OpenedContent.m_position metadata in
        let content_size := Content.size (OpenedContent.m_content metadata) in
        if negb (TitleExportContext.valid ctx) || (position >=? content_size)
        then reply ES_PARAMETER_SIZE_OR_ALIGNMENT st
        else
          let content_loader :=
            AccessContentDevice st (OpenedContent.m_title_id metadata) in
          content ← CNANDContentLoader.GetContentByID content_loader
                      (Content.id (OpenedContent.m_content metadata));
          let st :=
            State.emit st
              [DataOpen (OpenedContent.m_title_id metadata)
                 (Content.id (OpenedContent.m_content metadata))] in
          let length := Z.min (to_u32 (content_size - position)) bytes_to_read in
          match SNANDContent.GetRange content position length with
          | None => reply ES_READ_LESS_DATA_THAN_EXPECTED st
          | Some buffer =>
              let aligned := AlignUp (Z.of_nat (List.length buffer)) 32 in
              let buffer :=
                buffer ++
                replicate (Z.to_nat aligned - List.length buffer)%nat 0 in
              let output := replicate (List.length buffer) 0 in
              let r := mbedtls_aes_crypt_cbc (aes_encrypt_block P)
                         (aes_decrypt_block P)
                         (take 16 (TitleExportContext.title_key ctx))
                         MBEDTLS_AES_ENCRYPT (Z.of_nat (List.length buffer))
                         (ExportContent.iv it) buffer output in
              let it := ExportContent.mk metadata r.1.2 in
              if negb (r.1.1 =? 0) then
                reply ES_PARAMETER_SIZE_OR_ALIGNMENT
                  (State.set_export_title_context st
                     (TitleExportContext.set_contents ctx
                        (<[content_id := it]>
                           (TitleExportContext.contents ctx))))
              else
                let st :=
                  State.set_memory st
                    (CopyToEmu (State.memory st)
                       (IOVector.address (io_vector request 0)) r.2) in
                let it :=
                  ExportContent.mk
                    (OpenedContent.set_position metadata
                       (to_u32 (position + length)))
                    r.1.2 in
                reply IPC_SUCCESS
                  (State.set_export_title_context st
                     (TitleExportContext.set_contents ctx
                        (<[content_id := it]>
                           (TitleExportContext.contents ctx))))
          end
    end.

Definition ExportContentEnd (st : State.t) (request : IOCtlVRequest.t)
  : Result :=
  if negb (HasNumberOfValidVectors request 1 0) ||
     negb (IOVector.size (in_vector request 0) =? 4)
  then reply ES_PARAMETER_SIZE_OR_ALIGNMENT st
  else
    let content_id :=
      Read_U32 (State.memory st) (IOVector.address (in_vector request 0)) in
    let ctx := State.m_export_title_context st in
    match TitleExportContext.contents ctx !! content_id with
    | None => reply ES_PARAMETER_SIZE_OR_ALIGNMENT st
    | Some it =>
        let entry := ExportContent.content it in
        if negb (TitleExportContext.valid ctx) ||
           negb (OpenedContent.m_position entry =?
                 Content.size (OpenedContent.m_content entry))
        then reply ES_PARAMETER_SIZE_OR_ALIGNMENT st
        else
          let content_loader :=
            AccessContentDevice st (OpenedContent.m_title_id entry) in
          content ← CNANDContentLoader.GetContentByID content_loader
                      (Content.id (OpenedContent.m_content entry));
          let st :=
            State.emit st
              [DataClose (OpenedContent.m_title_id entry)
                 (Content.id (SNANDContent.m_metadata content))] in
          reply IPC_SUCCESS
            (State.set_export_title_context st
               (TitleExportContext.set_contents ctx
                  (delete content_id (TitleExportContext.contents ctx))))
    end.

Definition ExportTitleDone (st : State.t) (request : IOCtlVRequest.t)
  : Result :=
  if negb (TitleExportContext.valid (State.m_export_title_context st))
  then reply ES_PARAMETER_SIZE_OR_ALIGNMENT st
  else
    reply IPC_SUCCESS
      (State.set_export_title_context st
         (TitleExportContext.set_valid (State.m_export_title_context st)
            false)).

(** *** Dispatch *)

(** The loop at the head of [ES::IOCtlV] that clears the IO buffers. *)
Definition ClearIOBuffers (st : State.t) (request : IOCtlVRequest.t)
  : State.t :=
  State.set_memory st
    (foldl (fun mem io_vector =>
              if negb (IOCtlVRequest.HasInputVectorWithAddress request
                         (IOVector.address io_vector))
              then Memset mem (IOVector.address io_vector) 0
                     (IOVector.size io_vector)
              else mem)
           (State.memory st) (IOCtlVRequest.io_vectors request)).

Definition IOCtlV (st : State.t) (request : IOCtlVRequest.t) : Result :=
  let st := ClearIOBuffers st request in
  match IOCtlVRequest.request request with
  | IOCTL_ES_ADDTICKET => AddTicket st request
  | IOCTL_ES_ADDCONTENTSTART => AddContentStart st request
  | IOCTL_ES_ADDCONTENTDATA => AddContentData st request
  | IOCTL_ES_ADDCONTENTFINISH => AddContentFinish st request
  | IOCTL_ES_OPENTITLECONTENT => OpenTitleContent st request
  | IOCTL_ES_OPENCONTENT => OpenContent st request
  | IOCTL_ES_READCONTENT => ReadContent st request
  | IOCTL_ES_CLOSECONTENT => CloseContent st request
  | IOCTL_ES_SEEKCONTENT => SeekContent st request
  | IOCTL_ES_ENCRYPT => Encrypt st request
  | IOCTL_ES_DECRYPT => Decrypt st request
  | IOCTL_ES_EXPORTTITLEINIT => ExportTitleInit st request
  | IOCTL_ES_EXPORTCONTENTBEGIN => ExportContentBegin st request
  | IOCTL_ES_EXPORTCONTENTDATA => ExportContentData st request
  | IOCTL_ES_EXPORTCONTENTEND => ExportContentEnd st request
  | IOCTL_ES_EXPORTTITLEDONE => ExportTitleDone st request
  | IOCTL_ES_unknown _ => reply IPC_SUCCESS st
  end.
End WithPlatform.

(** *** Title information, title import and disc verification

    The functions below are embedded on their own: [IOCtlV] above routes
    the codes of [ESIoctlv] only.  What they ask of the file system is an
    argument, and the calls they make into it are returned beside the
    result. *)

Section Titles.
Variable P : Platform.

(** Modelled from the spec: [IOS::ES::TMDReader{bytes}] and
    [TMDReader::SetBytes(bytes)] (Formats.h, not under src/), which "decode
    and validate a TMD": the reader over [bytes]. *)
Variable TMDReader_SetBytes : list Z -> TMDReader.t.

(** Modelled from the spec: [TMDReader::GetRawView()] (Formats.h, not under
    src/), the bytes of the TMD's view, a summary "used for view-only
    queries". *)
Variable GetRawView : TMDReader.t -> list Z.

Definition LoadWAD (st : State.t) (_rContentFile : string) : State.t :=
  let st := State.set_content_file st _rContentFile in
  let content_loader := GetNANDLoader_file P (State.s_content_file st) in
  let u :=
    TitleContext.Update_loader (State.s_title_context st) content_loader in
  State.emit (State.set_title_context st u.1) u.2.

(** [ES::DIVerify(tmd, ticket)], given what [File::Exists] says of the
    title's TMD file: the return code, the state and the calls into the
    NAND.  The result of writing the TMD file is only logged. *)
Definition DIVerify (tmd_exists : bool) (tmd : TMDReader.t)
    (ticket : TicketReader.t) (st : State.t)
  : ReturnCode * State.t * list NandCall :=
  let st :=
    State.set_title_context st
      (TitleContext.Clear (State.s_title_context st)) in
  if negb (TMDReader.IsValid tmd) || negb (TicketReader.IsValid ticket)
  then (ES_PARAMETER_SIZE_OR_ALIGNMENT, st, [])
  else if negb (TMDReader.GetTitleId tmd =? TicketReader.GetTitleId ticket)
  then (ES_PARAMETER_SIZE_OR_ALIGNMENT, st, [])
  else
    let tmd_path := TMDFileName (TMDReader.GetTitleId tmd) in
    let calls :=
      [CreateFullPath tmd_path;
       CreateFullPath (TitleDataPath (TMDReader.GetTitleId tmd))] ++
      (if negb tmd_exists
       then [File_WriteBytes tmd_path (TMDReader.GetRawTMD tmd)]
       else []) ++
      [UIDSys_AddTitle (TMDReader.GetTitleId tmd)] in
    let st := State.emit st [ClearCache] in
    let u := TitleContext.Update (State.s_title_context st) tmd ticket in
    (IPC_SUCCESS, State.emit (State.set_title_context st u.1) u.2, calls).

(** [WriteTMD(tmd)], given whether [File::IOFile::WriteBytes] succeeds. *)
Definition WriteTMD (write_ok : bool) (tmd : TMDReader.t)
  : bool * list NandCall :=
  let tmd_path := TMDFileName (TMDReader.GetTitleId tmd) in
  (write_ok,
   [CreateFullPath tmd_path;
    File_WriteBytes tmd_path (TMDReader.GetRawTMD tmd)]).

Definition AddTMD (write_ok : bool) (st : State.t)
    (request : IOCtlVRequest.t) : Result * list NandCall :=
  if negb (HasNumberOfValidVectors P request 1 0)
  then (reply ES_PARAMETER_SIZE_OR_ALIGNMENT st, [])
  else
    let tmd :=
      CopyFromEmu (State.memory st) (IOVector.address (in_vector request 0))
        (IOVector.size (in_vector request 0)) in
    let st := State.set_addtitle_tmd st (TMDReader_SetBytes tmd) in
    if negb (TMDReader.IsValid (State.m_addtitle_tmd st))
    then (reply ES_INVALID_TMD st, [])
    else
      let w := WriteTMD write_ok (State.m_addtitle_tmd st) in
      if negb w.1 then (reply ES_WRITE_FAILURE st, w.2)
      else (reply IPC_SUCCESS st, w.2).

Definition AddTitleStart (write_ok : bool) (st : State.t)
    (request : IOCtlVRequest.t) : Result * list NandCall :=
  if negb (HasNumberOfValidVectors P request 4 0)
  then (reply ES_PARAMETER_SIZE_OR_ALIGNMENT st, [])
  else
    let tmd :=
      CopyFromEmu (State.memory st) (IOVector.address (in_vector request 0))
        (IOVector.size (in_vector request 0)) in
    let st := State.set_addtitle_tmd st (TMDReader_SetBytes tmd) in
    if negb (TMDReader.IsValid (State.m_addtitle_tmd st))
    then (reply ES_INVALID_TMD st, [])
    else
      let w := WriteTMD write_ok (State.m_addtitle_tmd st) in
      if negb w.1 then (reply ES_WRITE_FAILURE st, w.2)
      else
        (reply IPC_SUCCESS st,
         w.2 ++
         [UIDSys_AddTitle (TMDReader.GetTitleId (State.m_addtitle_tmd st))]).

Definition AddTitleFinish (st : State.t) (request : IOCtlVRequest.t)
  : Result :=
  if negb (HasNumberOfValidVectors P request 0 0) ||
     negb (TMDReader.IsValid (State.m_addtitle_tmd st))
  then reply ES_PARAMETER_SIZE_OR_ALIGNMENT st
  else reply IPC_SUCCESS (State.set_addtitle_tmd st TMDReader.empty).

Definition GetTitleContents (st : State.t) (request : IOCtlVRequest.t)
  : Result :=
  if negb (HasNumberOfValidVectors P request 2 1)
  then reply ES_PARAMETER_SIZE_OR_ALIGNMENT st
  else
    let TitleID :=
      Read_U64 (State.memory st) (IOVector.address (in_vector request 0)) in
    let rNANDContent := AccessContentDevice P st TitleID in
    if negb (CNANDContentLoader.IsValid rNANDContent) ||
       negb (TMDReader.IsValid (CNANDContentLoader.GetTMD rNANDContent))
    then reply ES_PARAMETER_SIZE_OR_ALIGNMENT st
    else
      let mem :=
        foldl
          (fun mem content =>
             let index := to_u16 (Content.index content) in
             Write_U32 mem (Content.id content)
               (to_u32 (IOVector.address (io_vector request 0) + index * 4)))
          (State.memory st)
          (TMDReader.GetContents (CNANDContentLoader.GetTMD rNANDContent)) in
      reply IPC_SUCCESS (State.set_memory st mem).

Definition GetTitleDirectory (st : State.t) (request : IOCtlVRequest.t)
  : Result :=
  if negb (HasNumberOfValidVectors P request 1 1)
  then reply ES_PARAMETER_SIZE_OR_ALIGNMENT st
  else
    let TitleID :=
      Read_U64 (State.memory st) (IOVector.address (in_vector request 0)) in
    if GetPointer P (IOVector.address (io_vector request 0)) then
      let Path :=
        "/title/" +:+ format_08x (to_u32 (Z.shiftr TitleID 32)) +:+ "/" +:+
        format_08x (to_u32 TitleID) +:+ "/data" in
      reply IPC_SUCCESS
        (State.set_memory st
           (CopyToEmu (State.memory st)
              (IOVector.address (io_vector request 0)) (c_str Path)))
    else None.

Definition GetTitleID (st : State.t) (request : IOCtlVRequest.t) : Result :=
  if negb (HasNumberOfValidVectors P request 0 1)
  then reply ES_PARAMETER_SIZE_OR_ALIGNMENT st
  else if negb (TitleContext.active (State.s_title_context st))
  then reply ES_PARAMETER_SIZE_OR_ALIGNMENT st
  else
    let title_id :=
      TMDReader.GetTitleId (TitleContext.tmd (State.s_title_context st)) in
    reply IPC_SUCCESS
      (State.set_memory st
         (Write_U64 (State.memory st) title_id
            (IOVector.address (io_vector request 0)))).

(** [GetTitleCount(titles, request)] *)
Definition GetTitleCount (titles : list Z) (st : State.t)
    (request : IOCtlVRequest.t) : Result :=
  if negb (HasNumberOfValidVectors P request 0 1) ||
     negb (IOVector.size (io_vector request 0) =? 4)
  then reply ES_PARAMETER_SIZE_OR_ALIGNMENT st
  else
    reply IPC_SUCCESS
      (State.set_memory st
         (Write_U32 (State.memory st) (to_u32 (Z.of_nat (length titles)))
            (IOVector.address (io_vector request 0)))).

(** The loop of [GetTitles(titles, request)] from index [i] on. *)
Fixpoint write_titles (mem : Memory) (address i : Z) (titles : list Z)
  : Memory :=
  match titles with
  | [] => mem
  | title :: titles =>
      write_titles (Write_U64 mem title (to_u32 (address + to_u32 i * 8)))
        address (i + 1) titles
  end.

(** [GetTitles(titles, request)] *)
Definition GetTitles (titles : list Z) (st : State.t)
    (request : IOCtlVRequest.t) : Result :=
  if negb (HasNumberOfValidVectors P request 1 1)
  then reply ES_PARAMETER_SIZE_OR_ALIGNMENT st
  else
    let max_count :=
      Read_U32 (State.memory st) (IOVector.address (in_vector request 0)) in
    let count := Z.min max_count (Z.of_nat (length titles)) in
    reply IPC_SUCCESS
      (State.set_memory st
         (write_titles (State.memory st)
            (IOVector.address (io_vector request 0)) 0
            (take (Z.to_nat count) titles))).

Definition DIGetTMDViewSize (st : State.t) (request : IOCtlVRequest.t)
  : Result :=
  if negb (HasNumberOfValidVectors P request 1 1)
  then reply ES_PARAMETER_SIZE_OR_ALIGNMENT st
  else if IOVector.size (in_vector request 0) >=? 4 * 1024 * 1024
  then reply ES_PARAMETER_SIZE_OR_ALIGNMENT st
  else if negb (IOVector.size (io_vector request 0) =? 4)
  then reply ES_PARAMETER_SIZE_OR_ALIGNMENT st
  else
    let has_tmd := negb (IOVector.size (in_vector request 0) =? 0) in
    let written tmd_view_size :=
      reply IPC_SUCCESS
        (State.set_memory st
           (Write_U32 (State.memory st) (to_u32 tmd_view_size)
              (IOVector.address (io_vector request 0)))) in
    if has_tmd then
      let tmd_bytes :=
        CopyFromEmu (State.memory st) (IOVector.address (in_vector request 0))
          (IOVector.size (in_vector request 0)) in
      let tmd := TMDReader_SetBytes tmd_bytes in
      if negb (TMDReader.IsValid tmd)
      then reply ES_PARAMETER_SIZE_OR_ALIGNMENT st
      else written (Z.of_nat (length (GetRawView tmd)))
    else if negb (TitleContext.active (State.s_title_context st))
    then reply ES_PARAMETER_SIZE_OR_ALIGNMENT st
    else
      written
        (Z.of_nat
           (length (GetRawView (TitleContext.tmd (State.s_title_context st))))).

Definition DIGetTMDView (st : State.t) (request : IOCtlVRequest.t) : Result :=
  if negb (HasNumberOfValidVectors P request 2 1)
  then reply ES_PARAMETER_SIZE_OR_ALIGNMENT st
  else if IOVector.size (in_vector request 0) >=? 4 * 1024 * 1024
  then reply ES_PARAMETER_SIZE_OR_ALIGNMENT st
  else if negb (IOVector.size (in_vector request 1) =? 4) ||
          negb (Read_U32 (State.memory st)
                  (IOVector.address (in_vector request 1)) =?
                IOVector.size (io_vector request 0))
  then reply ES_PARAMETER_SIZE_OR_ALIGNMENT st
  else
    let has_tmd := negb (IOVector.size (in_vector request 0) =? 0) in
    let copied tmd_view :=
      if negb (Z.of_nat (length tmd_view) =?
               IOVector.size (io_vector request 0))
      then reply ES_PARAMETER_SIZE_OR_ALIGNMENT st
      else
        reply IPC_SUCCESS
          (State.set_memory st
             (CopyToEmu (State.memory st)
                (IOVector.address (io_vector request 0)) tmd_view)) in
    if has_tmd then
      let tmd_bytes :=
        CopyFromEmu (State.memory st) (IOVector.address (in_vector request 0))
          (IOVector.size (in_vector request 0)) in
      let tmd := TMDReader_SetBytes tmd_bytes in
      if negb (TMDReader.IsValid tmd)
      then reply ES_PARAMETER_SIZE_OR_ALIGNMENT st
      else copied (GetRawView tmd)
    else if negb (TitleContext.active (State.s_title_context st))
    then reply ES_PARAMETER_SIZE_OR_ALIGNMENT st
    else copied (GetRawView (TitleContext.tmd (State.s_title_context st))).

Definition GetStoredTMDSize (st : State.t) (request : IOCtlVRequest.t)
  : Result :=
  if negb (HasNumberOfValidVectors P request 1 1)
  then reply ES_PARAMETER_SIZE_OR_ALIGNMENT st
  else
    let TitleID :=
      Read_U64 (State.memory st) (IOVector.address (in_vector request 0)) in
    let Loader := AccessContentDevice P st TitleID in
    if negb (CNANDContentLoader.IsValid Loader) ||
       negb (TMDReader.IsValid (CNANDContentLoader.GetTMD Loader))
    then reply FS_ENOENT st
    else
      let tmd_size :=
        to_u32 (Z.of_nat (length (TMDReader.GetRawTMD
                                    (CNANDContentLoader.GetTMD Loader)))) in
      reply IPC_SUCCESS
        (State.set_memory st
           (Write_U32 (State.memory st) tmd_size
              (IOVector.address (io_vector request 0)))).

Definition GetStoredTMD (st : State.t) (request : IOCtlVRequest.t) : Result :=
  if negb (HasNumberOfValidVectors P request 2 1)
  then reply ES_PARAMETER_SIZE_OR_ALIGNMENT st
  else
    let TitleID :=
      Read_U64 (State.memory st) (IOVector.address (in_vector request 0)) in
    let Loader := AccessContentDevice P st TitleID in
    if negb (CNANDContentLoader.IsValid Loader) ||
       negb (TMDReader.IsValid (CNANDContentLoader.GetTMD Loader))
    then reply FS_ENOENT st
    else
      let raw_tmd := TMDReader.GetRawTMD (CNANDContentLoader.GetTMD Loader) in
      if negb (Z.of_nat (length raw_tmd) =?
               IOVector.size (io_vector request 0))
      then reply ES_PARAMETER_SIZE_OR_ALIGNMENT st
      else
        reply IPC_SUCCESS
          (State.set_memory st
             (CopyToEmu (State.memory st)
                (IOVector.address (io_vector request 0)) raw_tmd)).

End Titles.
End ES.

(** ** Sequences of operations *)

(** Operations on the title context, for statements about their order. *)
Inductive TitleContextOp :=
| OpClear
| OpUpdate (tmd : TMDReader.t) (ticket : TicketReader.t).

Definition title_context_step (c : TitleContext.t) (o : TitleContextOp)
  : TitleContext.t * list Event :=
  match o with
  | OpClear => (TitleContext.Clear c, [])
  | OpUpdate tmd ticket => TitleContext.Update c tmd ticket
  end.

(** The context after [ops] and every collaborator call made on the way. *)
Fixpoint title_context_run (c : TitleContext.t) (ops : list TitleContextOp)
  : TitleContext.t * list Event :=
  match ops with
  | [] => (c, [])
  | o :: ops =>
      let r := title_context_step c o in
      let r' := title_context_run r.1 ops in
      (r'.1, r.2 ++ r'.2)
  end.

Definition update_succeeds (o : TitleContextOp) : bool :=
  match o with
  | OpClear => false
  | OpUpdate tmd ticket => TMDReader.IsValid tmd && TicketReader.IsValid ticket
  end.

(** The notification owed to the first update of [ops] that succeeds. *)
Definition first_notification (ops : list TitleContextOp) : list Event :=
  match List.find update_succeeds ops with
  | Some (OpUpdate tmd _) => [UpdateRunningGame (TMDReader.GetTitleId tmd)]
  | _ => []
  end.

(** The descriptor a reply to an open request carries, read as the guest
    does: [None] for an error code or the all-ones sentinel. *)
Definition opened_handle (request : IOCtlVRequest.t) (r : IPCCommandResult)
  : option Z :=
  match IOCtlVRequest.request request, r with
  | IOCTL_ES_OPENTITLECONTENT, GetDefaultReply (Value v)
  | IOCTL_ES_OPENCONTENT, GetDefaultReply (Value v) =>
      if v =? -1 then None else Some (to_u32 v)
  | _, _ => None
  end.

(** A run of ioctlvs through [ES::IOCtlV]: the descriptors handed out, in
    order, and the final state. *)
Fixpoint run_session (P : Platform) (st : State.t)
    (requests : list IOCtlVRequest.t) : option (list Z * State.t) :=
  match requests with
  | [] => Some ([], st)
  | request :: requests =>
      r ← ES.IOCtlV P st request;
      r' ← run_session P r.2 requests;
      Some (option_list (opened_handle request r.1) ++ r'.1, r'.2)
  end.

(** How often the descriptor counter moves during such a run: the number
    of requests that leave [m_AccessIdentID] changed.  The counter at the
    start plus this number is the counter's value had it not been 32 bits
    wide. *)
Fixpoint counter_moves (P : Platform) (st : State.t)
    (requests : list IOCtlVRequest.t) : Z :=
  match requests with
  | [] => 0
  | request :: requests =>
      match ES.IOCtlV P st request with
      | Some r =>
          (if State.m_AccessIdentID r.2 =? State.m_AccessIdentID st
           then 0 else 1) + counter_moves P r.2 requests
      | None => 0
      end
  end.

(** [cid] is the lowest export content id with no entry in [contents]. *)
Definition lowest_unused (contents : gmap Z ExportContent.t) (cid : Z) : Prop :=
  0 <= cid /\ contents !! cid = None /\
  forall j, 0 <= j < cid -> is_Some (contents !! j).

(** The IV of a content: the two bytes of its index, then fourteen zeros. *)
Definition content_iv (index : Z) : list Z :=
  [index / 2 ^ 8; index mod 2 ^ 8] ++ replicate 14 0.

(** ** A small installation, for concrete runs *)

Module Sample.
(** A stand-in for the AES block functions: XOR with the key and reverse
    the block, and back. *)
Fixpoint xor_key (key block : list Z) : list Z :=
  match block, key with
  | b :: block, k :: key => Z.lxor b k :: xor_key key block
  | _, _ => block
  end.
Definition encrypt_block (key block : list Z) : list Z :=
  reverse (xor_key key block).
Definition decrypt_block (key block : list Z) : list Z :=
  xor_key key (reverse block).

Definition title_id : Z := 0x0001000148415858.
Definition ios_id : Z := 0x0000000100000050.

Definition content0 : Content.t := Content.mk 7 0x0102 0x0001 50 [].
Definition tmd : TMDReader.t :=
  TMDReader.mk [1; 2; 3; 4] true title_id ios_id 0x3031 [content0].
Definition ticket : TicketReader.t :=
  TicketReader.mk [5; 6; 7; 8] true title_id (replicate 16 0x11).
Definition loader : CNANDContentLoader.t :=
  CNANDContentLoader.mk true tmd ticket
    [SNANDContent.mk content0 (seqZ 0 50)].

(** The IOS the sample title requires, installed as a title of its own. *)
Definition ios_tmd : TMDReader.t :=
  TMDReader.mk [9] true ios_id 0x0000000100000009 0 [].
Definition ios_ticket : TicketReader.t :=
  TicketReader.mk [10] true ios_id (replicate 16 0).
Definition ios_loader : CNANDContentLoader.t :=
  CNANDContentLoader.mk true ios_tmd ios_ticket [].

Definition platform : Platform := {|
  aes_encrypt_block := encrypt_block;
  aes_decrypt_block := decrypt_block;
  IsValidVector := fun v =>
    (IOVector.size v =? 0) || negb (IOVector.address v =? 0);
  GetPointer := fun a => a <? 0x01800000;
  GetNANDLoader_file := fun _ => CNANDContentLoader.invalid;
  GetNANDLoader_title := fun t =>
    if t =? title_id then loader
    else if t =? ios_id then ios_loader
    else CNANDContentLoader.invalid;
  FindSignedTicket := fun t =>
    if t =? title_id then ticket else TicketReader.empty;
  TITLEID_SYSMENU := 0x0000000100000002;
  Reload := fun ios st => (true, State.emit st [IOSReload ios]);
  BootstrapPPC := fun l st =>
    (true, State.emit st
             [PPCBootstrap (TMDReader.GetTitleId (CNANDContentLoader.GetTMD l))])
|}.

(** Guest memory holding a 32-bit [v] at [a]. *)
Definition poke32 (m : Memory) (a v : Z) : Memory :=
  CopyToEmu m a [to_u8 (Z.shiftr v 24); to_u8 (Z.shiftr v 16);
                 to_u8 (Z.shiftr v 8); to_u8 v].
Definition poke64 (m : Memory) (a v : Z) : Memory :=
  poke32 (poke32 m a (Z.shiftr v 32)) (a + 4) v.
End Sample.

(** The shape each embedded handler asks [HasNumberOfValidVectors] for;
    [ExportTitleDone] asks for none. *)
Definition declared_shape (c : ESIoctlv) : option (nat * nat) :=
  match c with
  | IOCTL_ES_ADDTICKET => Some (3, 0)
  | IOCTL_ES_ADDCONTENTSTART => Some (2, 0)
  | IOCTL_ES_ADDCONTENTDATA => Some (2, 0)
  | IOCTL_ES_ADDCONTENTFINISH => Some (1, 0)
  | IOCTL_ES_OPENTITLECONTENT => Some (3, 0)
  | IOCTL_ES_OPENCONTENT => Some (1, 0)
  | IOCTL_ES_READCONTENT => Some (1, 1)
  | IOCTL_ES_CLOSECONTENT => Some (1, 0)
  | IOCTL_ES_SEEKCONTENT => Some (3, 0)
  | IOCTL_ES_ENCRYPT => Some (3, 2)
  | IOCTL_ES_DECRYPT => Some (3, 2)
  | IOCTL_ES_EXPORTTITLEINIT => Some (1, 1)
  | IOCTL_ES_EXPORTCONTENTBEGIN => Some (2, 0)
  | IOCTL_ES_EXPORTCONTENTDATA => Some (1, 1)
  | IOCTL_ES_EXPORTCONTENTEND => Some (1, 0)
  | IOCTL_ES_EXPORTTITLEDONE => None
  | IOCTL_ES_unknown _ => None
  end%nat.

Module SampleImport.
(** A content transfer in flight: content 7 pending, three bytes received. *)
Definition pending_state : State.t :=
  State.set_addtitle_content_buffer
    (State.set_addtitle_content_id State.init 7) [1; 2; 3].
Definition begin_request : IOCtlVRequest.t :=
  IOCtlVRequest.mk 0x1000 IOCTL_ES_ADDCONTENTSTART
    [IOVector.mk 0x100 8; IOVector.mk 0x200 4] [].
(** The sample title being imported: content 7 pending with 64 bytes
    received. *)
Definition finish_state : State.t :=
  State.mk "" TitleContext.init 0 ∅ 0 Sample.tmd 7 (seqZ 0 64)
    (TitleExportContext.mk false TMDReader.empty [] ∅) false ∅ [].
Definition finish_request : IOCtlVRequest.t :=
  IOCtlVRequest.mk 0x1000 IOCTL_ES_ADDCONTENTFINISH [IOVector.mk 0x100 4] [].
End SampleImport.

Module SampleRead.
Import Sample.
(** Guest memory for the runs below: the title id at 0x100, the content
    index at 0x300, descriptor 0 at 0x400, the seek offset 100 at 0x500,
    the seek mode 0 (SET) at 0x600 and an index no content has at 0x700. *)
Definition mem : Memory :=
  poke32
    (poke32 (poke32 (poke32 (poke32 (poke64 ∅ 0x100 title_id) 0x300 0x0102)
                       0x400 0) 0x500 100) 0x600 0)
    0x700 9.
Definition st0 : State.t := State.set_memory State.init mem.
Definition open_request : IOCtlVRequest.t :=
  IOCtlVRequest.mk 0x1000 IOCTL_ES_OPENTITLECONTENT
    [IOVector.mk 0x100 8; IOVector.mk 0x200 0xd8; IOVector.mk 0x300 4] [].
Definition seek_request : IOCtlVRequest.t :=
  IOCtlVRequest.mk 0x1000 IOCTL_ES_SEEKCONTENT
    [IOVector.mk 0x400 4; IOVector.mk 0x500 4; IOVector.mk 0x600 4] [].
Definition read_request (n : Z) : IOCtlVRequest.t :=
  IOCtlVRequest.mk 0x1000 IOCTL_ES_READCONTENT
    [IOVector.mk 0x400 4] [IOVector.mk 0x2000 n].
Definition close_request : IOCtlVRequest.t :=
  IOCtlVRequest.mk 0x1000 IOCTL_ES_CLOSECONTENT [IOVector.mk 0x400 4] [].
(** An open of an index the title does not have, an open with one vector
    too few, and an open in the running title. *)
Definition open_missing_request : IOCtlVRequest.t :=
  IOCtlVRequest.mk 0x1000 IOCTL_ES_OPENTITLECONTENT
    [IOVector.mk 0x100 8; IOVector.mk 0x200 0xd8; IOVector.mk 0x700 4] [].
Definition open_short_request : IOCtlVRequest.t :=
  IOCtlVRequest.mk 0x1000 IOCTL_ES_OPENTITLECONTENT
    [IOVector.mk 0x100 8; IOVector.mk 0x300 4] [].
Definition open_content_request : IOCtlVRequest.t :=
  IOCtlVRequest.mk 0x1000 IOCTL_ES_OPENCONTENT [IOVector.mk 0x300 4] [].
(** The device with the sample content open as descriptor 0 and the
    counter at [counter]. *)
Definition st_opened (counter : Z) : State.t :=
  State.mk "" TitleContext.init 0
    {[0 := OpenedContent.mk title_id content0 0]} counter
    TMDReader.empty 0xFFFFFFFF []
    (TitleExportContext.mk false TMDReader.empty [] ∅) false mem
    [DataOpen title_id 7].
(** A session of 2^32 + 1 open requests: one that succeeds, 2^32 - 2 that
    fail with the sentinel, and two more that succeed. *)
Definition long_session : list IOCtlVRequest.t :=
  open_request ::
  replicate (Z.to_nat (2 ^ 32 - 2)) open_missing_request ++
  [open_request; open_request].
(** The replies to a list of requests and the position of descriptor 0
    after them. *)
Fixpoint replies (st : State.t) (requests : list IOCtlVRequest.t)
  : option (list IPCCommandResult * option Z) :=
  match requests with
  | [] =>
      Some ([], OpenedContent.m_position <$> State.m_ContentAccessMap st !! 0)
  | request :: requests =>
      r ← ES.IOCtlV platform st request;
      r' ← replies r.2 requests;
      Some (r.1 :: r'.1, r'.2)
  end.
End SampleRead.

(** The last 16 bytes of a buffer: the CBC chaining state after it. *)
Definition last_block (l : list Z) : list Z := drop (length l - 16) l.

(** What [LaunchTitle] does before it looks at the title: clear the title
    context and flush the content manager. *)
Definition launch_cleared (st : State.t) : State.t :=
  State.emit
    (State.set_title_context st (TitleContext.Clear (State.s_title_context st)))
    [ClearCache].

(** A system title other than the system menu: what [LaunchTitle] hands to
    [LaunchIOS]. *)
Definition is_ios_title (P : Platform) (title_id : Z) : bool :=
  IsTitleType title_id TitleType_System && negb (title_id =? TITLEID_SYSMENU P).

Module SampleExport.
Import Sample.
(** Guest memory: the title id at 0x100, content id 7 at 0x300 and export
    content id 0 at 0x400. *)
Definition mem : Memory :=
  poke32 (poke32 (poke64 ∅ 0x100 title_id) 0x300 7) 0x400 0.
Definition session (contents : gmap Z ExportContent.t)
  : TitleExportContext.t :=
  TitleExportContext.mk true tmd (replicate 16 0x11) contents.
Definition state (contents : gmap Z ExportContent.t) : State.t :=
  State.set_export_title_context (State.set_memory State.init mem)
    (session contents).
(** A stream of content 7 that has been read to [position]. *)
Definition stream (position : Z) : ExportContent.t :=
  ExportContent.mk (OpenedContent.mk title_id content0 position)
    (content_iv 0x0102).
Definition begin_request : IOCtlVRequest.t :=
  IOCtlVRequest.mk 0x1000 IOCTL_ES_EXPORTCONTENTBEGIN
    [IOVector.mk 0x100 8; IOVector.mk 0x300 4] [].
Definition data_request (n : Z) : IOCtlVRequest.t :=
  IOCtlVRequest.mk 0x1000 IOCTL_ES_EXPORTCONTENTDATA
    [IOVector.mk 0x400 4] [IOVector.mk 0x2000 n].
Definition end_request : IOCtlVRequest.t :=
  IOCtlVRequest.mk 0x1000 IOCTL_ES_EXPORTCONTENTEND [IOVector.mk 0x400 4] [].
(** The replies to a list of requests, with the ids in use and the
    position of stream 0 after each. *)
Fixpoint replies (st : State.t) (requests : list IOCtlVRequest.t)
  : option (list (IPCCommandResult * list Z * option Z)) :=
  match requests with
  | [] => Some []
  | request :: requests =>
      r ← ES.IOCtlV platform st request;
      let contents :=
        TitleExportContext.contents (State.m_export_title_context r.2) in
      rs ← replies r.2 requests;
      Some ((r.1, (map_to_list contents).*1,
             (fun e => OpenedContent.m_position (ExportContent.content e))
               <$> contents !! 0) :: rs)
  end.
End SampleExport.

(** The guest addresses that [ES::IOCtlV] clears before it dispatches: those
    inside an output vector whose address is not the address of an input
    vector. *)
Definition cleared_address (request : IOCtlVRequest.t) (x : Z) : Prop :=
  exists io_vector,
    io_vector ∈ IOCtlVRequest.io_vectors request
    /\ IOCtlVRequest.HasInputVectorWithAddress request
         (IOVector.address io_vector) = false
    /\ IOVector.address io_vector <= x
         < IOVector.address io_vector + IOVector.size io_vector.

(** A run of ioctlvs through [ES::IOCtlV]: the replies, in order, and the
    final state. *)
Fixpoint run_ioctlvs (P : Platform) (st : State.t)
    (requests : list IOCtlVRequest.t)
  : option (list IPCCommandResult * State.t) :=
  match requests with
  | [] => Some ([], st)
  | request :: requests =>
      r ← ES.IOCtlV P st request;
      r' ← run_ioctlvs P r.2 requests;
      Some (r.1 :: r'.1, r'.2)
  end.

(** The bytes an [AddContentData] request carries: its second input
    vector. *)
Definition content_data (mem : Memory) (request : IOCtlVRequest.t) : list Z :=
  CopyFromEmu mem (IOVector.address (ES.in_vector request 1))
    (IOVector.size (ES.in_vector request 1)).

(** The file [AddContentFinish] writes a content to. *)
Definition content_path (tmd : TMDReader.t) (content_info : Content.t) : Path :=
  if Content.IsShared content_info
  then SharedContentPath (Content.sha1 content_info)
  else TitleContentPath (TMDReader.GetTitleId tmd) (Content.id content_info).

(** An [AddContentData] request of the right shape whose data vector, when
    it is not empty, lies at an address [Memory::GetPointer] has a pointer
    for. *)
Definition is_data_request (P : Platform) (request : IOCtlVRequest.t) : Prop :=
  IOCtlVRequest.request request = IOCTL_ES_ADDCONTENTDATA
  /\ ES.HasNumberOfValidVectors P request 2 0 = true
  /\ (GetPointer P (IOVector.address (ES.in_vector request 1)) = true
      \/ IOVector.size (ES.in_vector request 1) = 0).

Module SampleSession.
Import Sample.
(** An import of content 7 of the sample title: 64 bytes of plaintext,
    encrypted under the title key, lie at 0x3000 and arrive in two
    requests of 32 bytes. *)
Definition plaintext : list Z := seqZ 0 64.
Definition ciphertext : list Z :=
  (cbc_encrypt encrypt_block (replicate 16 0x11) 4 (content_iv 0x0102)
     plaintext).2.
Definition mem : Memory := CopyToEmu SampleExport.mem 0x3000 ciphertext.
Definition st0 : State.t :=
  State.mk "" TitleContext.init 0 ∅ 0 tmd 0xFFFFFFFF []
    (TitleExportContext.mk false TMDReader.empty [] ∅) false mem [].
Definition start_request : IOCtlVRequest.t :=
  IOCtlVRequest.mk 0x1000 IOCTL_ES_ADDCONTENTSTART
    [IOVector.mk 0x100 8; IOVector.mk 0x300 4] [].
Definition data_request (a : Z) : IOCtlVRequest.t :=
  IOCtlVRequest.mk 0x1000 IOCTL_ES_ADDCONTENTDATA
    [IOVector.mk 0x400 4; IOVector.mk a 32] [].
Definition finish_request : IOCtlVRequest.t :=
  IOCtlVRequest.mk 0x1000 IOCTL_ES_ADDCONTENTFINISH [IOVector.mk 0x400 4] [].
End SampleSession.

(** Case analysis on the tests a handler makes, innermost first, dropping
    the branches that contradict the known reply [H]. *)
Ltac plain_scrutinee o :=
  lazymatch o with
  | context [mbind _ _] => fail
  | context [if _ then _ else _] => fail
  | context [match _ with Some _ => _ | None => _ end] => fail
  | _ => idtac
  end.

Ltac handler_cases H :=
  repeat match type of H with
         | context [if ?b then _ else _] =>
             plain_scrutinee b;
             destruct b eqn:?; cbn [negb orb andb mbind option_bind] in H;
             try discriminate H
         | context [match ?o with Some _ => _ | None => _ end] =>
             plain_scrutinee o;
             destruct o eqn:?; cbn [mbind option_bind] in H;
             try discriminate H
         | context [mbind _ ?o] =>
             plain_scrutinee o;
             destruct o eqn:?; cbn [mbind option_bind] in H;
             try discriminate H
         end.

(** * Properties *)

(** ** Title context *)

Section TitleContextProps.
Implicit Types (c : TitleContext.t) (ops : list TitleContextOp).

Lemma Update_invalid c tmd ticket :
  TMDReader.IsValid tmd && TicketReader.IsValid ticket = false ->
  TitleContext.Update c tmd ticket = (c, []).
Proof.
  unfold TitleContext.Update.
  destruct (TMDReader.IsValid tmd), (TicketReader.IsValid ticket);
    simpl; congruence.
Qed.

Lemma Update_valid c tmd ticket :
  TMDReader.IsValid tmd && TicketReader.IsValid ticket = true ->
  TitleContext.Update c tmd ticket =
    (TitleContext.mk ticket tmd true false,
     if TitleContext.first_change c
     then [UpdateRunningGame (TMDReader.GetTitleId tmd)] else []).
Proof.
  unfold TitleContext.Update.
  destruct (TMDReader.IsValid tmd), (TicketReader.IsValid ticket);
    simpl; try congruence.
  intros _. destruct c as [k t a []]; reflexivity.
Qed.

Lemma step_first_change c o :
  TitleContext.first_change (title_context_step c o).1 =
    TitleContext.first_change c && negb (update_succeeds o).
Proof.
  destruct o as [|tmd ticket]; simpl.
  - by rewrite andb_true_r.
  - destruct (TMDReader.IsValid tmd && TicketReader.IsValid ticket) eqn:E.
    + rewrite Update_valid by done. simpl. by rewrite andb_false_r.
    + rewrite Update_invalid by done. simpl. by rewrite andb_true_r.
Qed.

Lemma step_events c o :
  (title_context_step c o).2 =
    if TitleContext.first_change c then first_notification [o] else [].
Proof.
  destruct o as [|tmd ticket]; simpl.
  - by destruct (TitleContext.first_change c).
  - unfold first_notification. simpl.
    destruct (TMDReader.IsValid tmd && TicketReader.IsValid ticket) eqn:E.
    + by rewrite Update_valid.
    + rewrite Update_invalid by done.
      by destruct (TitleContext.first_change c).
Qed.

Lemma run_events c ops :
  (title_context_run c ops).2 =
    if TitleContext.first_change c then first_notification ops else [].
Proof.
  revert c. induction ops as [|o ops IH]; intros c; simpl.
  - by destruct (TitleContext.first_change c).
  - rewrite IH, step_first_change, step_events.
    unfold first_notification. simpl.
    destruct (TitleContext.first_change c); simpl; [|done].
    destruct (update_succeeds o) eqn:E; simpl.
    + by rewrite app_nil_r.
    + done.
Qed.

(** C4, as the code has it.  An update succeeds exactly when the TMD and
    the ticket are both valid, and then makes them the active title.  Over
    any sequence of clears and updates the "running title changed"
    notification is made at most once: by the first successful update
    since the context was constructed ([first_change] still set), and by no
    later one.  [Clear] deactivates the context and leaves [first_change]
    as it is, so an update that follows a clear does not notify again. *)
Theorem title_context_notifies_once_per_construction c ops :
  (title_context_run c ops).2 =
    (if TitleContext.first_change c then first_notification ops else [])
  /\ (forall tmd ticket,
        TitleContext.Update c tmd ticket =
          if TMDReader.IsValid tmd && TicketReader.IsValid ticket
          then (TitleContext.mk ticket tmd true false,
                if TitleContext.first_change c
                then [UpdateRunningGame (TMDReader.GetTitleId tmd)]
                else [])
          else (c, []))
  /\ TitleContext.active (TitleContext.Clear c) = false
  /\ TitleContext.first_change (TitleContext.Clear c) =
       TitleContext.first_change c
  /\ TitleContext.first_change TitleContext.init = true.
Proof.
  split; [apply run_events|].
  split; [|done].
  intros tmd ticket.
  destruct (TMDReader.IsValid tmd && TicketReader.IsValid ticket) eqn:E.
  - by apply Update_valid.
  - by apply Update_invalid.
Qed.

(** C4 as stated fails: after an update and a clear, the context is
    inactive, and the next update succeeds without any notification. *)
Lemma title_context_update_after_clear_is_silent :
  let c :=
    (title_context_run TitleContext.init
       [OpUpdate Sample.tmd Sample.ticket; OpClear]).1 in
  TitleContext.active c = false /\
  TitleContext.Update c Sample.tmd Sample.ticket =
    (TitleContext.mk Sample.ticket Sample.tmd true false, []).
Proof. split; reflexivity. Qed.
End TitleContextProps.

(** ** Shape checks and the import session *)

Section Handlers.
Variable P : Platform.
Implicit Types (st : State.t) (request : IOCtlVRequest.t).

(** Every embedded handler that declares a shape rejects any other shape
    with the state it was given (the dispatcher has cleared the IO
    buffers in guest memory by then). *)
Lemma shape_checked st request n m :
  declared_shape (IOCtlVRequest.request request) = Some (n, m) ->
  ES.HasNumberOfValidVectors P request n m = false ->
  ES.IOCtlV P st request =
    ES.reply ES_PARAMETER_SIZE_OR_ALIGNMENT (ES.ClearIOBuffers st request).
Proof.
  intros Hd Hs. unfold ES.IOCtlV.
  destruct (IOCtlVRequest.request request); simpl in Hd; simplify_eq;
    unfold ES.AddTicket, ES.AddContentStart, ES.AddContentData,
      ES.AddContentFinish, ES.OpenTitleContent, ES.OpenContent,
      ES.ReadContent, ES.CloseContent, ES.SeekContent, ES.Encrypt,
      ES.Decrypt, ES.ExportTitleInit,
      ES.ExportContentBegin, ES.ExportContentData, ES.ExportContentEnd;
    rewrite Hs; reflexivity.
Qed.

Lemma ExportTitleDone_any_shape st request :
  ES.ExportTitleDone st request =
    if TitleExportContext.valid (State.m_export_title_context st)
    then ES.reply IPC_SUCCESS
           (State.set_export_title_context st
              (TitleExportContext.set_valid
                 (State.m_export_title_context st) false))
    else ES.reply ES_PARAMETER_SIZE_OR_ALIGNMENT st.
Proof.
  unfold ES.ExportTitleDone.
  by destruct (TitleExportContext.valid (State.m_export_title_context st)).
Qed.

(** C7.  While a content transfer is in flight (the pending content id is
    not 0xFFFFFFFF), every begin-content request is answered with an error
    code and the state it was given: the pending content id and the
    accumulated buffer stay as they were. *)
Theorem AddContentStart_while_pending st request :
  State.m_addtitle_content_id st <> 0xFFFFFFFF ->
  exists code,
    ES.AddContentStart P st request = Some (GetDefaultReply (Code code), st)
    /\ (code = ES_WRITE_FAILURE \/ code = ES_PARAMETER_SIZE_OR_ALIGNMENT).
Proof.
  intros Hpending. unfold ES.AddContentStart.
  destruct (ES.HasNumberOfValidVectors P request 2 0); simpl.
  - destruct (Z.eqb_spec (State.m_addtitle_content_id st) 4294967295)
      as [E|E]; [done|]. simpl. eauto.
  - eauto.
Qed.
End Handlers.

Lemma AddContentStart_while_pending_witness :
  exists code,
    ES.AddContentStart Sample.platform SampleImport.pending_state
      SampleImport.begin_request =
      Some (GetDefaultReply (Code code), SampleImport.pending_state)
    /\ (code = ES_WRITE_FAILURE \/ code = ES_PARAMETER_SIZE_OR_ALIGNMENT).
Proof.
  apply (AddContentStart_while_pending Sample.platform
           SampleImport.pending_state SampleImport.begin_request).
  simpl. lia.
Defined.

(** C5 at [ExportTitleDone]: with an export session open, a request of any
    shape (no vectors, one input, three inputs) is answered with success and
    closes the session; no shape is rejected. *)
Lemma ExportTitleDone_accepts_any_shape :
  let st :=
    State.set_export_title_context State.init
      (TitleExportContext.mk true Sample.tmd (replicate 16 0x11) ∅) in
  let done_st :=
    State.set_export_title_context State.init
      (TitleExportContext.mk false Sample.tmd (replicate 16 0x11) ∅) in
  let request ins outs :=
    IOCtlVRequest.mk 0x1000 IOCTL_ES_EXPORTTITLEDONE ins outs in
  ES.IOCtlV Sample.platform st (request [] []) =
    Some (GetDefaultReply (Code IPC_SUCCESS), done_st) /\
  ES.IOCtlV Sample.platform st (request [IOVector.mk 0x100 4] []) =
    Some (GetDefaultReply (Code IPC_SUCCESS), done_st) /\
  ES.IOCtlV Sample.platform st
    (request [IOVector.mk 0x100 4; IOVector.mk 0x200 8; IOVector.mk 0x300 4] [])
    = Some (GetDefaultReply (Code IPC_SUCCESS), done_st).
Proof. repeat split; reflexivity. Qed.

(** ** Reading and seeking *)

(** C1 past the end of a content.  The sample content is 50 bytes long.
    Opened as descriptor 0, moved to position 100 by a seek and then read
    for 10 bytes, the reply is not 0: the clamp computes 50 - 100 in 32 bits,
    the reply is that count read as a signed word, -50, and the position
    wraps round to 50.  Within range the same clamp is right: reads of 10,
    100 and 5 bytes from the start return 10, 40 and 0. *)
Lemma ReadContent_past_end_underflows :
  SampleRead.replies SampleRead.st0
    [SampleRead.open_request; SampleRead.seek_request;
     SampleRead.read_request 10] =
    Some ([GetDefaultReply (Value 0); GetDefaultReply (Value 100);
           GetDefaultReply (Value (-50))], Some 50)
  /\ SampleRead.replies SampleRead.st0
       [SampleRead.open_request; SampleRead.read_request 10;
        SampleRead.read_request 100; SampleRead.read_request 5] =
     Some ([GetDefaultReply (Value 0); GetDefaultReply (Value 10);
            GetDefaultReply (Value 40); GetDefaultReply (Value 0)], Some 50).
Proof. split; vm_compute; reflexivity. Qed.

(** ** AES-CBC: chaining state and round trip *)

Section CBC.
Variables enc dec : list Z -> list Z -> list Z.

Lemma xor_block_length a b :
  (length a <= length b)%nat -> length (xor_block a b) = length a.
Proof. intros. unfold xor_block. rewrite length_zip_with. lia. Qed.

Lemma xor_block_involutive a b :
  (length a <= length b)%nat -> xor_block (xor_block a b) b = a.
Proof.
  unfold xor_block. revert b.
  induction a as [|x a IH]; intros [|y b] Hl; simpl in *; try done; try lia.
  rewrite IH by lia. f_equal.
  rewrite Z.lxor_assoc, Z.lxor_nilpotent, Z.lxor_0_r. done.
Qed.

Hypothesis enc_length :
  forall key b, length b = 16%nat -> length (enc key b) = 16%nat.
Hypothesis dec_enc :
  forall key b, length b = 16%nat -> dec key (enc key b) = b.

Lemma cbc_encrypt_length key n : forall iv input,
  length iv = 16%nat -> length input = (16 * n)%nat ->
  length (cbc_encrypt enc key n iv input).2 = (16 * n)%nat.
Proof.
  induction n as [|n IH]; intros iv input Hiv Hin; simpl; [done|].
  assert (Hb : length (xor_block (take 16 input) iv) = 16%nat).
  { rewrite xor_block_length; rewrite length_take; lia. }
  rewrite length_app, IH, enc_length; try done; try lia.
  - by apply enc_length.
  - rewrite length_drop. lia.
Qed.

Lemma cbc_roundtrip key n : forall iv input,
  length iv = 16%nat -> length input = (16 * n)%nat ->
  (cbc_decrypt dec key n iv (cbc_encrypt enc key n iv input).2).2 = input.
Proof.
  induction n as [|n IH]; intros iv input Hiv Hin; simpl.
  - destruct input; simpl in *; [done|lia].
  - assert (Hb : length (xor_block (take 16 input) iv) = 16%nat).
    { rewrite xor_block_length; rewrite length_take; lia. }
    set (out := enc key (xor_block (take 16 input) iv)).
    assert (Hout : length out = 16%nat) by by apply enc_length.
    rewrite take_app_length' by done.
    rewrite drop_app_length' by done.
    unfold out at 1. rewrite dec_enc by done.
    rewrite xor_block_involutive by (rewrite length_take; lia).
    rewrite IH; [apply take_drop|done|rewrite length_drop; lia].
Qed.

(** The chaining state left in [iv]. *)
Lemma cbc_decrypt_iv key n : forall iv input,
  length input = (16 * S n)%nat ->
  (cbc_decrypt dec key (S n) iv input).1 = last_block input.
Proof.
  unfold last_block.
  induction n as [|n IH]; intros iv input Hin.
  - simpl. rewrite Hin. simpl. rewrite drop_0. apply take_ge. lia.
  - change (cbc_decrypt dec key (S (S n)) iv input).1
      with (cbc_decrypt dec key (S n) (take 16 input) (drop 16 input)).1.
    rewrite IH by (rewrite length_drop; lia).
    rewrite drop_drop, length_drop. f_equal. lia.
Qed.

Lemma cbc_encrypt_iv key n : forall iv input,
  length iv = 16%nat -> length input = (16 * S n)%nat ->
  (cbc_encrypt enc key (S n) iv input).1 =
    last_block (cbc_encrypt enc key (S n) iv input).2.
Proof.
  unfold last_block.
  induction n as [|n IH]; intros iv input Hiv Hin.
  - simpl. rewrite app_nil_r.
    assert (Hb : length (xor_block (take 16 input) iv) = 16%nat).
    { rewrite xor_block_length; rewrite length_take; lia. }
    rewrite enc_length by done. by rewrite drop_0.
  - assert (Hb : length (xor_block (take 16 input) iv) = 16%nat).
    { rewrite xor_block_length; rewrite length_take; lia. }
    set (out := enc key (xor_block (take 16 input) iv)).
    assert (Hout : length out = 16%nat) by by apply enc_length.
    change (cbc_encrypt enc key (S (S n)) iv input)
      with ((cbc_encrypt enc key (S n) out (drop 16 input)).1,
            out ++ (cbc_encrypt enc key (S n) out (drop 16 input)).2).
    cbn [fst snd].
    rewrite IH by (try done; rewrite length_drop; lia).
    pose proof (cbc_encrypt_length key (S n) out (drop 16 input) Hout) as Hl.
    rewrite length_drop in Hl. specialize (Hl ltac:(lia)).
    rewrite length_app, Hl, Hout.
    rewrite drop_app_ge by lia. f_equal. lia.
Qed.
End CBC.

(** The stand-in cipher of the sample installation is a block cipher. *)
Lemma Sample_xor_key_length key block :
  length (Sample.xor_key key block) = length block.
Proof.
  revert key. induction block as [|b block IH]; intros [|k key]; simpl; auto.
Qed.

Lemma Sample_xor_key_involutive key block :
  Sample.xor_key key (Sample.xor_key key block) = block.
Proof.
  revert key. induction block as [|b block IH]; intros [|k key]; simpl; auto.
  rewrite IH. f_equal.
  rewrite Z.lxor_assoc, Z.lxor_nilpotent. apply Z.lxor_0_r.
Qed.

Lemma Sample_encrypt_block_length key b :
  length b = 16%nat ->
  length (aes_encrypt_block Sample.platform key b) = 16%nat.
Proof.
  intros H. simpl. unfold Sample.encrypt_block.
  by rewrite length_reverse, Sample_xor_key_length.
Qed.

Lemma Sample_decrypt_encrypt_block key b :
  length b = 16%nat ->
  aes_decrypt_block Sample.platform key
    (aes_encrypt_block Sample.platform key b) = b.
Proof.
  intros _. simpl. unfold Sample.decrypt_block, Sample.encrypt_block.
  rewrite reverse_involutive. apply Sample_xor_key_involutive.
Qed.

Section Crypto.
Variable P : Platform.
Hypothesis enc_length : forall key b,
  length b = 16%nat -> length (aes_encrypt_block P key b) = 16%nat.

Lemma key_table_lookup key_index :
  0 <= key_index < 11 -> is_Some (s_key_table !! Z.to_nat key_index).
Proof.
  intros H. apply lookup_lt_is_Some. simpl. lia.
Qed.

Lemma size_blocks (data : list Z) :
  Z.of_nat (length data) mod 16 = 0 ->
  length data = (16 * Z.to_nat (Z.of_nat (length data) / 16))%nat.
Proof.
  intros H. apply Z.mod_divide in H; [|lia]. destruct H as [k Hk].
  rewrite Hk, Z.div_mul by lia. lia.
Qed.

Lemma crypt_cbc_refused key mode size iv input output :
  size mod 16 <> 0 ->
  mbedtls_aes_crypt_cbc (aes_encrypt_block P) (aes_decrypt_block P) key mode
    size iv input output =
  (MBEDTLS_ERR_AES_INVALID_INPUT_LENGTH, iv, output).
Proof.
  intros H. unfold mbedtls_aes_crypt_cbc. by rewrite bool_decide_eq_false_2.
Qed.

(** C2, as the code has it.  For a key index of the table and a 16-byte
    IV, [new_iv] starts as a copy of the caller's IV and is then the [iv]
    argument of [mbedtls_aes_crypt_cbc], which updates it in place.  For a
    non-empty buffer of whole blocks it ends as the CBC chaining state: the
    last ciphertext block, of the input when decrypting and of the output
    when encrypting, whatever the IV was.  When no block is processed (an
    empty buffer, or a length the cipher refuses) it ends as the copy of
    the IV. *)
Theorem new_iv_is_chaining_state key_index iv data old :
  0 <= key_index < 11 ->
  length iv = 16%nat ->
  let size := Z.of_nat (length data) in
  (exists out,
     ES.DecryptContent P key_index iv data size old =
       Some (if bool_decide (size mod 16 = 0 /\ 0 < size)
             then last_block data else iv, out))
  /\ (exists new_iv out,
        ES.EncryptContent P key_index iv data size old = Some (new_iv, out)
        /\ new_iv = if bool_decide (size mod 16 = 0 /\ 0 < size)
                    then last_block (take (length data) out) else iv).
Proof.
  intros Hk Hiv size.
  destruct (key_table_lookup key_index Hk) as [key Hkey].
  unfold ES.DecryptContent, ES.EncryptContent. rewrite Hkey. simpl.
  rewrite (take_ge iv) by lia.
  destruct (decide (size mod 16 = 0)) as [Hm|Hm].
  - unfold mbedtls_aes_crypt_cbc. rewrite bool_decide_eq_true_2 by done.
    pose proof (size_blocks data Hm) as Hn. fold size in Hn.
    destruct (Z.to_nat (size / 16)) as [|n] eqn:En.
    + assert (size = 0) by (unfold size in *; lia).
      rewrite bool_decide_eq_false_2 by lia. simpl. eauto 6.
    + assert (0 < size) by (unfold size in *; lia).
      rewrite bool_decide_eq_true_2 by done. split.
      * eexists. cbn [fst snd]. by rewrite cbc_decrypt_iv.
      * do 2 eexists. split; [reflexivity|]. cbn [fst snd].
        rewrite (cbc_encrypt_iv _ enc_length) by done.
        f_equal. rewrite take_app_length'; [done|].
        by rewrite (cbc_encrypt_length _ enc_length).
  - rewrite !crypt_cbc_refused by done. simpl.
    rewrite bool_decide_eq_false_2 by tauto. eauto 6.
Qed.

Hypothesis dec_enc : forall key b,
  length b = 16%nat ->
  aes_decrypt_block P key (aes_encrypt_block P key b) = b.

(** C9, as the code has it.  For a key index of the table, a 16-byte IV
    and a buffer that is a whole number of 16-byte blocks, encrypting and
    then decrypting with the same key index and IV yields the buffer. *)
Theorem encrypt_then_decrypt key_index iv buffer destination output :
  0 <= key_index < 11 ->
  length iv = 16%nat ->
  Z.of_nat (length buffer) mod 16 = 0 ->
  length destination = length buffer ->
  length output = length buffer ->
  exists new_iv ciphertext new_iv',
    ES.EncryptContent P key_index iv buffer (Z.of_nat (length buffer))
      destination = Some (new_iv, ciphertext)
    /\ ES.DecryptContent P key_index iv ciphertext
         (Z.of_nat (length buffer)) output = Some (new_iv', buffer).
Proof.
  intros Hk Hiv Hm Hd Ho.
  destruct (key_table_lookup key_index Hk) as [key Hkey].
  unfold ES.DecryptContent, ES.EncryptContent. rewrite Hkey. simpl.
  rewrite (take_ge iv) by lia.
  unfold mbedtls_aes_crypt_cbc. rewrite bool_decide_eq_true_2 by done.
  pose proof (size_blocks buffer Hm) as Hn.
  set (n := Z.to_nat (Z.of_nat (length buffer) / 16)) in *.
  pose proof (cbc_encrypt_length _ enc_length (take 16 key) n iv buffer Hiv Hn)
    as Hc.
  do 3 eexists. split; [reflexivity|]. cbn [fst snd].
  rewrite Hc, <- Hn, <- Hd, drop_all, app_nil_r.
  rewrite (cbc_roundtrip _ _ enc_length dec_enc) by done.
  by rewrite <- Ho, drop_all, app_nil_r.
Qed.
End Crypto.

Lemma new_iv_is_chaining_state_witness :
  (exists out,
     ES.DecryptContent Sample.platform 6 (replicate 16 0) (seqZ 0 32) 32
       (replicate 32 0) = Some (seqZ 16 16, out))
  /\ (exists new_iv out,
        ES.EncryptContent Sample.platform 6 (replicate 16 0) (seqZ 0 32) 32
          (replicate 32 0) = Some (new_iv, out)
        /\ new_iv = last_block (take 32 out)).
Proof.
  exact (new_iv_is_chaining_state Sample.platform Sample_encrypt_block_length
           6 (replicate 16 0) (seqZ 0 32) (replicate 32 0)
           ltac:(lia) eq_refl).
Defined.

Lemma encrypt_then_decrypt_witness :
  exists new_iv ciphertext new_iv',
    ES.EncryptContent Sample.platform 6 (replicate 16 0) (seqZ 0 32) 32
      (replicate 32 0) = Some (new_iv, ciphertext)
    /\ ES.DecryptContent Sample.platform 6 (replicate 16 0) ciphertext 32
         (replicate 32 0) = Some (new_iv', seqZ 0 32).
Proof.
  exact (encrypt_then_decrypt Sample.platform Sample_encrypt_block_length
           Sample_decrypt_encrypt_block 6 (replicate 16 0) (seqZ 0 32)
           (replicate 32 0) (replicate 32 0)
           ltac:(lia) eq_refl eq_refl eq_refl eq_refl).
Defined.

(** C2 as stated fails.  Decrypting one block under the zero IV leaves the
    ciphertext block, sixteen 1s, in [new_iv]; encrypting it leaves the
    ciphertext just produced.  Neither is the zero IV that was passed in. *)
Lemma new_iv_differs_from_iv :
  ES.DecryptContent Sample.platform 6 (replicate 16 0) (replicate 16 1) 16
    (replicate 16 0) =
    Some (replicate 16 1,
          [170; 0; 184; 217; 224; 99; 42; 9; 174; 187; 217; 76; 190; 195;
           164; 92])
  /\ ES.EncryptContent Sample.platform 6 (replicate 16 0) (replicate 16 1) 16
       (replicate 16 0) =
     Some ([92; 164; 195; 190; 76; 217; 187; 174; 9; 42; 99; 224; 217; 184;
            0; 170],
           [92; 164; 195; 190; 76; 217; 187; 174; 9; 42; 99; 224; 217; 184;
            0; 170]).
Proof. split; reflexivity. Qed.

(** C9 as stated fails.  A one-byte buffer [1] is not a whole number of
    blocks: the cipher refuses it, [Encrypt] leaves the (cleared) destination
    [0] as it was, and so does [Decrypt]; the round trip yields [0]. *)
Lemma encrypt_then_decrypt_unaligned :
  ES.EncryptContent Sample.platform 6 (replicate 16 0) [1] 1 [0] =
    Some (replicate 16 0, [0])
  /\ ES.DecryptContent Sample.platform 6 (replicate 16 0) [0] 1 [0] =
       Some (replicate 16 0, [0]).
Proof. split; reflexivity. Qed.

(** ** Launching *)

Section Launch.
Variable P : Platform.
Implicit Types (st : State.t) (title_id : Z).

Lemma AccessContentDevice_cleared st title_id :
  ES.AccessContentDevice P (launch_cleared st) title_id =
    GetNANDLoader_title P title_id.
Proof. reflexivity. Qed.


End Launch.



(** ** Export content ids *)

Section ExportIds.
Implicit Types (contents : gmap Z ExportContent.t).

Lemma to_u32_small z : 0 <= z < 2 ^ 32 -> to_u32 z = z.
Proof. intros H. unfold to_u32. by apply Z.mod_small. Qed.

Lemma to_s32_small z : 0 <= z < 2 ^ 31 -> to_s32 z = z.
Proof.
  intros H. unfold to_s32. rewrite to_u32_small by lia.
  destruct (Z.ltb_spec z (2 ^ 31)); lia.
Qed.

Lemma scan_unused_spec contents fuel : forall cid,
  0 <= cid -> cid + Z.of_nat fuel < 2 ^ 32 ->
  (forall j, 0 <= j < cid -> is_Some (contents !! j)) ->
  let r := ES.scan_unused contents fuel cid in
  cid <= r <= cid + Z.of_nat fuel
  /\ (forall j, 0 <= j < r -> is_Some (contents !! j))
  /\ (r < cid + Z.of_nat fuel -> contents !! r = None).
Proof.
  induction fuel as [|fuel IH]; intros cid Hc Hb Hused; cbn [ES.scan_unused].
  - repeat split; try lia. done.
  - case_bool_decide as Hin.
    + rewrite to_u32_small by lia.
      destruct (IH (cid + 1)) as (Hr & Hu & Hn); [lia|lia| |].
      { intros j Hj. destruct (decide (j = cid)) as [->|]; [done|].
        apply Hused. lia. }
      repeat split; try lia; [done|]. intros. apply Hn. lia.
    + repeat split; try lia; [done|]. intros _.
      by apply eq_None_not_Some.
Qed.

(** A map with [n] entries cannot hold all of [0 .. n]. *)
Lemma prefix_full contents n :
  (forall j, 0 <= j < Z.of_nat n -> is_Some (contents !! j)) ->
  size contents = n ->
  contents !! Z.of_nat n = None.
Proof.
  intros Hused Hsize. apply eq_None_not_Some. intros Hn.
  assert (Hsub : list_to_set (C := gset Z) (seqZ 0 (Z.of_nat n + 1))
                   ⊆ dom contents).
  { intros j Hj. apply elem_of_list_to_set, elem_of_seqZ in Hj.
    apply elem_of_dom.
    destruct (decide (j = Z.of_nat n)) as [->|]; [done|].
    apply Hused. lia. }
  apply subseteq_size in Hsub.
  rewrite size_list_to_set, length_seqZ, size_dom in Hsub
    by apply NoDup_seqZ.
  lia.
Qed.

Lemma scan_unused_lowest contents :
  Z.of_nat (size contents) < 2 ^ 32 ->
  lowest_unused contents (ES.scan_unused contents (size contents) 0).
Proof.
  intros Hb.
  destruct (scan_unused_spec contents (size contents) 0) as (Hr & Hu & Hn);
    [lia|lia|intros; lia|].
  set (r := ES.scan_unused contents (size contents) 0) in *.
  split; [lia|]. split; [|done].
  destruct (decide (r < 0 + Z.of_nat (size contents))) as [Hlt|Hge];
    [by apply Hn|].
  assert (r = Z.of_nat (size contents)) as -> by lia.
  by apply prefix_full.
Qed.

Lemma lowest_unused_unique contents a b :
  lowest_unused contents a -> lowest_unused contents b -> a = b.
Proof.
  intros (Ha & Hna & Hua) (Hb & Hnb & Hub).
  destruct (Z.lt_trichotomy a b) as [H|[H|H]]; [|done|].
  - destruct (Hub a) as [x Hx]; [lia|congruence].
  - destruct (Hua b) as [x Hx]; [lia|congruence].
Qed.

Lemma lowest_unused_le contents cid id :
  lowest_unused contents cid -> 0 <= id -> contents !! id = None ->
  cid <= id.
Proof.
  intros (Hc & Hn & Hu) Hid Hnone.
  destruct (Z.le_gt_cases cid id) as [|Hgt]; [done|].
  destruct (Hu id) as [x Hx]; [lia|congruence].
Qed.

Lemma lowest_unused_bound contents cid :
  lowest_unused contents cid -> cid <= Z.of_nat (size contents).
Proof.
  intros (Hc & Hn & Hu).
  destruct (Z.le_gt_cases cid (Z.of_nat (size contents))) as [|Hgt]; [done|].
  destruct (Hu (Z.of_nat (size contents))) as [x Hx]; [lia|].
  rewrite prefix_full in Hx; [done| |done]. intros; apply Hu; lia.
Qed.
End ExportIds.
(** ** Export and import of contents *)

Section Contents.
Variable P : Platform.
Implicit Types (st : State.t) (request : IOCtlVRequest.t).

Lemma Read_U8_range m a : 0 <= Read_U8 m a < 2 ^ 8.
Proof. unfold Read_U8, to_u8. apply Z.mod_pos_bound. lia. Qed.

Lemma Read_U32_range m a : 0 <= Read_U32 m a < 2 ^ 32.
Proof.
  unfold Read_U32.
  pose proof (Read_U8_range m a). pose proof (Read_U8_range m (a + 1)).
  pose proof (Read_U8_range m (a + 2)). pose proof (Read_U8_range m (a + 3)).
  lia.
Qed.

(** The array the handlers build is the IV of the content's index. *)
Lemma content_iv_array index :
  is_u16 index ->
  <[1%nat := Z.land index 0xFF]>
    (<[0%nat := Z.land (Z.shiftr index 8) 0xFF]> (replicate 16 0)) =
    content_iv index.
Proof.
  intros [Hlo Hhi]. unfold content_iv. cbn [replicate list_insert app].
  change 255 with (Z.ones 8).
  rewrite !Z.land_ones, Z.shiftr_div_pow2 by lia.
  rewrite (Z.mod_small (index / 2 ^ 8)); [reflexivity|]. split.
  - apply Z.div_pos; lia.
  - apply Z.div_lt_upper_bound; lia.
Qed.

Lemma content_iv_length index : length (content_iv index) = 16%nat.
Proof. reflexivity. Qed.

Lemma ExportContentBegin_value st request v st' :
  ES.ExportContentBegin P st request = Some (GetDefaultReply (Value v), st') ->
  let title_id :=
    Read_U64 (State.memory st) (IOVector.address (ES.in_vector request 0)) in
  let content_id :=
    Read_U32 (State.memory st) (IOVector.address (ES.in_vector request 1)) in
  let ctx := State.m_export_title_context st in
  let contents := TitleExportContext.contents ctx in
  let cid := ES.scan_unused contents (size contents) 0 in
  exists content,
    TitleExportContext.valid ctx = true
    /\ CNANDContentLoader.GetContentByID
         (ES.AccessContentDevice P st title_id) content_id = Some content
    /\ v = to_s32 cid
    /\ st' =
         State.set_export_title_context
           (State.emit st
              [DataOpen title_id (Content.id (SNANDContent.m_metadata content))])
           (TitleExportContext.set_contents ctx
              (ES.emplace cid
                 (ExportContent.mk
                    (OpenedContent.mk title_id
                       (SNANDContent.m_metadata content) 0)
                    (<[1%nat := Z.land (Content.index
                                          (SNANDContent.m_metadata content))
                                  0xFF]>
                       (<[0%nat := Z.land
                                     (Z.shiftr
                                        (Content.index
                                           (SNANDContent.m_metadata content))
                                        8) 0xFF]>
                          (replicate 16 0))))
                 contents)).
Proof.
  intros H title_id content_id ctx contents cid.
  unfold ES.ExportContentBegin, ES.reply, ES.reply_value in H.
  handler_cases H.
  match goal with
  | Hv : negb (TitleExportContext.valid _) || _ = false |- _ =>
      apply orb_false_elim in Hv as [Hv _]; apply negb_false_iff in Hv
  end.
  inversion H; subst. eauto.
Qed.

Lemma emplace_unused cid x (contents : gmap Z ExportContent.t) :
  contents !! cid = None -> ES.emplace cid x contents = <[cid := x]> contents.
Proof. intros H. unfold ES.emplace. by rewrite H. Qed.

Lemma ExportContentEnd_incomplete st request it :
  let ctx := State.m_export_title_context st in
  let id :=
    Read_U32 (State.memory st) (IOVector.address (ES.in_vector request 0)) in
  TitleExportContext.contents ctx !! id = Some it ->
  OpenedContent.m_position (ExportContent.content it) <>
    Content.size (OpenedContent.m_content (ExportContent.content it)) ->
  ES.ExportContentEnd P st request = ES.reply ES_PARAMETER_SIZE_OR_ALIGNMENT st.
Proof.
  intros ctx id Hit Hpos. unfold ES.ExportContentEnd.
  destruct (negb (ES.HasNumberOfValidVectors P request 1 0) || _); [done|].
  fold ctx id. rewrite Hit.
  destruct (Z.eqb_spec (OpenedContent.m_position (ExportContent.content it))
              (Content.size
                 (OpenedContent.m_content (ExportContent.content it))));
    [done|].
  cbn [negb]. by rewrite orb_true_r.
Qed.

Lemma ExportContentEnd_complete st request it content :
  let ctx := State.m_export_title_context st in
  let id :=
    Read_U32 (State.memory st) (IOVector.address (ES.in_vector request 0)) in
  let entry := ExportContent.content it in
  ES.HasNumberOfValidVectors P request 1 0 = true ->
  IOVector.size (ES.in_vector request 0) = 4 ->
  TitleExportContext.valid ctx = true ->
  TitleExportContext.contents ctx !! id = Some it ->
  OpenedContent.m_position entry =
    Content.size (OpenedContent.m_content entry) ->
  CNANDContentLoader.GetContentByID
    (ES.AccessContentDevice P st (OpenedContent.m_title_id entry))
    (Content.id (OpenedContent.m_content entry)) = Some content ->
  ES.ExportContentEnd P st request =
    ES.reply IPC_SUCCESS
      (State.set_export_title_context
         (State.emit st
            [DataClose (OpenedContent.m_title_id entry)
               (Content.id (SNANDContent.m_metadata content))])
         (TitleExportContext.set_contents ctx
            (delete id (TitleExportContext.contents ctx)))).
Proof.
  intros ctx id entry Hshape Hsize Hvalid Hit Hpos Hcontent.
  unfold ES.ExportContentEnd. rewrite Hshape, Hsize. cbn [negb orb Z.eqb Pos.eqb].
  fold ctx id. rewrite Hit. fold entry. rewrite Hvalid, Hpos, Z.eqb_refl.
  cbn [negb orb]. rewrite Hcontent. reflexivity.
Qed.

Lemma AddContentFinish_success st request st' :
  ES.AddContentFinish P st request =
    Some (GetDefaultReply (Code IPC_SUCCESS), st') ->
  let tmd := State.m_addtitle_tmd st in
  let ticket := FindSignedTicket P (TMDReader.GetTitleId tmd) in
  let buffer := State.m_addtitle_content_buffer st in
  exists content_info,
    TMDReader.FindContentById tmd (State.m_addtitle_content_id st) =
      Some content_info
    /\ st' =
         State.set_addtitle_content_id
           (State.emit st
              [WriteBytes
                 (if Content.IsShared content_info
                  then SharedContentPath (Content.sha1 content_info)
                  else TitleContentPath (TMDReader.GetTitleId tmd)
                         (State.m_addtitle_content_id st))
                 (take (Z.to_nat (Content.size content_info))
                    (mbedtls_aes_crypt_cbc (aes_encrypt_block P)
                       (aes_decrypt_block P)
                       (take 16 (TicketReader.GetTitleKey ticket))
                       MBEDTLS_AES_DECRYPT (Z.of_nat (length buffer))
                       (<[1%nat := Z.land (Content.index content_info) 0xFF]>
                          (<[0%nat := Z.land
                                        (Z.shiftr (Content.index content_info)
                                           8) 0xFF]>
                             (replicate 16 0)))
                       buffer (replicate (length buffer) 0)).2)])
           0xFFFFFFFF.
Proof.
  intros H tmd ticket buffer.
  unfold ES.AddContentFinish, ES.reply in H.
  handler_cases H;
    inversion H; subst; (eexists; split; [eassumption|]);
    by match goal with Hs : Content.IsShared _ = _ |- _ => rewrite Hs end.
Qed.
End Contents.
Section ContentProps.
Variable P : Platform.
Implicit Types (st : State.t) (request : IOCtlVRequest.t).

(** [ExportContentBegin] on a request that passes every test. *)
Lemma ExportContentBegin_accepted st request content :
  let title_id :=
    Read_U64 (State.memory st) (IOVector.address (ES.in_vector request 0)) in
  let content_id :=
    Read_U32 (State.memory st) (IOVector.address (ES.in_vector request 1)) in
  let ctx := State.m_export_title_context st in
  let L := ES.AccessContentDevice P st title_id in
  ES.HasNumberOfValidVectors P request 2 0 = true ->
  IOVector.size (ES.in_vector request 0) = 8 ->
  IOVector.size (ES.in_vector request 1) = 4 ->
  TitleExportContext.valid ctx = true ->
  TMDReader.GetTitleId (TitleExportContext.tmd ctx) = title_id ->
  CNANDContentLoader.IsValid L = true ->
  CNANDContentLoader.GetContentByID L content_id = Some content ->
  exists v st',
    ES.ExportContentBegin P st request =
      Some (GetDefaultReply (Value v), st').
Proof.
  intros title_id content_id ctx L Hshape Hsize0 Hsize1 Hvalid Htitle Hloader
    Hcontent.
  unfold ES.ExportContentBegin, ES.reply_value.
  rewrite Hshape, Hsize0, Hsize1. cbn [negb orb Z.eqb Pos.eqb].
  fold title_id content_id ctx. rewrite Hvalid, Htitle, Z.eqb_refl.
  cbn [negb orb]. fold L. rewrite Hloader. cbn [negb]. rewrite Hcontent.
  eauto.
Qed.

(** What a successful [ExportContentBegin] returns and stores. *)
Lemma ExportContentBegin_fresh st request v st' :
  ES.ExportContentBegin P st request = Some (GetDefaultReply (Value v), st') ->
  let contents :=
    TitleExportContext.contents (State.m_export_title_context st) in
  Z.of_nat (size contents) < 2 ^ 31 ->
  lowest_unused contents v
  /\ exists content,
       CNANDContentLoader.GetContentByID
         (ES.AccessContentDevice P st
            (Read_U64 (State.memory st)
               (IOVector.address (ES.in_vector request 0))))
         (Read_U32 (State.memory st)
            (IOVector.address (ES.in_vector request 1))) = Some content
       /\ TitleExportContext.contents (State.m_export_title_context st') =
            <[v := ExportContent.mk
                     (OpenedContent.mk
                        (Read_U64 (State.memory st)
                           (IOVector.address (ES.in_vector request 0)))
                        (SNANDContent.m_metadata content) 0)
                     (<[1%nat := Z.land (Content.index
                                           (SNANDContent.m_metadata content))
                                   0xFF]>
                        (<[0%nat := Z.land
                                      (Z.shiftr
                                         (Content.index
                                            (SNANDContent.m_metadata content))
                                         8) 0xFF]>
                           (replicate 16 0)))]> contents.
Proof.
  intros H contents Hsize.
  apply ExportContentBegin_value in H as (content & _ & Hc & -> & ->).
  pose proof (scan_unused_lowest contents ltac:(lia)) as Hlow.
  pose proof (lowest_unused_bound _ _ Hlow) as Hb.
  fold contents in Hlow, Hb |- *.
  destruct Hlow as (H0 & Hn & Hu).
  rewrite to_s32_small by lia.
  split; [done|]. exists content. split; [done|].
  cbn [State.m_export_title_context State.set_export_title_context
       TitleExportContext.contents TitleExportContext.set_contents].
  by apply emplace_unused.
Qed.

(** C6.  In a valid export session, [ExportContentEnd] on a stream whose
    position differs from the content's size is refused and changes
    nothing.  Once the position equals the size it succeeds, closes the
    backing data and erases the entry.  A later [ExportContentBegin] for a
    content of the session's title is then accepted, and the id it returns
    is the lowest id not in use: it is at most the freed id, it is the
    freed id whenever every lower id is still in use, and the new stream
    is stored under it at position 0.  No [ExportContentBegin] returns any
    other id. *)
Theorem ExportContentEnd_frees_lowest_id st request it :
  let ctx := State.m_export_title_context st in
  let contents := TitleExportContext.contents ctx in
  let id :=
    Read_U32 (State.memory st) (IOVector.address (ES.in_vector request 0)) in
  let entry := ExportContent.content it in
  ES.HasNumberOfValidVectors P request 1 0 = true ->
  IOVector.size (ES.in_vector request 0) = 4 ->
  TitleExportContext.valid ctx = true ->
  contents !! id = Some it ->
  Z.of_nat (size contents) < 2 ^ 31 ->
  (OpenedContent.m_position entry <>
     Content.size (OpenedContent.m_content entry) ->
   ES.ExportContentEnd P st request =
     ES.reply ES_PARAMETER_SIZE_OR_ALIGNMENT st)
  /\ (OpenedContent.m_position entry =
        Content.size (OpenedContent.m_content entry) ->
      forall content,
        CNANDContentLoader.GetContentByID
          (ES.AccessContentDevice P st (OpenedContent.m_title_id entry))
          (Content.id (OpenedContent.m_content entry)) = Some content ->
        let st1 :=
          State.set_export_title_context
            (State.emit st
               [DataClose (OpenedContent.m_title_id entry)
                  (Content.id (SNANDContent.m_metadata content))])
            (TitleExportContext.set_contents ctx (delete id contents)) in
        ES.ExportContentEnd P st request = ES.reply IPC_SUCCESS st1
        /\ (forall request' content',
              let title_id :=
                Read_U64 (State.memory st)
                  (IOVector.address (ES.in_vector request' 0)) in
              let content_id :=
                Read_U32 (State.memory st)
                  (IOVector.address (ES.in_vector request' 1)) in
              let L := ES.AccessContentDevice P st title_id in
              ES.HasNumberOfValidVectors P request' 2 0 = true ->
              IOVector.size (ES.in_vector request' 0) = 8 ->
              IOVector.size (ES.in_vector request' 1) = 4 ->
              TMDReader.GetTitleId (TitleExportContext.tmd ctx) = title_id ->
              CNANDContentLoader.IsValid L = true ->
              CNANDContentLoader.GetContentByID L content_id =
                Some content' ->
              exists v st2,
                ES.ExportContentBegin P st1 request' =
                  Some (GetDefaultReply (Value v), st2)
                /\ lowest_unused (delete id contents) v
                /\ v <= id
                /\ ((forall j, 0 <= j < id -> is_Some (contents !! j)) ->
                    v = id)
                /\ ExportContent.content <$>
                     TitleExportContext.contents
                       (State.m_export_title_context st2) !! v =
                     Some (OpenedContent.mk title_id
                             (SNANDContent.m_metadata content') 0))
        /\ forall request' v st2,
             ES.ExportContentBegin P st1 request' =
               Some (GetDefaultReply (Value v), st2) ->
             lowest_unused (delete id contents) v
             /\ v <= id
             /\ ((forall j, 0 <= j < id -> is_Some (contents !! j)) -> v = id)
             /\ is_Some
                  (TitleExportContext.contents
                     (State.m_export_title_context st2) !! v)).
Proof.
  intros ctx contents id entry Hshape Hsz Hvalid Hit Hsize. split.
  - intros Hpos. by apply (ExportContentEnd_incomplete P st request it).
  - intros Hpos content Hcontent st1.
    assert (Hreuse : forall request' v st2,
              ES.ExportContentBegin P st1 request' =
                Some (GetDefaultReply (Value v), st2) ->
              (lowest_unused (delete id contents) v
               /\ v <= id
               /\ ((forall j, 0 <= j < id -> is_Some (contents !! j)) ->
                   v = id))
              /\ exists c,
                   CNANDContentLoader.GetContentByID
                     (ES.AccessContentDevice P st1
                        (Read_U64 (State.memory st1)
                           (IOVector.address (ES.in_vector request' 0))))
                     (Read_U32 (State.memory st1)
                        (IOVector.address (ES.in_vector request' 1))) =
                     Some c
                   /\ ExportContent.content <$>
                        TitleExportContext.contents
                          (State.m_export_title_context st2) !! v =
                        Some (OpenedContent.mk
                                (Read_U64 (State.memory st1)
                                   (IOVector.address
                                      (ES.in_vector request' 0)))
                                (SNANDContent.m_metadata c) 0)).
    { intros request' v st2 Hbegin.
      apply ExportContentBegin_fresh in Hbegin as (Hlow & c & Hc & Hst2).
      2:{ cbn [State.m_export_title_context State.set_export_title_context
               TitleExportContext.contents TitleExportContext.set_contents
               st1].
          pose proof (map_subseteq_size _ _ (delete_subseteq contents id))
            as Hle.
          fold contents. lia. }
      cbn [State.m_export_title_context State.set_export_title_context
           TitleExportContext.contents TitleExportContext.set_contents st1]
        in Hlow, Hst2.
      pose proof (Read_U32_range (State.memory st)
                    (IOVector.address (ES.in_vector request 0))) as Hid.
      fold id in Hid.
      assert (Hle : v <= id).
      { apply (lowest_unused_le _ _ _ Hlow); [lia|apply lookup_delete_eq]. }
      split.
      - split; [done|]. split; [done|].
        intros Hfull. destruct (decide (v = id)) as [|Hne]; [done|].
        destruct Hlow as (Hv0 & Hnone & _).
        rewrite lookup_delete_ne in Hnone by done.
        destruct (Hfull v) as [x Hx]; [lia|congruence].
      - exists c. split; [exact Hc|]. rewrite Hst2.
        by rewrite lookup_insert_eq. }
    split; [by apply ExportContentEnd_complete|]. split.
    + intros request' content' title_id content_id L Hshape' Hsize0 Hsize1
        Htitle Hloader Hcontent'.
      destruct (ExportContentBegin_accepted st1 request' content')
        as (v & st2 & Hbegin); try done.
      exists v, st2. split; [exact Hbegin|].
      destruct (Hreuse request' v st2 Hbegin)
        as ((Hlow & Hle & Hfull) & c & Hc & Hstream).
      split; [done|]. split; [done|]. split; [done|].
      change (ES.AccessContentDevice P st1 ?t) with (ES.AccessContentDevice P st t)
        in Hc.
      cbn [State.memory State.set_export_title_context State.emit st1]
        in Hc, Hstream.
      fold title_id content_id L in Hc. rewrite Hcontent' in Hc.
      injection Hc as <-. exact Hstream.
    + intros request' v st2 Hbegin.
      destruct (Hreuse request' v st2 Hbegin)
        as ((Hlow & Hle & Hfull) & c & _ & Hstream).
      split; [done|]. split; [done|]. split; [done|].
      destruct (_ !! v); [eauto|discriminate].
Qed.

(** C8.  The content written by a successful [AddContentFinish] is the
    accumulated buffer decrypted under the IV of the content's index, and
    the stream a successful [ExportContentBegin] sets up carries the IV of
    its content's index; that IV is 16 bytes: the high byte of the index,
    its low byte, and fourteen zeros.  (The index is a 16-bit field.) *)
Theorem content_iv_is_index_bytes st request st' :
  (ES.AddContentFinish P st request =
     Some (GetDefaultReply (Code IPC_SUCCESS), st') ->
   exists content_info path,
     TMDReader.FindContentById (State.m_addtitle_tmd st)
       (State.m_addtitle_content_id st) = Some content_info
     /\ (is_u16 (Content.index content_info) ->
         let buffer := State.m_addtitle_content_buffer st in
         let title_key :=
           TicketReader.GetTitleKey
             (FindSignedTicket P
                (TMDReader.GetTitleId (State.m_addtitle_tmd st))) in
         State.trace st' =
           State.trace st ++
           [WriteBytes path
              (take (Z.to_nat (Content.size content_info))
                 (mbedtls_aes_crypt_cbc (aes_encrypt_block P)
                    (aes_decrypt_block P) (take 16 title_key)
                    MBEDTLS_AES_DECRYPT (Z.of_nat (length buffer))
                    (content_iv (Content.index content_info))
                    buffer (replicate (length buffer) 0)).2)]))
  /\ (forall v,
        ES.ExportContentBegin P st request =
          Some (GetDefaultReply (Value v), st') ->
        Z.of_nat (size (TitleExportContext.contents
                          (State.m_export_title_context st))) < 2 ^ 31 ->
        exists content,
          CNANDContentLoader.GetContentByID
            (ES.AccessContentDevice P st
               (Read_U64 (State.memory st)
                  (IOVector.address (ES.in_vector request 0))))
            (Read_U32 (State.memory st)
               (IOVector.address (ES.in_vector request 1))) = Some content
          /\ (is_u16 (Content.index (SNANDContent.m_metadata content)) ->
              ExportContent.iv <$>
                TitleExportContext.contents
                  (State.m_export_title_context st') !! v =
                Some (content_iv
                        (Content.index (SNANDContent.m_metadata content)))))
  /\ (forall index,
        content_iv index =
          [index / 2 ^ 8; index mod 2 ^ 8;
           0; 0; 0; 0; 0; 0; 0; 0; 0; 0; 0; 0; 0; 0]).
Proof.
  split; [|split; [|done]].
  - intros H. apply AddContentFinish_success in H as (c & Hc & ->).
    eexists c, _. split; [done|]. intros Hidx buffer title_key.
    cbn [State.trace State.set_addtitle_content_id State.emit].
    by rewrite content_iv_array.
  - intros v H Hsize.
    apply ExportContentBegin_fresh in H as (_ & c & Hc & Hst'); [|done].
    exists c. split; [done|]. intros Hidx.
    rewrite Hst', lookup_insert_eq. cbn [fmap option_fmap option_map ExportContent.iv].
    by rewrite content_iv_array.
Qed.
End ContentProps.
Lemma ExportContentEnd_frees_lowest_id_witness :
  let contents : gmap Z ExportContent.t :=
    {[0 := SampleExport.stream 50; 1 := SampleExport.stream 0]} in
  let st := SampleExport.state contents in
  let st1 :=
    State.set_export_title_context
      (State.emit st [DataClose Sample.title_id 7])
      (SampleExport.session (delete 0 contents)) in
  ES.ExportContentEnd Sample.platform st SampleExport.end_request =
    ES.reply IPC_SUCCESS st1
  /\ exists st2,
       ES.ExportContentBegin Sample.platform st1 SampleExport.begin_request =
         Some (GetDefaultReply (Value 0), st2)
       /\ ExportContent.content <$>
            TitleExportContext.contents (State.m_export_title_context st2)
              !! 0 =
            Some (OpenedContent.mk Sample.title_id Sample.content0 0).
Proof.
  intros contents st st1.
  destruct (ExportContentEnd_frees_lowest_id Sample.platform st
              SampleExport.end_request (SampleExport.stream 50)
              eq_refl eq_refl eq_refl eq_refl ltac:(by vm_compute))
    as [_ Hdone].
  destruct (Hdone eq_refl (SNANDContent.mk Sample.content0 (seqZ 0 50)) eq_refl)
    as (Hend & Hbegin & _).
  split; [exact Hend|].
  destruct (Hbegin SampleExport.begin_request
              (SNANDContent.mk Sample.content0 (seqZ 0 50))
              eq_refl eq_refl eq_refl eq_refl eq_refl eq_refl)
    as (v & st2 & E & _ & _ & Hv & Hstream).
  assert (v = 0) as ->.
  { apply Hv. intros j Hj. change (0 <= j < 0) in Hj. lia. }
  exists st2. split; [exact E|exact Hstream].
Defined.

Lemma content_iv_is_index_bytes_witness :
  (exists st' path,
     ES.AddContentFinish Sample.platform SampleImport.finish_state
       SampleImport.finish_request =
       Some (GetDefaultReply (Code IPC_SUCCESS), st')
     /\ State.trace st' =
          [WriteBytes path
             (take 50
                (mbedtls_aes_crypt_cbc Sample.encrypt_block
                   Sample.decrypt_block (replicate 16 0x11)
                   MBEDTLS_AES_DECRYPT 64 (content_iv 0x0102) (seqZ 0 64)
                   (replicate 64 0)).2)])
  /\ (exists st',
        ES.ExportContentBegin Sample.platform (SampleExport.state ∅)
          SampleExport.begin_request = Some (GetDefaultReply (Value 0), st')
        /\ ExportContent.iv <$>
             TitleExportContext.contents (State.m_export_title_context st')
               !! 0 = Some (content_iv 0x0102)).
Proof.
  split.
  - assert (exists st',
              ES.AddContentFinish Sample.platform SampleImport.finish_state
                SampleImport.finish_request =
                Some (GetDefaultReply (Code IPC_SUCCESS), st')) as [st' E]
      by (vm_compute; eauto).
    destruct (content_iv_is_index_bytes Sample.platform
                SampleImport.finish_state SampleImport.finish_request st')
      as (Himport & _ & _).
    destruct (Himport E) as (c & path & Hc & Htrace).
    change (Some Sample.content0 = Some c) in Hc. injection Hc as <-.
    exists st', path. split; [exact E|].
    apply Htrace. unfold is_u16. simpl. lia.
  - assert (exists st',
              ES.ExportContentBegin Sample.platform (SampleExport.state ∅)
                SampleExport.begin_request =
                Some (GetDefaultReply (Value 0), st')) as [st' E]
      by (vm_compute; eauto).
    destruct (content_iv_is_index_bytes Sample.platform
                (SampleExport.state ∅) SampleExport.begin_request st')
      as (_ & Hexport & _).
    destruct (Hexport 0 E ltac:(by vm_compute)) as (c & Hc & Hiv).
    assert (Some (SNANDContent.mk Sample.content0 (seqZ 0 50)) = Some c)
      as Hc' by (rewrite <- Hc; vm_compute; reflexivity).
    injection Hc' as <-.
    exists st'. split; [exact E|].
    apply Hiv. unfold is_u16. simpl. lia.
Defined.

(** ** The descriptor counter *)

Section Descriptors.
Variable P : Platform.
Implicit Types (st : State.t) (request : IOCtlVRequest.t).

Lemma to_u32_to_s32 z : 0 <= z < 2 ^ 32 -> to_u32 (to_s32 z) = z.
Proof.
  intros H. unfold to_s32. rewrite (to_u32_small z) by done.
  destruct (Z.ltb_spec z (2 ^ 31)).
  - by apply to_u32_small.
  - unfold to_u32. rewrite <- (Z.mod_add _ 1) by lia.
    replace (z - 2 ^ 32 + 1 * 2 ^ 32) with z by lia. by apply Z.mod_small.
Qed.

Lemma to_s32_sentinel z : 0 <= z < 2 ^ 32 -> to_s32 z = -1 -> z = 2 ^ 32 - 1.
Proof.
  intros H. unfold to_s32. rewrite (to_u32_small z) by done.
  destruct (Z.ltb_spec z (2 ^ 31)); lia.
Qed.

Lemma OpenTitleContent_cfd_result CFD TitleID Index st :
  let r := ES.OpenTitleContent_cfd P CFD TitleID Index st in
  (r.1 = CFD \/ r.1 = 0xffffffff)
  /\ State.m_AccessIdentID r.2 = State.m_AccessIdentID st.
Proof.
  unfold ES.OpenTitleContent_cfd.
  destruct (negb _ || _ || _); [by auto|].
  destruct (CNANDContentLoader.GetContentByIndex _ _); by auto.
Qed.

(** The ioctlvs other than the two opens leave the counter alone. *)
Lemma IOCtlV_other_counter st request r st' :
  ES.IOCtlV P st request = Some (r, st') ->
  IOCtlVRequest.request request <> IOCTL_ES_OPENTITLECONTENT ->
  IOCtlVRequest.request request <> IOCTL_ES_OPENCONTENT ->
  State.m_AccessIdentID st' = State.m_AccessIdentID st.
Proof.
  intros H Hn1 Hn2. unfold ES.IOCtlV in H.
  destruct (IOCtlVRequest.request request); try done;
    unfold ES.AddTicket, ES.AddContentStart, ES.AddContentData,
      ES.AddContentFinish, ES.ReadContent, ES.CloseContent, ES.SeekContent,
      ES.Encrypt, ES.Decrypt, ES.ExportTitleInit,
      ES.ExportContentBegin, ES.ExportContentData, ES.ExportContentEnd,
      ES.ExportTitleDone, ES.reply, ES.reply_value in H;
    handler_cases H; inversion H; reflexivity.
Qed.

Lemma opened_handle_other request r :
  IOCtlVRequest.request request <> IOCTL_ES_OPENTITLECONTENT ->
  IOCtlVRequest.request request <> IOCTL_ES_OPENCONTENT ->
  opened_handle request r = None.
Proof.
  unfold opened_handle. by destruct (IOCtlVRequest.request request), r.
Qed.

(** A reply that carries the result of [OpenTitleContent_cfd]: the
    descriptor, unless it is the sentinel. *)
Lemma reply_value_handle cfd x :
  0 <= cfd < 2 ^ 32 ->
  x = cfd \/ x = 0xffffffff ->
  (if to_s32 x =? -1 then None else Some (to_u32 (to_s32 x))) =
    if x =? 0xffffffff then None else Some cfd.
Proof.
  intros Hcfd [->| ->].
  - destruct (Z.eqb_spec (to_s32 cfd) (-1)) as [E|E].
    + apply to_s32_sentinel in E; [|lia]. subst. reflexivity.
    + rewrite to_u32_to_s32 by lia.
      destruct (Z.eqb_spec cfd 4294967295) as [->|]; [|done].
      by vm_compute in E.
  - reflexivity.
Qed.

(** One ioctlv either leaves the counter alone and hands out nothing, or
    advances it by one modulo 2^32; a descriptor it hands out is the
    counter's previous value, which is then not the sentinel. *)
Lemma IOCtlV_counter st request r st' :
  ES.IOCtlV P st request = Some (r, st') ->
  0 <= State.m_AccessIdentID st < 2 ^ 32 ->
  (State.m_AccessIdentID st' = State.m_AccessIdentID st
   /\ opened_handle request r = None)
  \/ (State.m_AccessIdentID st' = to_u32 (State.m_AccessIdentID st + 1)
      /\ (opened_handle request r = None
          \/ (opened_handle request r = Some (State.m_AccessIdentID st)
              /\ State.m_AccessIdentID st < 2 ^ 32 - 1))).
Proof.
  intros H Hid.
  assert (Hhandle : forall x,
            x = State.m_AccessIdentID st \/ x = 0xffffffff ->
            (if x =? 0xffffffff then None
             else Some (State.m_AccessIdentID st)) = None
            \/ ((if x =? 0xffffffff then None
                 else Some (State.m_AccessIdentID st)) =
                  Some (State.m_AccessIdentID st)
                /\ State.m_AccessIdentID st < 2 ^ 32 - 1)).
  { intros x Hx. destruct (Z.eqb_spec x 0xffffffff) as [E|E]; [by left|].
    right. split; [done|]. destruct Hx; [lia|done]. }
  destruct (decide (IOCtlVRequest.request request = IOCTL_ES_OPENTITLECONTENT))
    as [E1|E1];
    [|destruct (decide (IOCtlVRequest.request request = IOCTL_ES_OPENCONTENT))
        as [E2|E2]].
  - unfold ES.IOCtlV in H. unfold opened_handle. rewrite E1 in *.
    unfold ES.OpenTitleContent, ES.reply, ES.reply_value in H.
    destruct (negb _) in H.
    + inversion H; subst. by left.
    + match type of H with
      | context [ES.OpenTitleContent_cfd P ?c ?t ?i ?s] =>
          destruct (OpenTitleContent_cfd_result c t i s) as [Hr Hc];
          destruct (ES.OpenTitleContent_cfd P c t i s) as [x s'] eqn:Eo
      end.
      cbn [fst snd] in *. inversion H; subst. right.
      cbn [State.m_AccessIdentID State.set_AccessIdentID ES.ClearIOBuffers
           State.set_memory] in *.
      rewrite Hc. split; [done|].
      rewrite (reply_value_handle (State.m_AccessIdentID st)) by done.
      by apply Hhandle.
  - unfold ES.IOCtlV in H. unfold opened_handle. rewrite E2 in *.
    unfold ES.OpenContent, ES.reply, ES.reply_value in H.
    destruct (negb _) in H; [inversion H; subst; by left|].
    destruct (negb _) in H; [inversion H; subst; by left|].
    match type of H with
    | context [ES.OpenTitleContent_cfd P ?c ?t ?i ?s] =>
        destruct (OpenTitleContent_cfd_result c t i s) as [Hr Hc];
        destruct (ES.OpenTitleContent_cfd P c t i s) as [x s'] eqn:Eo
    end.
    cbn [fst snd] in *. inversion H; subst. right.
    cbn [State.m_AccessIdentID State.set_AccessIdentID ES.ClearIOBuffers
         State.set_memory] in *.
    rewrite Hc. split; [done|].
    rewrite (reply_value_handle (State.m_AccessIdentID st)) by done.
    by apply Hhandle.
  - left. split.
    + by eapply IOCtlV_other_counter.
    + by apply opened_handle_other.
Qed.

Lemma to_u32_succ_changes c : 0 <= c < 2 ^ 32 -> to_u32 (c + 1) <> c.
Proof.
  intros H. destruct (decide (c = 2 ^ 32 - 1)) as [->|].
  - by vm_compute.
  - rewrite to_u32_small by lia. lia.
Qed.

Lemma run_session_counter requests : forall st handles st',
  run_session P st requests = Some (handles, st') ->
  0 <= State.m_AccessIdentID st ->
  State.m_AccessIdentID st + counter_moves P st requests < 2 ^ 32 ->
  0 <= counter_moves P st requests
  /\ State.m_AccessIdentID st' =
       State.m_AccessIdentID st + counter_moves P st requests
  /\ Forall (fun h => State.m_AccessIdentID st <= h < State.m_AccessIdentID st')
       handles
  /\ StronglySorted Z.lt handles.
Proof.
  induction requests as [|request requests IH]; intros st handles st' H H0 Hb.
  - cbn in H. inversion H; subst. cbn [counter_moves].
    repeat split; try lia; constructor.
  - cbn [run_session] in H. cbn [counter_moves] in Hb |- *.
    destruct (ES.IOCtlV P st request) as [[r st1]|] eqn:E1;
      cbn [mbind option_bind] in H; [|done].
    cbn [fst snd] in H, Hb |- *.
    destruct (run_session P st1 requests) as [[handles1 st2]|] eqn:E2;
      cbn [mbind option_bind] in H; [|done].
    cbn [fst snd] in H. inversion H; subst. clear H.
    assert (Hmoves : forall s l h s',
              run_session P s l = Some (h, s') -> 0 <= counter_moves P s l).
    { clear. intros s l. revert s.
      induction l as [|q l IHl]; intros s h s' Hrun; cbn [counter_moves];
        [lia|].
      cbn [run_session] in Hrun.
      destruct (ES.IOCtlV P s q) as [[r s1]|];
        cbn [mbind option_bind fst snd] in Hrun |- *; [|lia].
      destruct (run_session P s1 l) as [[h1 s2]|] eqn:El;
        cbn [mbind option_bind] in Hrun; [|done].
      specialize (IHl _ _ _ El).
      destruct (_ =? _); lia. }
    pose proof (Hmoves _ _ _ _ E2) as Hrest.
    assert (Hc : 0 <= State.m_AccessIdentID st < 2 ^ 32)
      by (destruct (_ =? _) in Hb; lia).
    apply IOCtlV_counter in E1; [|done].
    destruct E1 as [[Hsame Hnone]|[Hnext Hhandle]].
    + rewrite Hsame, Z.eqb_refl in Hb |- *.
      apply IH in E2 as (_ & Hc2 & Hall & Hsorted); [|lia|lia].
      rewrite Hsame in Hc2, Hall. rewrite Hnone. cbn [option_list app].
      split; [lia|]. split; [lia|]. done.
    + pose proof (to_u32_succ_changes _ Hc) as Hne.
      rewrite Hnext, (proj2 (Z.eqb_neq _ _) Hne) in Hb |- *.
      assert (Hs : to_u32 (State.m_AccessIdentID st + 1) =
                   State.m_AccessIdentID st + 1)
        by (apply to_u32_small; lia).
      rewrite Hs in Hnext.
      apply IH in E2 as (_ & Hc2 & Hall & Hsorted); [|lia|lia].
      rewrite Hnext in Hc2, Hall.
      split; [lia|]. split; [lia|].
      assert (Hall' : Forall (fun h => State.m_AccessIdentID st <= h
                                       < State.m_AccessIdentID st') handles1).
      { eapply Forall_impl; [exact Hall|]. cbn. intros. lia. }
      destruct Hhandle as [->|[-> _]]; cbn [option_list app]; [done|].
      split.
      * constructor; [lia|exact Hall'].
      * constructor; [exact Hsorted|].
        eapply Forall_impl; [exact Hall|]. cbn. intros. lia.
Qed.
End Descriptors.


(** A long session: the counter wraps *)

Lemma run_session_app P requests1 : forall st requests2,
  run_session P st (requests1 ++ requests2) =
    r1 ← run_session P st requests1;
    r2 ← run_session P r1.2 requests2;
    Some (r1.1 ++ r2.1, r2.2).
Proof.
  induction requests1 as [|request requests1 IH]; intros st requests2.
  - cbn. by destruct (run_session P st requests2) as [[]|].
  - cbn [app run_session].
    destruct (ES.IOCtlV P st request) as [[r st1]|]; cbn; [|done].
    rewrite IH.
    destruct (run_session P st1 requests1) as [[h1 s1]|]; cbn; [|done].
    destruct (run_session P s1 requests2) as [[h2 s2]|]; cbn; [|done].
    by rewrite app_assoc.
Qed.

(** An open of a content the title does not have: the sentinel, and the
    counter moves on. *)
Lemma OpenTitleContent_missing P st request :
  ES.HasNumberOfValidVectors P request 3 0 = true ->
  CNANDContentLoader.GetContentByIndex
    (ES.AccessContentDevice P st
       (Read_U64 (State.memory st)
          (IOVector.address (ES.in_vector request 0))))
    (to_u16 (Read_U32 (State.memory st)
               (IOVector.address (ES.in_vector request 2)))) = None ->
  ES.OpenTitleContent P st request =
    Some (GetDefaultReply (Value (-1)),
          State.set_AccessIdentID st (to_u32 (State.m_AccessIdentID st + 1))).
Proof.
  intros Hshape Hmissing.
  unfold ES.OpenTitleContent, ES.reply_value, ES.OpenTitleContent_cfd.
  rewrite Hshape. cbn [negb].
  change (ES.AccessContentDevice P (State.set_AccessIdentID st ?x))
    with (ES.AccessContentDevice P st).
  cbn [State.memory State.set_AccessIdentID] in *. rewrite Hmissing.
  by destruct (negb _ || _ || _).
Qed.

Lemma open_missing_step c :
  ES.IOCtlV Sample.platform (SampleRead.st_opened c)
    SampleRead.open_missing_request =
    Some (GetDefaultReply (Value (-1)), SampleRead.st_opened (to_u32 (c + 1))).
Proof.
  change (ES.IOCtlV Sample.platform (SampleRead.st_opened c)
            SampleRead.open_missing_request)
    with (ES.OpenTitleContent Sample.platform (SampleRead.st_opened c)
            SampleRead.open_missing_request).
  rewrite OpenTitleContent_missing; [reflexivity|reflexivity|].
  vm_compute. reflexivity.
Qed.

Lemma open_missing_many n : forall c,
  0 <= c -> c + Z.of_nat n < 2 ^ 32 ->
  run_session Sample.platform (SampleRead.st_opened c) (replicate n SampleRead.open_missing_request) =
    Some ([], SampleRead.st_opened (c + Z.of_nat n)).
Proof.
  induction n as [|n IH]; intros c H0 Hb.
  - cbn [replicate run_session]. do 3 f_equal. lia.
  - cbn [replicate run_session]. rewrite open_missing_step.
    cbn [mbind option_bind fst snd].
    rewrite to_u32_small by lia. rewrite IH by lia.
    cbn [mbind option_bind fst snd opened_handle]. 
    do 3 f_equal. lia.
Qed.


Lemma run_session_cons P st request requests r st1 handles st2 :
  ES.IOCtlV P st request = Some (r, st1) ->
  run_session P st1 requests = Some (handles, st2) ->
  run_session P st (request :: requests) =
    Some (option_list (opened_handle request r) ++ handles, st2).
Proof. intros H1 H2. cbn [run_session]. by rewrite H1; cbn; rewrite H2. Qed.

Lemma run_session_app_Some P st requests1 requests2 h1 st1 h2 st2 :
  run_session P st requests1 = Some (h1, st1) ->
  run_session P st1 requests2 = Some (h2, st2) ->
  run_session P st (requests1 ++ requests2) = Some (h1 ++ h2, st2).
Proof. intros H1 H2. by rewrite run_session_app, H1; cbn; rewrite H2. Qed.

Lemma long_session_handles :
  fst <$> run_session Sample.platform SampleRead.st0 SampleRead.long_session =
    Some [0; 0].
Proof.
  assert (H1 : ES.IOCtlV Sample.platform SampleRead.st0 SampleRead.open_request
               = Some (GetDefaultReply (Value 0), SampleRead.st_opened 1))
    by (vm_compute; reflexivity).
  assert (H2 : run_session Sample.platform (SampleRead.st_opened 1)
                 (replicate (Z.to_nat (2 ^ 32 - 2))
                    SampleRead.open_missing_request) =
               Some ([], SampleRead.st_opened 0xFFFFFFFF)).
  { rewrite open_missing_many.
    - by rewrite Z2Nat.id.
    - lia.
    - rewrite Z2Nat.id; lia. }
  assert (exists st',
            run_session Sample.platform (SampleRead.st_opened 0xFFFFFFFF)
              [SampleRead.open_request; SampleRead.open_request] =
              Some ([0], st')) as [st' H3]
    by (vm_compute; eexists; reflexivity).
  unfold SampleRead.long_session.
  rewrite (run_session_cons _ _ _ _ _ _ _ _ H1
             (run_session_app_Some _ _ _ _ _ _ _ _ H2 H3)).
  reflexivity.
Qed.

Section DescriptorProps.
Variable P : Platform.
Implicit Types (st : State.t) (request : IOCtlVRequest.t).

Lemma OpenTitleContent_counts st request :
  ES.HasNumberOfValidVectors P request 3 0 = true ->
  exists r st',
    ES.OpenTitleContent P st request = Some (r, st')
    /\ State.m_AccessIdentID st' = to_u32 (State.m_AccessIdentID st + 1).
Proof.
  intros Hshape. unfold ES.OpenTitleContent, ES.reply_value.
  rewrite Hshape. cbn [negb].
  match goal with
  | |- context [ES.OpenTitleContent_cfd P ?c ?t ?i ?s] =>
      destruct (OpenTitleContent_cfd_result P c t i s) as [_ Hc]
  end.
  do 2 eexists. split; [reflexivity|]. by rewrite Hc.
Qed.

Lemma OpenContent_counts st request :
  ES.HasNumberOfValidVectors P request 1 0 = true ->
  TitleContext.active (State.s_title_context st) = true ->
  exists r st',
    ES.OpenContent P st request = Some (r, st')
    /\ State.m_AccessIdentID st' = to_u32 (State.m_AccessIdentID st + 1).
Proof.
  intros Hshape Hactive. unfold ES.OpenContent, ES.reply_value.
  rewrite Hshape, Hactive. cbn [negb].
  match goal with
  | |- context [ES.OpenTitleContent_cfd P ?c ?t ?i ?s] =>
      destruct (OpenTitleContent_cfd_result P c t i s) as [_ Hc]
  end.
  do 2 eexists. split; [reflexivity|]. by rewrite Hc.
Qed.

(** C10, as the code has it.  An open request that passes its handler's
    guards (the vector shape, and for [OpenContent] an active title)
    advances the counter by one, modulo 2^32, whether or not the open
    succeeds; a request refused by a guard is answered with the parameter
    error and leaves the whole state, the counter with it, as it was.
    Within a run of ioctlvs in which the counter does not reach 2^32 (its
    value at the start and the number of requests that move it stay below
    2^32 together), the descriptors handed out are strictly increasing, so
    none is handed out twice, closed or not, and the counter ends at its
    start plus the number of moves.  [Close] resets the counter to zero
    and empties the table. *)
Theorem descriptors_increase_within_session st requests handles st' :
  (run_session P st requests = Some (handles, st') ->
   0 <= State.m_AccessIdentID st ->
   State.m_AccessIdentID st + counter_moves P st requests < 2 ^ 32 ->
   StronglySorted Z.lt handles
   /\ Forall (fun h => State.m_AccessIdentID st <= h
                       < State.m_AccessIdentID st') handles
   /\ State.m_AccessIdentID st' =
        State.m_AccessIdentID st + counter_moves P st requests)
  /\ (forall request,
        ES.HasNumberOfValidVectors P request 3 0 = true ->
        exists r st1,
          ES.OpenTitleContent P st request = Some (r, st1)
          /\ State.m_AccessIdentID st1 =
               to_u32 (State.m_AccessIdentID st + 1))
  /\ (forall request,
        ES.HasNumberOfValidVectors P request 1 0 = true ->
        TitleContext.active (State.s_title_context st) = true ->
        exists r st1,
          ES.OpenContent P st request = Some (r, st1)
          /\ State.m_AccessIdentID st1 =
               to_u32 (State.m_AccessIdentID st + 1))
  /\ (forall request,
        ES.HasNumberOfValidVectors P request 3 0 = false ->
        ES.OpenTitleContent P st request =
          Some (GetDefaultReply (Code ES_PARAMETER_SIZE_OR_ALIGNMENT), st))
  /\ (forall request,
        ES.HasNumberOfValidVectors P request 1 0 = false
        \/ TitleContext.active (State.s_title_context st) = false ->
        ES.OpenContent P st request =
          Some (GetDefaultReply (Code ES_PARAMETER_SIZE_OR_ALIGNMENT), st))
  /\ State.m_AccessIdentID (ES.Close st) = 0
  /\ State.m_ContentAccessMap (ES.Close st) = ∅.
Proof.
  split; [|split; [|split; [|split; [|split; [|done]]]]].
  - intros Hrun H0 Hb.
    destruct (run_session_counter P requests st handles st' Hrun H0 Hb)
      as (_ & Hc & Hall & Hsorted).
    done.
  - intros request. apply OpenTitleContent_counts.
  - intros request. apply OpenContent_counts.
  - intros request Hshape. unfold ES.OpenTitleContent, ES.reply.
    by rewrite Hshape.
  - intros request Hguard. unfold ES.OpenContent, ES.reply.
    destruct (ES.HasNumberOfValidVectors P request 1 0); [|done].
    destruct Hguard as [|Hactive]; [done|]. by rewrite Hactive.
Qed.
End DescriptorProps.

Lemma descriptors_increase_within_session_witness :
  exists st',
    run_session Sample.platform SampleRead.st0
      [SampleRead.open_request; SampleRead.open_short_request;
       SampleRead.open_missing_request; SampleRead.close_request;
       SampleRead.open_request] =
      Some ([0; 2], st')
    /\ StronglySorted Z.lt [0; 2]
    /\ State.m_AccessIdentID st' = 3.
Proof.
  assert (exists st',
            run_session Sample.platform SampleRead.st0
              [SampleRead.open_request; SampleRead.open_short_request;
               SampleRead.open_missing_request; SampleRead.close_request;
               SampleRead.open_request] =
              Some ([0; 2], st'))
    as (st' & E) by (vm_compute; eauto).
  destruct (descriptors_increase_within_session Sample.platform
              SampleRead.st0
              [SampleRead.open_request; SampleRead.open_short_request;
               SampleRead.open_missing_request; SampleRead.close_request;
               SampleRead.open_request]
              [0; 2] st') as [Hrun _].
  destruct (Hrun E ltac:(cbn; lia) ltac:(vm_compute; reflexivity))
    as (Hsorted & _ & Hc).
  exists st'. split; [exact E|]. split; [exact Hsorted|].
  rewrite Hc. vm_compute. reflexivity.
Defined.


(** C10 as stated fails.  Two open requests that are refused by a guard (a
    vector too few; no title running) are answered with the parameter
    error and leave the counter at 0, where an open that fails with the
    all-ones sentinel moves it to 1.  And the counter is 32 bits wide: in a
    session of 2^32 + 1 open requests the first and the last both hand out
    descriptor 0, the first one never having been closed. *)
Lemma open_requests_refused_by_a_guard_do_not_count :
  (fun r => (r.1, State.m_AccessIdentID r.2)) <$>
    ES.IOCtlV Sample.platform SampleRead.st0 SampleRead.open_short_request =
    Some (GetDefaultReply (Code ES_PARAMETER_SIZE_OR_ALIGNMENT), 0)
  /\ (fun r => (r.1, State.m_AccessIdentID r.2)) <$>
       ES.IOCtlV Sample.platform SampleRead.st0
         SampleRead.open_content_request =
       Some (GetDefaultReply (Code ES_PARAMETER_SIZE_OR_ALIGNMENT), 0)
  /\ (fun r => (r.1, State.m_AccessIdentID r.2)) <$>
       ES.IOCtlV Sample.platform SampleRead.st0
         SampleRead.open_missing_request =
       Some (GetDefaultReply (Value (-1)), 1)
  /\ fst <$> run_session Sample.platform SampleRead.st0
               SampleRead.long_session = Some [0; 0].
Proof.
  split; [vm_compute; reflexivity|].
  split; [vm_compute; reflexivity|].
  split; [vm_compute; reflexivity|].
  apply long_session_handles.
Qed.

Section ReadInRange.
Variable P : Platform.
Implicit Types (st : State.t) (request : IOCtlVRequest.t).

(** The clamp of [ReadContent] while the position is inside the content and
    nothing wraps: the reply is [min n (size - position)] and the position
    advances by it. *)
Lemma ReadContent_clamps_in_range st request rContent :
  let CFD :=
    Read_U32 (State.memory st) (IOVector.address (ES.in_vector request 0)) in
  let n := IOVector.size (ES.io_vector request 0) in
  let position := OpenedContent.m_position rContent in
  let size := Content.size (OpenedContent.m_content rContent) in
  let L := ES.AccessContentDevice P st (OpenedContent.m_title_id rContent) in
  let m := Z.min n (size - position) in
  ES.HasNumberOfValidVectors P request 1 1 = true ->
  State.m_ContentAccessMap st !! CFD = Some rContent ->
  0 <= position <= size -> size < 2 ^ 32 ->
  0 <= n -> position + n < 2 ^ 32 ->
  GetPointer P (IOVector.address (ES.io_vector request 0)) = true ->
  is_Some (CNANDContentLoader.GetContentByIndex L
             (Content.index (OpenedContent.m_content rContent))) ->
  exists st',
    ES.ReadContent P st request = Some (GetDefaultReply (Value (to_s32 m)), st')
    /\ OpenedContent.m_position <$> State.m_ContentAccessMap st' !! CFD =
         Some (position + m).
Proof.
  intros CFD n position size L m Hshape Hentry Hpos Hsize Hn Hsum Hptr [c Hc].
  unfold ES.ReadContent, ES.reply_value. rewrite Hshape. cbn [negb].
  fold CFD. rewrite Hentry. fold n position size. rewrite Hptr.
  rewrite (to_u32_small (position + n)) by lia.
  assert (Hclamp : (if position + n >? size
                    then to_u32 (to_u32 size - position) else n) = m).
  { destruct (Z.gtb_spec (position + n) size).
    - rewrite (to_u32_small size), to_u32_small by lia. unfold m. lia.
    - unfold m. lia. }
  rewrite Hclamp.
  destruct (Z.gtb_spec m 0) as [Hm|Hm].
  - fold L. rewrite Hc. cbn [mbind option_bind].
    destruct (CNANDContentLoader.IsValid L && _);
      [destruct (SNANDContent.GetRange c position m)|];
      cbn [mbind option_bind]; eexists; (split; [reflexivity|]);
      cbn [State.m_ContentAccessMap State.set_ContentAccessMap];
      rewrite lookup_insert_eq; cbn; rewrite to_u32_small; (done || lia).
  - assert (m = 0) as -> by (unfold m in *; lia).
    exists st. split; [done|]. rewrite Hentry. cbn. f_equal. fold position. lia.
Qed.
End ReadInRange.

Lemma ReadContent_clamps_in_range_witness :
  exists st',
    ES.ReadContent Sample.platform (SampleRead.st_opened 1)
      (SampleRead.read_request 100) =
      Some (GetDefaultReply (Value 50), st')
    /\ OpenedContent.m_position <$> State.m_ContentAccessMap st' !! 0 = Some 50.
Proof.
  exact (ReadContent_clamps_in_range Sample.platform (SampleRead.st_opened 1)
           (SampleRead.read_request 100)
           (OpenedContent.mk Sample.title_id Sample.content0 0)
           eq_refl eq_refl ltac:(cbn; lia) ltac:(cbn; lia) ltac:(cbn; lia)
           ltac:(cbn; lia) eq_refl ltac:(vm_compute; eauto)).
Defined.

(** ** Guest memory *)

Section MemoryProps.
Implicit Types (m : Memory) (a x : Z) (bytes : list Z).

Lemma CopyToEmu_lookup bytes : forall m a x,
  CopyToEmu m a bytes !! x =
    if bool_decide (a <= x < a + Z.of_nat (length bytes))
    then bytes !! Z.to_nat (x - a) else m !! x.
Proof.
  induction bytes as [|b bytes IH]; intros m a x; cbn [CopyToEmu length].
  - rewrite bool_decide_eq_false_2 by lia. done.
  - rewrite IH. case_bool_decide as H1; case_bool_decide as H2; try lia.
    + replace (Z.to_nat (x - a)) with (S (Z.to_nat (x - (a + 1)))) by lia.
      done.
    + assert (x = a) as -> by lia. unfold Memory.
      rewrite lookup_insert_eq. by replace (a - a) with 0 by lia.
    + unfold Memory. rewrite lookup_insert_ne by lia. done.
Qed.

Lemma CopyToEmu_outside bytes m a x :
  ~ (a <= x < a + Z.of_nat (length bytes)) ->
  CopyToEmu m a bytes !! x = m !! x.
Proof. intros H. rewrite CopyToEmu_lookup. by rewrite bool_decide_eq_false_2. Qed.

Lemma Read_U8_CopyToEmu_outside bytes m a x :
  ~ (a <= x < a + Z.of_nat (length bytes)) ->
  Read_U8 (CopyToEmu m a bytes) x = Read_U8 m x.
Proof. intros H. unfold Read_U8. by rewrite CopyToEmu_outside. Qed.

Lemma Read_U8_CopyToEmu_inside bytes m a (i : nat) b :
  bytes !! i = Some b ->
  Read_U8 (CopyToEmu m a bytes) (a + Z.of_nat i) = to_u8 b.
Proof.
  intros H. unfold Read_U8. rewrite CopyToEmu_lookup.
  pose proof (lookup_lt_Some _ _ _ H).
  rewrite bool_decide_eq_true_2 by lia.
  replace (Z.to_nat (a + Z.of_nat i - a)) with i by lia. by rewrite H.
Qed.

Lemma CopyFromEmu_length m a n : 0 <= n -> length (CopyFromEmu m a n) = Z.to_nat n.
Proof. intros. unfold CopyFromEmu. by rewrite length_fmap, length_seqZ. Qed.

Lemma CopyFromEmu_lookup m a n (i : nat) :
  Z.of_nat i < n -> CopyFromEmu m a n !! i = Some (Read_U8 m (a + Z.of_nat i)).
Proof.
  intros H. unfold CopyFromEmu. rewrite list_lookup_fmap.
  rewrite (lookup_seqZ_lt 0 n i) by lia. cbn. do 2 f_equal. 
Qed.

Lemma CopyFromEmu_CopyToEmu m a bytes :
  CopyFromEmu (CopyToEmu m a bytes) a (Z.of_nat (length bytes)) = to_u8 <$> bytes.
Proof.
  apply list_eq. intros i. rewrite list_lookup_fmap.
  destruct (bytes !! i) as [b|] eqn:Hb.
  - pose proof (lookup_lt_Some _ _ _ Hb).
    rewrite CopyFromEmu_lookup by lia. cbn. f_equal.
    by apply Read_U8_CopyToEmu_inside.
  - pose proof (lookup_ge_None_1 _ _ Hb). cbn.
    apply lookup_ge_None_2. rewrite CopyFromEmu_length by lia. lia.
Qed.

Lemma Memset_lookup m a v n x :
  Memset m a v n !! x =
    if bool_decide (a <= x < a + Z.max 0 n) then Some v else m !! x.
Proof.
  unfold Memset. rewrite CopyToEmu_lookup, length_replicate.
  case_bool_decide as H1; case_bool_decide as H2; try lia; [|done].
  apply lookup_replicate_2. lia.
Qed.
End MemoryProps.

(** ** The prologue of the dispatcher *)

Section Dispatch.
Implicit Types (st : State.t) (request : IOCtlVRequest.t).

Lemma clear_fold request (l : list IOVector.t) : forall (m : Memory) x,
  foldl (fun mem io_vector =>
           if negb (IOCtlVRequest.HasInputVectorWithAddress request
                      (IOVector.address io_vector))
           then Memset mem (IOVector.address io_vector) 0
                  (IOVector.size io_vector)
           else mem) m l !! x =
    if existsb (fun v =>
                  negb (IOCtlVRequest.HasInputVectorWithAddress request
                          (IOVector.address v)) &&
                  bool_decide (IOVector.address v <= x
                               < IOVector.address v + IOVector.size v)) l
    then Some 0 else m !! x.
Proof.
  induction l as [|v l IH]; intros m x; cbn [foldl existsb]; [done|].
  rewrite IH.
  destruct (existsb _ l); [by rewrite orb_true_r|]. rewrite orb_false_r.
  destruct (IOCtlVRequest.HasInputVectorWithAddress request _);
    cbn [negb andb]; [done|].
  rewrite Memset_lookup.
  case_bool_decide; case_bool_decide; (done || lia).
Qed.

Lemma cleared_address_existsb request x :
  cleared_address request x <->
  existsb (fun v =>
             negb (IOCtlVRequest.HasInputVectorWithAddress request
                     (IOVector.address v)) &&
             bool_decide (IOVector.address v <= x
                          < IOVector.address v + IOVector.size v))
    (IOCtlVRequest.io_vectors request) = true.
Proof.
  rewrite existsb_exists. unfold cleared_address.
  split; intros (v & Hin & H).
  - exists v. split; [by apply list_elem_of_In|].
    destruct H as [-> H]. cbn. by apply bool_decide_eq_true_2.
  - exists v. split; [by apply list_elem_of_In|].
    apply andb_true_iff in H as [H1 H2].
    apply negb_true_iff in H1. by apply bool_decide_eq_true_1 in H2.
Qed.

(** X2.  Before it dispatches, [ES::IOCtlV] zero-fills every output vector
    whose address is not also the address of an input vector, and writes
    nowhere else: an address inside such a vector reads 0 afterwards, every
    other address keeps its byte, no other part of the device state
    changes, and clearing a second time changes nothing. *)
Theorem IOCtlV_clears_output_buffers st request x :
  let st' := ES.ClearIOBuffers st request in
  (cleared_address request x -> State.memory st' !! x = Some 0)
  /\ (~ cleared_address request x ->
      State.memory st' !! x = State.memory st !! x)
  /\ st' = State.set_memory st (State.memory st')
  /\ ES.ClearIOBuffers st' request = st'.
Proof.
  cbn zeta. unfold ES.ClearIOBuffers.
  cbn [State.memory State.set_memory].
  split; [|split; [|split; [done|]]].
  - intros H. apply cleared_address_existsb in H.
    rewrite clear_fold. by rewrite H.
  - intros H. rewrite clear_fold.
    destruct (existsb _ _) eqn:E; [|done].
    by apply cleared_address_existsb in E.
  - unfold State.set_memory. cbn. f_equal.
    apply map_eq. intros y. rewrite !clear_fold.
    by destruct (existsb _ _).
Qed.
End Dispatch.

(** ** Closed descriptors *)

Section AccessTable.
Variable P : Platform.
Implicit Types (st : State.t) (request : IOCtlVRequest.t).

Lemma to_s32_minus_one : to_s32 (-1) = -1.
Proof. reflexivity. Qed.

Lemma unknown_descriptor st request :
  State.m_ContentAccessMap st
    !! Read_U32 (State.memory st) (IOVector.address (ES.in_vector request 0))
    = None ->
  (ES.HasNumberOfValidVectors P request 1 1 = true ->
   ES.ReadContent P st request = Some (GetDefaultReply (Value (-1)), st))
  /\ (ES.HasNumberOfValidVectors P request 3 0 = true ->
      ES.SeekContent P st request = Some (GetDefaultReply (Value (-1)), st))
  /\ (ES.HasNumberOfValidVectors P request 1 0 = true ->
      ES.CloseContent P st request = Some (GetDefaultReply (Value (-1)), st)).
Proof.
  intros H. repeat split; intros Hshape.
  - unfold ES.ReadContent. rewrite Hshape. cbn [negb]. by rewrite H.
  - unfold ES.SeekContent. rewrite Hshape. cbn [negb]. by rewrite H.
  - unfold ES.CloseContent. rewrite Hshape. cbn [negb]. by rewrite H.
Qed.

Lemma CloseContent_success st request st' :
  ES.CloseContent P st request =
    Some (GetDefaultReply (Code IPC_SUCCESS), st') ->
  let CFD :=
    Read_U32 (State.memory st) (IOVector.address (ES.in_vector request 0)) in
  is_Some (State.m_ContentAccessMap st !! CFD)
  /\ State.m_ContentAccessMap st' = delete CFD (State.m_ContentAccessMap st)
  /\ State.memory st' = State.memory st.
Proof.
  intros H CFD. unfold ES.CloseContent, ES.reply, ES.reply_value in H.
  fold CFD in H. handler_cases H; simplify_eq; done.
Qed.

(** X3.  A descriptor that [CloseContent] has closed is gone: the close
    removes exactly that entry of the table (every other descriptor keeps
    its entry) and leaves guest memory alone, and from then on a read, a
    seek or a second close of the same descriptor is answered with -1 and
    changes nothing. *)
Theorem closed_descriptor_is_refused st request st' :
  ES.CloseContent P st request =
    Some (GetDefaultReply (Code IPC_SUCCESS), st') ->
  let CFD :=
    Read_U32 (State.memory st) (IOVector.address (ES.in_vector request 0)) in
  State.m_ContentAccessMap st' !! CFD = None
  /\ (forall other, other <> CFD ->
        State.m_ContentAccessMap st' !! other =
          State.m_ContentAccessMap st !! other)
  /\ State.memory st' = State.memory st
  /\ forall request',
       Read_U32 (State.memory st')
         (IOVector.address (ES.in_vector request' 0)) = CFD ->
       (ES.HasNumberOfValidVectors P request' 1 1 = true ->
        ES.ReadContent P st' request' =
          Some (GetDefaultReply (Value (-1)), st'))
       /\ (ES.HasNumberOfValidVectors P request' 3 0 = true ->
           ES.SeekContent P st' request' =
             Some (GetDefaultReply (Value (-1)), st'))
       /\ (ES.HasNumberOfValidVectors P request' 1 0 = true ->
           ES.CloseContent P st' request' =
             Some (GetDefaultReply (Value (-1)), st')).
Proof.
  intros H CFD.
  destruct (CloseContent_success st request st' H) as (_ & Hmap & Hmem).
  fold CFD in Hmap.
  assert (Hgone : State.m_ContentAccessMap st' !! CFD = None)
    by (rewrite Hmap; apply lookup_delete_eq).
  split; [done|]. split.
  { intros other Hne. rewrite Hmap. by apply lookup_delete_ne. }
  split; [done|].
  intros request' Hcfd. apply unknown_descriptor. by rewrite Hcfd.
Qed.
End AccessTable.

Lemma closed_descriptor_is_refused_witness :
  exists st',
    ES.CloseContent Sample.platform (SampleRead.st_opened 1)
      SampleRead.close_request = Some (GetDefaultReply (Code IPC_SUCCESS), st')
    /\ State.m_ContentAccessMap st' !! 0 = None
    /\ ES.ReadContent Sample.platform st' (SampleRead.read_request 10) =
         Some (GetDefaultReply (Value (-1)), st')
    /\ ES.CloseContent Sample.platform st' SampleRead.close_request =
         Some (GetDefaultReply (Value (-1)), st').
Proof.
  assert (exists st',
            ES.CloseContent Sample.platform (SampleRead.st_opened 1)
              SampleRead.close_request =
              Some (GetDefaultReply (Code IPC_SUCCESS), st')) as [st' E]
    by (vm_compute; eexists; reflexivity).
  destruct (closed_descriptor_is_refused Sample.platform _ _ _ E)
    as (Hgone & _ & Hmem & Huse).
  exists st'. split; [exact E|]. split; [exact Hgone|].
  assert (Hcfd : forall request',
            IOVector.address (ES.in_vector request' 0) = 0x400 ->
            Read_U32 (State.memory st')
              (IOVector.address (ES.in_vector request' 0)) =
            Read_U32 (State.memory (SampleRead.st_opened 1))
              (IOVector.address (ES.in_vector SampleRead.close_request 0))).
  { intros request' ->. rewrite Hmem. reflexivity. }
  split.
  - apply (Huse (SampleRead.read_request 10)); [by apply Hcfd|reflexivity].
  - apply (Huse SampleRead.close_request); [by apply Hcfd|reflexivity].
Defined.

(** ** What a read delivers *)

Section ReadBytes.
Variable P : Platform.
Implicit Types (st : State.t) (request : IOCtlVRequest.t).

Lemma to_u8_bytes (bytes : list Z) :
  Forall (fun b => 0 <= b < 2 ^ 8) bytes -> to_u8 <$> bytes = bytes.
Proof.
  induction 1 as [|b bytes Hb _ IH]; [done|]. cbn. rewrite IH. f_equal.
  unfold to_u8. by apply Z.mod_small.
Qed.

Lemma Forall_take_drop (Q : Z -> Prop) (l : list Z) i j :
  Forall Q l -> Forall Q (take i (drop j l)).
Proof. intros H. by apply Forall_take, Forall_drop. Qed.

Lemma ReadContent_clamp position n size :
  0 <= position <= size -> size < 2 ^ 32 -> 0 <= n -> position + n < 2 ^ 32 ->
  (if to_u32 (position + n) >? size
   then to_u32 (to_u32 size - position) else n) = Z.min n (size - position).
Proof.
  intros. rewrite (to_u32_small (position + n)) by lia.
  destruct (Z.gtb_spec (position + n) size).
  - rewrite (to_u32_small size), to_u32_small by lia. lia.
  - lia.
Qed.

Lemma ReadContent_served st request rContent pContent :
  let CFD :=
    Read_U32 (State.memory st) (IOVector.address (ES.in_vector request 0)) in
  let n := IOVector.size (ES.io_vector request 0) in
  let Addr := IOVector.address (ES.io_vector request 0) in
  let position := OpenedContent.m_position rContent in
  let size := Content.size (OpenedContent.m_content rContent) in
  let L := ES.AccessContentDevice P st (OpenedContent.m_title_id rContent) in
  let m := Z.min n (size - position) in
  ES.HasNumberOfValidVectors P request 1 1 = true ->
  State.m_ContentAccessMap st !! CFD = Some rContent ->
  0 <= position <= size -> size < 2 ^ 32 ->
  0 <= n -> position + n < 2 ^ 32 ->
  GetPointer P Addr = true ->
  CNANDContentLoader.IsValid L = true ->
  TicketReader.IsValid (CNANDContentLoader.GetTicket L) = true ->
  CNANDContentLoader.GetContentByIndex L
    (Content.index (OpenedContent.m_content rContent)) = Some pContent ->
  size <= Z.of_nat (length (SNANDContent.m_Data pContent)) ->
  Forall (fun b => 0 <= b < 2 ^ 8) (SNANDContent.m_Data pContent) ->
  exists st',
    ES.ReadContent P st request = Some (GetDefaultReply (Value (to_s32 m)), st')
    /\ CopyFromEmu (State.memory st') Addr m =
         take (Z.to_nat m)
           (drop (Z.to_nat position) (SNANDContent.m_Data pContent))
    /\ forall x, ~ (Addr <= x < Addr + m) ->
         State.memory st' !! x = State.memory st !! x.
Proof.
  intros CFD n Addr position size L m Hshape Hentry Hpos Hsize Hn Hsum Hptr
    Hvalid Hticket Hc Hblob Hbytes.
  unfold ES.ReadContent, ES.reply_value. rewrite Hshape. cbn [negb].
  fold CFD. rewrite Hentry. fold n Addr position size. rewrite Hptr.
  rewrite ReadContent_clamp by done. fold m.
  destruct (Z.gtb_spec m 0) as [Hm|Hm].
  - fold L. rewrite Hvalid, Hticket, Hc. cbn [andb mbind option_bind].
    unfold SNANDContent.GetRange.
    rewrite bool_decide_eq_true_2 by (unfold m; lia).
    cbn [mbind option_bind]. eexists. split; [reflexivity|].
    cbn [State.memory State.set_memory State.set_ContentAccessMap].
    set (bytes := take (Z.to_nat m) _).
    assert (Hlen : Z.of_nat (length bytes) = m).
    { unfold bytes. rewrite length_take, length_drop. unfold m in *. lia. }
    split.
    + rewrite <- Hlen at 1. rewrite CopyFromEmu_CopyToEmu.
      apply to_u8_bytes. by apply Forall_take_drop.
    + intros x Hx. apply CopyToEmu_outside. lia.
  - assert (m = 0) as -> by (unfold m in *; lia).
    exists st. split; [done|]. split; [done|]. done.
Qed.

(** X4.  What an in-range read delivers.  For an opened content whose
    position is inside the content, whose loader still resolves it and
    whose blob holds the declared number of bytes, [ReadContent] of [n]
    bytes copies the [min n (size - position)] bytes of the blob that start
    at the position to the output address, and writes to no other guest
    address. *)
Theorem ReadContent_copies_content_bytes st request rContent pContent :
  let CFD :=
    Read_U32 (State.memory st) (IOVector.address (ES.in_vector request 0)) in
  let n := IOVector.size (ES.io_vector request 0) in
  let Addr := IOVector.address (ES.io_vector request 0) in
  let position := OpenedContent.m_position rContent in
  let size := Content.size (OpenedContent.m_content rContent) in
  let L := ES.AccessContentDevice P st (OpenedContent.m_title_id rContent) in
  let m := Z.min n (size - position) in
  ES.HasNumberOfValidVectors P request 1 1 = true ->
  State.m_ContentAccessMap st !! CFD = Some rContent ->
  0 <= position <= size -> size < 2 ^ 32 ->
  0 <= n -> position + n < 2 ^ 32 ->
  GetPointer P Addr = true ->
  CNANDContentLoader.IsValid L = true ->
  TicketReader.IsValid (CNANDContentLoader.GetTicket L) = true ->
  CNANDContentLoader.GetContentByIndex L
    (Content.index (OpenedContent.m_content rContent)) = Some pContent ->
  size <= Z.of_nat (length (SNANDContent.m_Data pContent)) ->
  Forall (fun b => 0 <= b < 2 ^ 8) (SNANDContent.m_Data pContent) ->
  exists st',
    ES.ReadContent P st request = Some (GetDefaultReply (Value (to_s32 m)), st')
    /\ CopyFromEmu (State.memory st') Addr m =
         take (Z.to_nat m)
           (drop (Z.to_nat position) (SNANDContent.m_Data pContent))
    /\ forall x, ~ (Addr <= x < Addr + m) ->
         State.memory st' !! x = State.memory st !! x.
Proof. exact (ReadContent_served st request rContent pContent). Qed.

(** X5.  A read that cannot be served is still reported as served.  When
    the loader behind an opened content is no longer valid (or its ticket
    is not), or the blob is shorter than the range asked for, [ReadContent]
    copies nothing to guest memory, yet it replies the clamped byte count
    and advances the position by it. *)
Theorem ReadContent_reports_unread_bytes st request rContent :
  let CFD :=
    Read_U32 (State.memory st) (IOVector.address (ES.in_vector request 0)) in
  let n := IOVector.size (ES.io_vector request 0) in
  let position := OpenedContent.m_position rContent in
  let size := Content.size (OpenedContent.m_content rContent) in
  let L := ES.AccessContentDevice P st (OpenedContent.m_title_id rContent) in
  let m := Z.min n (size - position) in
  ES.HasNumberOfValidVectors P request 1 1 = true ->
  State.m_ContentAccessMap st !! CFD = Some rContent ->
  0 <= position <= size -> size < 2 ^ 32 ->
  0 <= n -> position + n < 2 ^ 32 -> 0 < m ->
  GetPointer P (IOVector.address (ES.io_vector request 0)) = true ->
  CNANDContentLoader.IsValid L &&
    TicketReader.IsValid (CNANDContentLoader.GetTicket L) = false
  \/ (exists pContent,
        CNANDContentLoader.GetContentByIndex L
          (Content.index (OpenedContent.m_content rContent)) = Some pContent
        /\ Z.of_nat (length (SNANDContent.m_Data pContent)) < position + m) ->
  ES.ReadContent P st request =
    Some (GetDefaultReply (Value (to_s32 m)),
          State.set_ContentAccessMap st
            (<[CFD := OpenedContent.set_position rContent (position + m)]>
               (State.m_ContentAccessMap st))).
Proof.
  intros CFD n position size L m Hshape Hentry Hpos Hsize Hn Hsum Hm Hptr Hbad.
  unfold ES.ReadContent, ES.reply_value. rewrite Hshape. cbn [negb].
  fold CFD. rewrite Hentry. fold n position size. rewrite Hptr.
  rewrite ReadContent_clamp by done. fold m.
  destruct (Z.gtb_spec m 0) as [_|?]; [|lia].
  fold L. rewrite (to_u32_small (position + m)) by (unfold m; lia).
  assert (Hst : State.set_memory st (State.memory st) = st) by by destruct st.
  destruct Hbad as [Hinv|(pContent & Hc & Hshort)].
  - rewrite Hinv. cbn [mbind option_bind]. by rewrite Hst.
  - rewrite Hc. cbn [mbind option_bind]. unfold SNANDContent.GetRange.
    rewrite bool_decide_eq_false_2 by lia.
    destruct (_ && _); cbn [mbind option_bind]; by rewrite Hst.
Qed.
End ReadBytes.

Lemma ReadContent_copies_content_bytes_witness :
  exists st',
    ES.ReadContent Sample.platform (SampleRead.st_opened 1)
      (SampleRead.read_request 100) =
      Some (GetDefaultReply (Value 50), st')
    /\ CopyFromEmu (State.memory st') 0x2000 50 = seqZ 0 50.
Proof.
  destruct (ReadContent_copies_content_bytes Sample.platform
              (SampleRead.st_opened 1) (SampleRead.read_request 100)
              (OpenedContent.mk Sample.title_id Sample.content0 0)
              (SNANDContent.mk Sample.content0 (seqZ 0 50))
              eq_refl eq_refl ltac:(cbn; lia) ltac:(cbn; lia) ltac:(cbn; lia)
              ltac:(cbn; lia) eq_refl eq_refl eq_refl eq_refl
              ltac:(apply Z.leb_le; reflexivity)
              ltac:(apply Forall_forall; intros b Hb;
                    apply elem_of_seqZ in Hb; lia))
    as (st' & E & Hbytes & _).
  exists st'. split; [exact E|exact Hbytes].
Defined.

Lemma ReadContent_reports_unread_bytes_witness :
  let st :=
    State.set_ContentAccessMap SampleRead.st0
      {[0 := OpenedContent.mk 5 Sample.content0 0]} in
  ES.ReadContent Sample.platform st (SampleRead.read_request 10) =
    Some (GetDefaultReply (Value 10),
          State.set_ContentAccessMap st
            {[0 := OpenedContent.mk 5 Sample.content0 10]}).
Proof.
  intros st.
  rewrite (ReadContent_reports_unread_bytes Sample.platform st
             (SampleRead.read_request 10)
             (OpenedContent.mk 5 Sample.content0 0)
             eq_refl eq_refl ltac:(cbn; lia) ltac:(cbn; lia) ltac:(cbn; lia)
             ltac:(cbn; lia) ltac:(cbn; lia) eq_refl
             (or_introl eq_refl)).
  reflexivity.
Defined.

(** ** Seeking and opening *)

Section SeekAndOpen.
Variable P : Platform.
Implicit Types (st : State.t) (request : IOCtlVRequest.t).

(** X6.  Seeking to the end.  [SeekContent] with mode 2 (END) and offset 0
    puts the position of an opened content at its size and replies it,
    leaving guest memory alone.  A read of [n] bytes from there replies 0
    and changes nothing, neither the position nor guest memory, as long as
    [size + n] stays below 2^32.  When [size + n] reaches 2^32 the 32-bit
    sum wraps round, the clamp is skipped, and a read into a destination
    [Memory::GetPointer] has a pointer for, of a content the loader still
    resolves, replies [n] read as a signed word and moves the position to
    [size + n - 2^32]. *)
Theorem seek_to_end_then_read st request rContent :
  let mem := State.memory st in
  let CFD := Read_U32 mem (IOVector.address (ES.in_vector request 0)) in
  let size := Content.size (OpenedContent.m_content rContent) in
  let L := ES.AccessContentDevice P st (OpenedContent.m_title_id rContent) in
  ES.HasNumberOfValidVectors P request 3 0 = true ->
  State.m_ContentAccessMap st !! CFD = Some rContent ->
  Read_U32 mem (IOVector.address (ES.in_vector request 1)) = 0 ->
  Read_U32 mem (IOVector.address (ES.in_vector request 2)) = 2 ->
  0 <= size < 2 ^ 32 ->
  exists st',
    ES.SeekContent P st request =
      Some (GetDefaultReply (Value (to_s32 size)), st')
    /\ State.m_ContentAccessMap st' !! CFD =
         Some (OpenedContent.set_position rContent size)
    /\ State.memory st' = mem
    /\ forall request',
         let n := IOVector.size (ES.io_vector request' 0) in
         ES.HasNumberOfValidVectors P request' 1 1 = true ->
         Read_U32 (State.memory st')
           (IOVector.address (ES.in_vector request' 0)) = CFD ->
         0 <= n < 2 ^ 32 ->
         (size + n < 2 ^ 32 ->
          ES.ReadContent P st' request' =
            Some (GetDefaultReply (Value 0), st'))
         /\ (2 ^ 32 <= size + n ->
             GetPointer P (IOVector.address (ES.io_vector request' 0)) =
               true ->
             is_Some (CNANDContentLoader.GetContentByIndex L
                        (Content.index (OpenedContent.m_content rContent))) ->
             exists st'',
               ES.ReadContent P st' request' =
                 Some (GetDefaultReply (Value (to_s32 n)), st'')
               /\ to_s32 n <> 0
               /\ OpenedContent.m_position <$>
                    State.m_ContentAccessMap st'' !! CFD =
                    Some (size + n - 2 ^ 32)).
Proof.
  intros mem CFD size L Hshape Hentry Hoff Hmode Hsize.
  unfold ES.SeekContent, ES.reply_value. rewrite Hshape. cbn [negb].
  fold mem CFD. rewrite Hentry, Hoff, Hmode. cbn [Z.eqb Pos.eqb].
  fold size. rewrite Z.add_0_r, !(to_u32_small size) by lia.
  eexists. split; [reflexivity|].
  cbn [State.m_ContentAccessMap State.set_ContentAccessMap State.memory].
  split; [by rewrite lookup_insert_eq|]. split; [done|].
  intros request' Hshape' Hcfd Hn.
  set (n := IOVector.size (ES.io_vector request' 0)) in *.
  unfold ES.ReadContent, ES.reply_value. rewrite Hshape'. cbn [negb].
  cbn [State.m_ContentAccessMap State.set_ContentAccessMap State.memory] in *.
  rewrite Hcfd, lookup_insert_eq.
  cbn [OpenedContent.m_position OpenedContent.m_content
       OpenedContent.m_title_id OpenedContent.set_position].
  fold size n. split.
  - intros Hsum. rewrite ReadContent_clamp by lia.
    replace (Z.min _ (size - size)) with 0 by lia.
    reflexivity.
  - intros Hsum Hptr [c Hc].
    assert (Hwrap : to_u32 (size + n) = size + n - 2 ^ 32).
    { unfold to_u32. rewrite <- (Z.mod_add _ (-1)) by lia.
      apply Z.mod_small. lia. }
    rewrite Hwrap.
    destruct (Z.gtb_spec (size + n - 2 ^ 32) size) as [|_]; [lia|].
    destruct (Z.gtb_spec n 0) as [_|]; [|lia].
    rewrite Hptr.
    change (ES.AccessContentDevice P (State.set_ContentAccessMap st ?m) ?t)
      with (ES.AccessContentDevice P st t).
    fold L. rewrite Hc. cbn [mbind option_bind].
    assert (Hs : to_s32 n <> 0).
    { unfold to_s32. rewrite (to_u32_small n) by lia.
      destruct (n <? 2 ^ 31); lia. }
    destruct (CNANDContentLoader.IsValid L && _);
      [destruct (SNANDContent.GetRange c size n)|];
      cbn [mbind option_bind]; eexists; (split; [reflexivity|]);
      (split; [exact Hs|]);
      cbn [State.m_ContentAccessMap State.set_ContentAccessMap
           State.set_memory];
      rewrite lookup_insert_eq; cbn; by rewrite Hwrap.
Qed.

Lemma find_index_again (l : list SNANDContent.t) index c :
  List.find (fun c => Content.index (SNANDContent.m_metadata c) =? index) l
    = Some c ->
  List.find
    (fun c' => Content.index (SNANDContent.m_metadata c') =?
               Content.index (SNANDContent.m_metadata c)) l = Some c.
Proof.
  intros H. destruct (find_some _ _ H) as [_ Hc].
  apply Z.eqb_eq in Hc. by rewrite Hc.
Qed.

Lemma OpenTitleContent_success st request v st1 :
  ES.OpenTitleContent P st request = Some (GetDefaultReply (Value v), st1) ->
  v <> -1 ->
  0 <= State.m_AccessIdentID st < 2 ^ 32 ->
  let TitleID :=
    Read_U64 (State.memory st) (IOVector.address (ES.in_vector request 0)) in
  let Index :=
    to_u16 (Read_U32 (State.memory st)
              (IOVector.address (ES.in_vector request 2))) in
  let L := ES.AccessContentDevice P st TitleID in
  let id := State.m_AccessIdentID st in
  exists pContent,
    CNANDContentLoader.IsValid L = true
    /\ TicketReader.IsValid (CNANDContentLoader.GetTicket L) = true
    /\ CNANDContentLoader.GetContentByIndex L Index = Some pContent
    /\ v = to_s32 id
    /\ st1 =
         State.set_ContentAccessMap
           (State.emit (State.set_AccessIdentID st (to_u32 (id + 1)))
              [DataOpen TitleID (Content.id (SNANDContent.m_metadata pContent))])
           (<[id := OpenedContent.mk TitleID
                      (SNANDContent.m_metadata pContent) 0]>
              (State.m_ContentAccessMap st)).
Proof.
  intros H Hv Hid TitleID Index L id.
  unfold ES.OpenTitleContent, ES.reply, ES.reply_value in H.
  destruct (negb _); [discriminate|].
  unfold ES.OpenTitleContent_cfd in H.
  change (ES.AccessContentDevice P _ _) with L in H.
  fold Index in H.
  destruct (CNANDContentLoader.IsValid L); cbn [negb orb] in H;
    [|cbn in H; simplify_eq; done].
  destruct (TMDReader.IsValid _); cbn [negb orb] in H;
    [|cbn in H; simplify_eq; done].
  destruct (TicketReader.IsValid _); cbn [negb orb] in H;
    [|cbn in H; simplify_eq; done].
  destruct (CNANDContentLoader.GetContentByIndex L Index) as [pContent|];
    [|cbn in H; simplify_eq; done].
  cbn [fst snd] in H. simplify_eq. by exists pContent.
Qed.

(** X7.  What is opened can be read.  After [OpenTitleContent] has handed
    out a descriptor, the table maps it to the content of the index asked
    for, at position 0, and a [ReadContent] of [n] bytes on that descriptor
    resolves the same blob again: it replies [min n size] and copies the
    first [min n size] bytes of the blob to the output address. *)
Theorem opened_content_is_readable st request v st1 request' :
  let TitleID :=
    Read_U64 (State.memory st) (IOVector.address (ES.in_vector request 0)) in
  let Index :=
    to_u16 (Read_U32 (State.memory st)
              (IOVector.address (ES.in_vector request 2))) in
  let L := ES.AccessContentDevice P st TitleID in
  let n := IOVector.size (ES.io_vector request' 0) in
  let Addr := IOVector.address (ES.io_vector request' 0) in
  ES.OpenTitleContent P st request = Some (GetDefaultReply (Value v), st1) ->
  v <> -1 ->
  0 <= State.m_AccessIdentID st < 2 ^ 32 ->
  ES.HasNumberOfValidVectors P request' 1 1 = true ->
  Read_U32 (State.memory st1) (IOVector.address (ES.in_vector request' 0)) =
    State.m_AccessIdentID st ->
  0 <= n < 2 ^ 32 ->
  GetPointer P Addr = true ->
  exists pContent,
    CNANDContentLoader.GetContentByIndex L Index = Some pContent
    /\ State.m_ContentAccessMap st1 !! State.m_AccessIdentID st =
         Some (OpenedContent.mk TitleID (SNANDContent.m_metadata pContent) 0)
    /\ let size := Content.size (SNANDContent.m_metadata pContent) in
       let m := Z.min n size in
       0 <= size < 2 ^ 32 ->
       size <= Z.of_nat (length (SNANDContent.m_Data pContent)) ->
       Forall (fun b => 0 <= b < 2 ^ 8) (SNANDContent.m_Data pContent) ->
       exists st2,
         ES.ReadContent P st1 request' =
           Some (GetDefaultReply (Value (to_s32 m)), st2)
         /\ CopyFromEmu (State.memory st2) Addr m =
              take (Z.to_nat m) (SNANDContent.m_Data pContent).
Proof.
  intros TitleID Index L n Addr Hopen Hv Hid Hshape Hcfd Hn Hptr.
  destruct (OpenTitleContent_success st request v st1 Hopen Hv Hid)
    as (pContent & Hvalid & Hticket & Hc & _ & ->).
  fold TitleID Index L in Hvalid, Hticket, Hc.
  exists pContent. split; [done|]. split.
  { cbn [State.m_ContentAccessMap State.set_ContentAccessMap].
    by rewrite lookup_insert_eq. }
  intros size m Hsize Hblob Hbytes.
  set (rContent :=
         OpenedContent.mk TitleID (SNANDContent.m_metadata pContent) 0).
  set (st1 := State.set_ContentAccessMap _ _) in *.
  assert (Hentry : State.m_ContentAccessMap st1
                     !! Read_U32 (State.memory st1)
                          (IOVector.address (ES.in_vector request' 0)) =
                   Some rContent).
  { rewrite Hcfd. unfold st1.
    cbn [State.m_ContentAccessMap State.set_ContentAccessMap].
    by rewrite lookup_insert_eq. }
  destruct (ReadContent_served P st1 request' rContent pContent Hshape Hentry)
    as (st2 & Hread & Hcopy & _).
  - cbn. lia.
  - cbn. lia.
  - fold n. lia.
  - cbn. fold n. lia.
  - exact Hptr.
  - exact Hvalid.
  - exact Hticket.
  - apply (find_index_again _ Index). exact Hc.
  - exact Hblob.
  - exact Hbytes.
  - exists st2. cbn in Hread, Hcopy. fold n Addr size in Hread, Hcopy.
    rewrite Z.sub_0_r in Hread, Hcopy. fold m in Hread, Hcopy.
    split; [exact Hread|]. rewrite Hcopy. by rewrite drop_0.
Qed.
End SeekAndOpen.

Lemma seek_to_end_then_read_witness :
  let st :=
    State.set_memory (SampleRead.st_opened 1)
      (Sample.poke32 (Sample.poke32 SampleRead.mem 0x500 0) 0x600 2) in
  exists st' st'',
    ES.SeekContent Sample.platform st SampleRead.seek_request =
      Some (GetDefaultReply (Value 50), st')
    /\ ES.ReadContent Sample.platform st' (SampleRead.read_request 10) =
         Some (GetDefaultReply (Value 0), st')
    /\ ES.ReadContent Sample.platform st'
         (SampleRead.read_request (2 ^ 32 - 10)) =
         Some (GetDefaultReply (Value (-10)), st'')
    /\ OpenedContent.m_position <$> State.m_ContentAccessMap st'' !! 0 =
         Some 40.
Proof.
  intros st.
  destruct (seek_to_end_then_read Sample.platform st SampleRead.seek_request
              (OpenedContent.mk Sample.title_id Sample.content0 0)
              eq_refl eq_refl eq_refl eq_refl ltac:(cbn; lia))
    as (st' & E & _ & Hmem & Hread).
  destruct (Hread (SampleRead.read_request 10) eq_refl
              ltac:(rewrite Hmem; reflexivity) ltac:(cbn; lia))
    as [Hzero _].
  destruct (Hread (SampleRead.read_request (2 ^ 32 - 10)) eq_refl
              ltac:(rewrite Hmem; reflexivity) ltac:(cbn; lia))
    as [_ Hwrap].
  destruct (Hwrap ltac:(cbn; lia) eq_refl ltac:(vm_compute; eauto))
    as (st'' & E' & _ & Hpos).
  exists st', st''. split; [exact E|]. split; [apply Hzero; cbn; lia|].
  split; [exact E'|exact Hpos].
Defined.

Lemma opened_content_is_readable_witness :
  exists st1 st2,
    ES.OpenTitleContent Sample.platform SampleRead.st0 SampleRead.open_request
      = Some (GetDefaultReply (Value 0), st1)
    /\ ES.ReadContent Sample.platform st1 (SampleRead.read_request 100) =
         Some (GetDefaultReply (Value 50), st2)
    /\ CopyFromEmu (State.memory st2) 0x2000 50 = seqZ 0 50.
Proof.
  assert (exists st1,
            ES.OpenTitleContent Sample.platform SampleRead.st0
              SampleRead.open_request = Some (GetDefaultReply (Value 0), st1)
            /\ State.memory st1 = SampleRead.mem) as (st1 & E & Hmem)
    by (vm_compute; eexists; split; reflexivity).
  destruct (opened_content_is_readable Sample.platform SampleRead.st0
              SampleRead.open_request 0 st1 (SampleRead.read_request 100) E
              ltac:(discriminate) ltac:(cbn; lia) eq_refl
              ltac:(rewrite Hmem; reflexivity) ltac:(cbn; lia) eq_refl)
    as (pContent & Hc & _ & Hread).
  assert (Some pContent = Some (SNANDContent.mk Sample.content0 (seqZ 0 50)))
    as [= ->] by (rewrite <- Hc; vm_compute; reflexivity).
  destruct Hread as (st2 & Hread & Hbytes).
  - cbn. lia.
  - apply Z.leb_le. reflexivity.
  - apply Forall_forall. intros b Hb. apply elem_of_seqZ in Hb. lia.
  - exists st1, st2. split; [exact E|]. split; [exact Hread|exact Hbytes].
Defined.

(** ** The import session *)

Section ImportSession.
Variable P : Platform.
Implicit Types (st : State.t) (request : IOCtlVRequest.t).

Lemma set_memory_same st : State.set_memory st (State.memory st) = st.
Proof. by destruct st. Qed.

Lemma ClearIOBuffers_no_outputs st request :
  IOCtlVRequest.io_vectors request = [] -> ES.ClearIOBuffers st request = st.
Proof.
  intros H. unfold ES.ClearIOBuffers. rewrite H. cbn [foldl].
  apply set_memory_same.
Qed.

Lemma shape_no_outputs request n :
  ES.HasNumberOfValidVectors P request n 0 = true ->
  IOCtlVRequest.io_vectors request = [].
Proof.
  unfold ES.HasNumberOfValidVectors. intros H.
  apply andb_true_iff in H as [H _]. apply andb_true_iff in H as [H _].
  apply andb_true_iff in H as [_ H]. apply bool_decide_eq_true_1 in H.
  by apply nil_length_inv.
Qed.

Lemma run_ioctlvs_app requests1 : forall st requests2,
  run_ioctlvs P st (requests1 ++ requests2) =
    r1 ← run_ioctlvs P st requests1;
    r2 ← run_ioctlvs P r1.2 requests2;
    Some (r1.1 ++ r2.1, r2.2).
Proof.
  induction requests1 as [|request requests1 IH]; intros st requests2.
  - cbn. by destruct (run_ioctlvs P st requests2) as [[??]|].
  - cbn [app run_ioctlvs].
    destruct (ES.IOCtlV P st request) as [[r st1]|]; [|done].
    cbn [mbind option_bind fst snd]. rewrite IH.
    destruct (run_ioctlvs P st1 requests1) as [[rs1 st2]|]; [|done].
    cbn [mbind option_bind fst snd].
    by destruct (run_ioctlvs P st2 requests2) as [[??]|].
Qed.

Lemma AddContentData_run requests : forall st,
  Forall (is_data_request P) requests ->
  run_ioctlvs P st requests =
    Some (replicate (length requests) (GetDefaultReply (Code IPC_SUCCESS)),
          State.set_addtitle_content_buffer st
            (State.m_addtitle_content_buffer st ++
             concat (content_data (State.memory st) <$> requests))).
Proof.
  induction requests as [|request requests IH]; intros st Hall.
  - cbn. rewrite app_nil_r. by destruct st.
  - apply Forall_cons in Hall as [(Hcode & Hshape & Hptr) Hall].
    cbn [run_ioctlvs]. unfold ES.IOCtlV. rewrite Hcode.
    rewrite ClearIOBuffers_no_outputs by by eapply shape_no_outputs.
    unfold ES.AddContentData, ES.reply. rewrite Hshape. cbn [negb].
    replace (negb (GetPointer P (IOVector.address (ES.in_vector request 1)))
             && negb (IOVector.size (ES.in_vector request 1) =? 0))
      with false
      by (destruct Hptr as [-> | ->]; [done|by rewrite andb_false_r]).
    cbn [mbind option_bind fst snd]. rewrite IH by done.
    cbn [mbind option_bind fst snd length replicate fmap list_fmap concat].
    do 2 f_equal. destruct st. cbn. by rewrite <- app_assoc.
Qed.

(** X8.  [AddContentData] accumulates.  A run of content-data requests,
    each of the right shape and with a data vector that is empty or lies
    where [Memory::GetPointer] has a pointer, is answered with IPC_SUCCESS
    each time and appends the payloads, in the order of the requests, to
    the bytes already received; nothing else of the device changes.  A
    request whose data vector is not empty and has no pointer is read
    through a null pointer: it has no reply. *)
Theorem AddContentData_accumulates st requests :
  (Forall (is_data_request P) requests ->
   run_ioctlvs P st requests =
     Some (replicate (length requests) (GetDefaultReply (Code IPC_SUCCESS)),
           State.set_addtitle_content_buffer st
             (State.m_addtitle_content_buffer st ++
              concat (content_data (State.memory st) <$> requests))))
  /\ (forall request,
        ES.HasNumberOfValidVectors P request 2 0 = true ->
        GetPointer P (IOVector.address (ES.in_vector request 1)) = false ->
        IOVector.size (ES.in_vector request 1) <> 0 ->
        ES.AddContentData P st request = None).
Proof.
  split; [apply AddContentData_run|].
  intros request Hshape Hptr Hsize. unfold ES.AddContentData.
  rewrite Hshape, Hptr, (proj2 (Z.eqb_neq _ _) Hsize). reflexivity.
Qed.

Lemma AddContentStart_accepted st request :
  ES.HasNumberOfValidVectors P request 2 0 = true ->
  State.m_addtitle_content_id st = 0xFFFFFFFF ->
  ES.AddContentStart P st request =
    let st' :=
      State.set_addtitle_content_buffer
        (State.set_addtitle_content_id st
           (Read_U32 (State.memory st)
              (IOVector.address (ES.in_vector request 1)))) [] in
    if TMDReader.IsValid (State.m_addtitle_tmd st)
    then Some (GetDefaultReply (Value 0), st')
    else Some (GetDefaultReply (Code ES_PARAMETER_SIZE_OR_ALIGNMENT), st').
Proof.
  intros Hshape Hid. unfold ES.AddContentStart, ES.reply, ES.reply_value.
  rewrite Hshape, Hid. cbn [negb Z.eqb Pos.eqb].
  cbn [State.m_addtitle_tmd State.set_addtitle_content_buffer
       State.set_addtitle_content_id].
  by destruct (TMDReader.IsValid _).
Qed.

(** X9.  A content start that is refused for want of a valid TMD still
    takes effect.  With no transfer pending and no valid TMD,
    [AddContentStart] replies the parameter error but has recorded the
    content id as pending and emptied the buffer; unless that id is the
    sentinel 0xFFFFFFFF itself, every further [AddContentStart] is then
    refused with ES_WRITE_FAILURE. *)
Theorem AddContentStart_without_tmd_sticks st request :
  let content_id :=
    Read_U32 (State.memory st) (IOVector.address (ES.in_vector request 1)) in
  let st' :=
    State.set_addtitle_content_buffer
      (State.set_addtitle_content_id st content_id) [] in
  ES.HasNumberOfValidVectors P request 2 0 = true ->
  State.m_addtitle_content_id st = 0xFFFFFFFF ->
  TMDReader.IsValid (State.m_addtitle_tmd st) = false ->
  ES.AddContentStart P st request =
    Some (GetDefaultReply (Code ES_PARAMETER_SIZE_OR_ALIGNMENT), st')
  /\ (content_id <> 0xFFFFFFFF ->
      forall request',
        ES.HasNumberOfValidVectors P request' 2 0 = true ->
        ES.AddContentStart P st' request' =
          Some (GetDefaultReply (Code ES_WRITE_FAILURE), st')).
Proof.
  intros content_id st' Hshape Hid Htmd.
  rewrite AddContentStart_accepted by done. cbn zeta. rewrite Htmd.
  split; [done|]. intros Hne request' Hshape'.
  unfold ES.AddContentStart, ES.reply. rewrite Hshape'. cbn [negb].
  unfold st'.
  cbn [State.m_addtitle_content_id State.set_addtitle_content_buffer
       State.set_addtitle_content_id].
  fold content_id. destruct (Z.eqb_spec content_id 0xFFFFFFFF); done.
Qed.

Lemma find_content_id (tmd : TMDReader.t) id content_info :
  TMDReader.FindContentById tmd id = Some content_info ->
  Content.id content_info = id.
Proof.
  intros H. destruct (find_some _ _ H) as [_ Hc]. by apply Z.eqb_eq in Hc.
Qed.

Lemma AddContentFinish_accepted st request content_info :
  let tmd := State.m_addtitle_tmd st in
  let ticket := FindSignedTicket P (TMDReader.GetTitleId tmd) in
  let buffer := State.m_addtitle_content_buffer st in
  ES.HasNumberOfValidVectors P request 1 0 = true ->
  TMDReader.IsValid tmd = true ->
  TicketReader.IsValid ticket = true ->
  TMDReader.FindContentById tmd (State.m_addtitle_content_id st) =
    Some content_info ->
  is_u16 (Content.index content_info) ->
  Content.size content_info <= Z.of_nat (length buffer) ->
  ES.AddContentFinish P st request =
    Some (GetDefaultReply (Code IPC_SUCCESS),
          State.set_addtitle_content_id
            (State.emit st
               [WriteBytes (content_path tmd content_info)
                  (take (Z.to_nat (Content.size content_info))
                     (mbedtls_aes_crypt_cbc (aes_encrypt_block P)
                        (aes_decrypt_block P)
                        (take 16 (TicketReader.GetTitleKey ticket))
                        MBEDTLS_AES_DECRYPT (Z.of_nat (length buffer))
                        (content_iv (Content.index content_info))
                        buffer (replicate (length buffer) 0)).2)])
            0xFFFFFFFF).
Proof.
  intros tmd ticket buffer Hshape Htmd Hticket Hfind Hindex Hsize.
  unfold ES.AddContentFinish, ES.reply. rewrite Hshape. cbn [negb].
  fold tmd. rewrite Htmd. cbn [negb]. fold ticket. rewrite Hticket.
  cbn [negb]. rewrite Hfind. fold buffer.
  rewrite (proj2 (Z.ltb_ge _ _) Hsize). rewrite content_iv_array by done.
  unfold content_path. by rewrite (find_content_id _ _ _ Hfind).
Qed.

Section Cipher.
Hypothesis enc_length : forall key b,
  length b = 16%nat -> length (aes_encrypt_block P key b) = 16%nat.
Hypothesis dec_enc : forall key b,
  length b = 16%nat ->
  aes_decrypt_block P key (aes_encrypt_block P key b) = b.

Lemma crypt_cbc_decrypts key iv plaintext k :
  length iv = 16%nat -> length plaintext = (16 * k)%nat ->
  let ciphertext :=
    (cbc_encrypt (aes_encrypt_block P) key k iv plaintext).2 in
  (mbedtls_aes_crypt_cbc (aes_encrypt_block P) (aes_decrypt_block P) key
     MBEDTLS_AES_DECRYPT (Z.of_nat (length ciphertext)) iv ciphertext
     (replicate (length ciphertext) 0)).2 = plaintext.
Proof.
  intros Hiv Hlen ciphertext.
  assert (Hc : length ciphertext = (16 * k)%nat)
    by by apply cbc_encrypt_length.
  unfold mbedtls_aes_crypt_cbc. rewrite Hc.
  rewrite bool_decide_eq_true_2
    by (rewrite Nat2Z.inj_mul, Z.mul_comm; apply Z.mod_mul; lia).
  cbn [fst snd].
  replace (Z.to_nat (Z.of_nat (16 * k) / 16)) with k
    by (rewrite Nat2Z.inj_mul, Z.mul_comm, Z.div_mul; lia).
  unfold ciphertext. rewrite cbc_roundtrip by done.
  rewrite Hlen, drop_ge by (rewrite length_replicate; lia).
  apply app_nil_r.
Qed.

Lemma AddContentFinish_overread st request content_info :
  let tmd := State.m_addtitle_tmd st in
  let ticket := FindSignedTicket P (TMDReader.GetTitleId tmd) in
  ES.HasNumberOfValidVectors P request 1 0 = true ->
  TMDReader.IsValid tmd = true ->
  TicketReader.IsValid ticket = true ->
  TMDReader.FindContentById tmd (State.m_addtitle_content_id st) =
    Some content_info ->
  Z.of_nat (length (State.m_addtitle_content_buffer st)) <
    Content.size content_info ->
  ES.AddContentFinish P st request = None.
Proof.
  intros tmd ticket Hshape Htmd Hticket Hfind Hsize.
  unfold ES.AddContentFinish, ES.reply. rewrite Hshape. cbn [negb].
  fold tmd. rewrite Htmd. cbn [negb]. fold ticket. rewrite Hticket.
  cbn [negb]. rewrite Hfind. by rewrite (proj2 (Z.ltb_lt _ _) Hsize).
Qed.

(** The run of an import up to its last request. *)
Lemma import_run st start datas finish :
  let content_id :=
    Read_U32 (State.memory st) (IOVector.address (ES.in_vector start 1)) in
  let received :=
    State.set_addtitle_content_buffer
      (State.set_addtitle_content_id st content_id)
      (concat (content_data (State.memory st) <$> datas)) in
  IOCtlVRequest.request start = IOCTL_ES_ADDCONTENTSTART ->
  ES.HasNumberOfValidVectors P start 2 0 = true ->
  Forall (is_data_request P) datas ->
  IOCtlVRequest.request finish = IOCTL_ES_ADDCONTENTFINISH ->
  ES.HasNumberOfValidVectors P finish 1 0 = true ->
  State.m_addtitle_content_id st = 0xFFFFFFFF ->
  TMDReader.IsValid (State.m_addtitle_tmd st) = true ->
  run_ioctlvs P st (start :: datas ++ [finish]) =
    r ← ES.AddContentFinish P received finish;
    Some (GetDefaultReply (Value 0) ::
          replicate (length datas) (GetDefaultReply (Code IPC_SUCCESS)) ++
          [r.1], r.2).
Proof.
  intros content_id received Hstart Hshape Hdatas Hfinish Hshape' Hid Htmd.
  cbn [run_ioctlvs]. unfold ES.IOCtlV at 1. rewrite Hstart.
  rewrite ClearIOBuffers_no_outputs by by eapply shape_no_outputs.
  rewrite AddContentStart_accepted by done. cbn zeta. fold content_id.
  rewrite Htmd. cbn [mbind option_bind fst snd].
  rewrite run_ioctlvs_app, AddContentData_run by done.
  cbn [mbind option_bind fst snd run_ioctlvs]. unfold ES.IOCtlV.
  rewrite Hfinish.
  rewrite ClearIOBuffers_no_outputs by by eapply shape_no_outputs.
  cbn [State.memory State.m_addtitle_content_buffer
       State.set_addtitle_content_buffer State.set_addtitle_content_id app].
  change (State.set_addtitle_content_buffer
            (State.set_addtitle_content_buffer _ []) _) with received.
  by destruct (ES.AddContentFinish P received finish) as [[??]|].
Qed.

(** X10.  An import installs the plaintext.  With a valid TMD that lists
    the content, an installed ticket and no transfer pending, take the
    sequence content start, any number of content-data requests (each with
    a pointer for its data), content finish, whose payloads together are
    the AES-CBC encryption of [plaintext] (whole blocks) under the first
    16 bytes of the ticket's title key and the IV of the content's index.
    When the content's [size] is at most the number of bytes received, the
    sequence is answered 0, IPC_SUCCESS, ..., IPC_SUCCESS, the one file
    written is the content's path and holds the first [size] bytes of
    [plaintext], and no transfer is pending afterwards.  When [size] is
    larger, the finish hands [WriteBytes] more bytes than the decrypted
    vector holds: the sequence has no result. *)
Theorem import_installs_plaintext st start datas finish content_info
    plaintext k :
  let tmd := State.m_addtitle_tmd st in
  let ticket := FindSignedTicket P (TMDReader.GetTitleId tmd) in
  let key := take 16 (TicketReader.GetTitleKey ticket) in
  let content_id :=
    Read_U32 (State.memory st) (IOVector.address (ES.in_vector start 1)) in
  IOCtlVRequest.request start = IOCTL_ES_ADDCONTENTSTART ->
  ES.HasNumberOfValidVectors P start 2 0 = true ->
  Forall (is_data_request P) datas ->
  IOCtlVRequest.request finish = IOCTL_ES_ADDCONTENTFINISH ->
  ES.HasNumberOfValidVectors P finish 1 0 = true ->
  State.m_addtitle_content_id st = 0xFFFFFFFF ->
  TMDReader.IsValid tmd = true ->
  TicketReader.IsValid ticket = true ->
  TMDReader.FindContentById tmd content_id = Some content_info ->
  is_u16 (Content.index content_info) ->
  length plaintext = (16 * k)%nat ->
  concat (content_data (State.memory st) <$> datas) =
    (cbc_encrypt (aes_encrypt_block P) key k
       (content_iv (Content.index content_info)) plaintext).2 ->
  (Content.size content_info <= Z.of_nat (length plaintext) ->
   exists st',
     run_ioctlvs P st (start :: datas ++ [finish]) =
       Some (GetDefaultReply (Value 0) ::
             replicate (length datas) (GetDefaultReply (Code IPC_SUCCESS)) ++
             [GetDefaultReply (Code IPC_SUCCESS)], st')
     /\ State.trace st' =
          State.trace st ++
          [WriteBytes (content_path tmd content_info)
             (take (Z.to_nat (Content.size content_info)) plaintext)]
     /\ State.m_addtitle_content_id st' = 0xFFFFFFFF)
  /\ (Z.of_nat (length plaintext) < Content.size content_info ->
      run_ioctlvs P st (start :: datas ++ [finish]) = None).
Proof.
  intros tmd ticket key content_id Hstart Hshape Hdatas Hfinish Hshape'
    Hid Htmd Hticket Hfind Hindex Hlen Hcipher.
  rewrite import_run by done. fold content_id. rewrite Hcipher.
  set (ciphertext := (cbc_encrypt _ key k _ plaintext).2).
  assert (Hc : length ciphertext = length plaintext).
  { unfold ciphertext. rewrite (cbc_encrypt_length _ enc_length); [done| |done].
    apply content_iv_length. }
  split; intros Hsize.
  - erewrite AddContentFinish_accepted;
      [|done|exact Htmd|exact Hticket|exact Hfind|done|cbn; lia].
    cbn [mbind option_bind fst snd]. eexists. split; [reflexivity|].
    cbn [State.trace State.emit State.set_addtitle_content_id
         State.m_addtitle_content_id State.m_addtitle_tmd
         State.m_addtitle_content_buffer State.set_addtitle_content_buffer].
    split; [|done]. fold tmd ticket key. unfold ciphertext.
    rewrite crypt_cbc_decrypts; [done|apply content_iv_length|done].
  - rewrite (AddContentFinish_overread _ finish content_info);
      [done|done|exact Htmd|exact Hticket|exact Hfind|cbn; lia].
Qed.
End Cipher.
End ImportSession.

Lemma AddContentData_accumulates_witness :
  run_ioctlvs Sample.platform SampleSession.st0
    [SampleSession.data_request 0x3000; SampleSession.data_request 0x3020] =
    Some ([GetDefaultReply (Code IPC_SUCCESS);
           GetDefaultReply (Code IPC_SUCCESS)],
          State.set_addtitle_content_buffer SampleSession.st0
            SampleSession.ciphertext)
  /\ ES.AddContentData Sample.platform SampleSession.st0
       (SampleSession.data_request 0x01800000) = None.
Proof.
  destruct (AddContentData_accumulates Sample.platform SampleSession.st0
              [SampleSession.data_request 0x3000;
               SampleSession.data_request 0x3020]) as [Hrun Hnull].
  split.
  - rewrite Hrun by (repeat constructor; by left).
    vm_compute. reflexivity.
  - apply Hnull; [reflexivity|reflexivity|discriminate].
Defined.

Lemma AddContentStart_without_tmd_sticks_witness :
  let st := State.set_memory State.init SampleExport.mem in
  let st' :=
    State.set_addtitle_content_buffer (State.set_addtitle_content_id st 7) []
  in
  ES.AddContentStart Sample.platform st SampleSession.start_request =
    Some (GetDefaultReply (Code ES_PARAMETER_SIZE_OR_ALIGNMENT), st')
  /\ ES.AddContentStart Sample.platform st' SampleSession.start_request =
       Some (GetDefaultReply (Code ES_WRITE_FAILURE), st').
Proof.
  intros st st'.
  destruct (AddContentStart_without_tmd_sticks Sample.platform st
              SampleSession.start_request eq_refl eq_refl eq_refl)
    as [H1 H2].
  split; [exact H1|].
  apply H2; [vm_compute; discriminate|reflexivity].
Defined.

Lemma import_installs_plaintext_witness :
  exists st',
    run_ioctlvs Sample.platform SampleSession.st0
      [SampleSession.start_request; SampleSession.data_request 0x3000;
       SampleSession.data_request 0x3020; SampleSession.finish_request] =
      Some ([GetDefaultReply (Value 0); GetDefaultReply (Code IPC_SUCCESS);
             GetDefaultReply (Code IPC_SUCCESS);
             GetDefaultReply (Code IPC_SUCCESS)], st')
    /\ State.trace st' =
         [WriteBytes (TitleContentPath Sample.title_id 7) (seqZ 0 50)]
    /\ State.m_addtitle_content_id st' = 0xFFFFFFFF.
Proof.
  exact (proj1
           (import_installs_plaintext Sample.platform
              Sample_encrypt_block_length Sample_decrypt_encrypt_block
              SampleSession.st0 SampleSession.start_request
              [SampleSession.data_request 0x3000;
               SampleSession.data_request 0x3020]
              SampleSession.finish_request Sample.content0
              SampleSession.plaintext 4
              eq_refl eq_refl
              ltac:(repeat constructor; by left) eq_refl eq_refl eq_refl
              eq_refl eq_refl eq_refl ltac:(cbn; unfold is_u16; lia) eq_refl
              ltac:(vm_compute; reflexivity))
           ltac:(vm_compute; discriminate)).
Defined.

(** ** The export session *)

Section ExportSession.
Variable P : Platform.
Implicit Types (st : State.t) (request : IOCtlVRequest.t).

(** X11.  [ExportTitleInit] opens the one export session.  For an installed
    title with a valid TMD and a ticket of the same title id, and an output
    vector of exactly the size of the raw TMD, it replies IPC_SUCCESS,
    records the TMD and the ticket's title key in a session that is now
    valid (the table of streams is kept as it was), and copies the raw TMD
    to the output vector, writing nowhere else; while the session is valid
    every further [ExportTitleInit], of any shape, is refused with the
    parameter error and changes nothing. *)
Theorem ExportTitleInit_opens_session st request :
  let title_id :=
    Read_U64 (State.memory st) (IOVector.address (ES.in_vector request 0)) in
  let L := ES.AccessContentDevice P st title_id in
  let tmd := CNANDContentLoader.GetTMD L in
  let ticket := FindSignedTicket P (TMDReader.GetTitleId tmd) in
  let raw_tmd := TMDReader.GetRawTMD tmd in
  let out := ES.io_vector request 0 in
  ES.HasNumberOfValidVectors P request 1 1 = true ->
  IOVector.size (ES.in_vector request 0) = 8 ->
  TitleExportContext.valid (State.m_export_title_context st) = false ->
  CNANDContentLoader.IsValid L = true ->
  TMDReader.IsValid tmd = true ->
  TicketReader.IsValid ticket = true ->
  TicketReader.GetTitleId ticket = TMDReader.GetTitleId tmd ->
  IOVector.size out = Z.of_nat (length raw_tmd) ->
  Forall (fun b => 0 <= b < 2 ^ 8) raw_tmd ->
  exists st',
    ES.ExportTitleInit P st request =
      Some (GetDefaultReply (Code IPC_SUCCESS), st')
    /\ State.m_export_title_context st' =
         TitleExportContext.mk true tmd (TicketReader.GetTitleKey ticket)
           (TitleExportContext.contents (State.m_export_title_context st))
    /\ CopyFromEmu (State.memory st') (IOVector.address out)
         (IOVector.size out) = raw_tmd
    /\ (forall x,
          ~ (IOVector.address out <= x
             < IOVector.address out + IOVector.size out) ->
          State.memory st' !! x = State.memory st !! x)
    /\ forall request',
         ES.ExportTitleInit P st' request' =
           Some (GetDefaultReply (Code ES_PARAMETER_SIZE_OR_ALIGNMENT), st').
Proof.
  intros title_id L tmd ticket raw_tmd out Hshape Hsize Hidle Hvalid Htmd
    Hticket Hid Hout Hbytes.
  unfold ES.ExportTitleInit, ES.reply. rewrite Hshape, Hsize, Hidle.
  cbn [negb orb Z.eqb Pos.eqb]. fold title_id L. rewrite Hvalid. cbn [negb].
  fold tmd. rewrite Htmd. cbn [negb]. fold ticket. rewrite Hticket, Hid.
  rewrite Z.eqb_refl. cbn [negb]. fold raw_tmd out. rewrite Hout, Z.eqb_refl.
  cbn [negb]. eexists. split; [reflexivity|].
  cbn [State.m_export_title_context State.set_export_title_context
       State.memory State.set_memory].
  split; [done|]. split.
  { rewrite CopyFromEmu_CopyToEmu. by apply to_u8_bytes. }
  split.
  { intros x Hx. apply CopyToEmu_outside. lia. }
  intros request'.
  destruct (negb (ES.HasNumberOfValidVectors P request' 1 1)
            || negb (IOVector.size (ES.in_vector request' 0) =? 8)); done.
Qed.

Lemma AlignUp_32 x :
  0 <= x ->
  AlignUp x 32 mod 32 = 0 /\ x <= AlignUp x 32 < x + 32.
Proof.
  intros Hx. unfold AlignUp.
  pose proof (Z.mod_pos_bound x 32 ltac:(lia)) as Hm.
  destruct (Z.eq_dec (x mod 32) 0) as [E|E].
  - rewrite E, Z.sub_0_r, Z.mod_same, Z.add_0_r by lia. lia.
  - rewrite (Z.mod_small (32 - x mod 32)) by lia.
    split; [|lia].
    rewrite (Z.div_mod x 32) at 1 by lia.
    replace (32 * (x / 32) + x mod 32 + (32 - x mod 32))
      with ((x / 32 + 1) * 32) by lia.
    apply Z.mod_mul. lia.
Qed.

Section Cipher.
Hypothesis enc_length : forall key b,
  length b = 16%nat -> length (aes_encrypt_block P key b) = 16%nat.

Lemma crypt_cbc_encrypts key iv buffer k :
  length iv = 16%nat -> length buffer = (16 * S k)%nat ->
  let r :=
    mbedtls_aes_crypt_cbc (aes_encrypt_block P) (aes_decrypt_block P) key
      MBEDTLS_AES_ENCRYPT (Z.of_nat (length buffer)) iv buffer
      (replicate (length buffer) 0) in
  let ciphertext :=
    (cbc_encrypt (aes_encrypt_block P) key (S k) iv buffer).2 in
  r = (0, last_block ciphertext, ciphertext)
  /\ length ciphertext = length buffer.
Proof.
  intros Hiv Hlen r ciphertext.
  assert (Hc : length ciphertext = (16 * S k)%nat)
    by by apply cbc_encrypt_length.
  split; [|by rewrite Hc, Hlen].
  unfold r, mbedtls_aes_crypt_cbc. rewrite Hlen.
  rewrite bool_decide_eq_true_2
    by (rewrite Nat2Z.inj_mul, Z.mul_comm; apply Z.mod_mul; lia).
  replace (Z.to_nat (Z.of_nat (16 * S k) / 16)) with (S k)
    by (rewrite Nat2Z.inj_mul, Z.mul_comm, Z.div_mul; lia).
  fold ciphertext.
  rewrite (cbc_encrypt_iv _ enc_length key k iv buffer) by done.
  fold ciphertext. rewrite Hc.
  rewrite drop_ge by (rewrite length_replicate; lia).
  by rewrite app_nil_r.
Qed.

Lemma ExportContentData_accepted st request it content :
  let content_id :=
    Read_U32 (State.memory st) (IOVector.address (ES.in_vector request 0)) in
  let n := IOVector.size (ES.io_vector request 0) in
  let ctx := State.m_export_title_context st in
  let metadata := ExportContent.content it in
  let position := OpenedContent.m_position metadata in
  let size := Content.size (OpenedContent.m_content metadata) in
  let L := ES.AccessContentDevice P st (OpenedContent.m_title_id metadata) in
  let len := Z.min (size - position) n in
  let data :=
    take (Z.to_nat len)
      (drop (Z.to_nat position) (SNANDContent.m_Data content)) in
  let buffer :=
    data ++ replicate (Z.to_nat (AlignUp len 32) - Z.to_nat len)%nat 0 in
  let ciphertext :=
    (cbc_encrypt (aes_encrypt_block P)
       (take 16 (TitleExportContext.title_key ctx))
       (Z.to_nat (AlignUp len 32 / 16)) (ExportContent.iv it) buffer).2 in
  ES.HasNumberOfValidVectors P request 1 1 = true ->
  IOVector.size (ES.in_vector request 0) = 4 ->
  0 < n ->
  TitleExportContext.valid ctx = true ->
  TitleExportContext.contents ctx !! content_id = Some it ->
  0 <= position < size -> size < 2 ^ 32 ->
  CNANDContentLoader.GetContentByID L
    (Content.id (OpenedContent.m_content metadata)) = Some content ->
  position + len <= Z.of_nat (length (SNANDContent.m_Data content)) ->
  length (ExportContent.iv it) = 16%nat ->
  ES.ExportContentData P st request =
    Some (GetDefaultReply (Code IPC_SUCCESS),
          State.set_export_title_context
            (State.set_memory
               (State.emit st
                  [DataOpen (OpenedContent.m_title_id metadata)
                     (Content.id (OpenedContent.m_content metadata))])
               (CopyToEmu (State.memory st)
                  (IOVector.address (ES.io_vector request 0)) ciphertext))
            (TitleExportContext.set_contents ctx
               (<[content_id :=
                    ExportContent.mk
                      (OpenedContent.set_position metadata (position + len))
                      (last_block ciphertext)]>
                  (TitleExportContext.contents ctx))))
  /\ Z.of_nat (length ciphertext) = AlignUp len 32
  /\ length buffer = length ciphertext.
Proof.
  intros content_id n ctx metadata position size L len data buffer ciphertext
    Hshape Hsize Hn Hvalid Hit Hpos Hsz Hcontent Hblob Hiv.
  assert (Hlen : 0 < len) by (unfold len; lia).
  destruct (AlignUp_32 len ltac:(lia)) as [Hmod Hbound].
  assert (Hdata : length data = Z.to_nat len).
  { unfold data. rewrite length_take, length_drop. lia. }
  assert (Hbuffer : length buffer = Z.to_nat (AlignUp len 32)).
  { unfold buffer. rewrite length_app, length_replicate, Hdata. lia. }
  assert (Hk : exists k, Z.to_nat (AlignUp len 32 / 16) = S k
                         /\ length buffer = (16 * S k)%nat).
  { exists (Z.to_nat (AlignUp len 32 / 16) - 1)%nat.
    assert (AlignUp len 32 = 16 * (AlignUp len 32 / 16)).
    { apply Z.div_exact; [lia|].
      rewrite (Z.div_mod (AlignUp len 32) 32), Hmod, Z.add_0_r by lia.
      replace (32 * (AlignUp len 32 / 32))
        with (2 * (AlignUp len 32 / 32) * 16) by lia.
      apply Z.mod_mul. lia. }
    rewrite Hbuffer. lia. }
  destruct Hk as (k & Hk & Hbk).
  unfold ES.ExportContentData, ES.reply. rewrite Hshape, Hsize.
  cbn [negb orb Z.eqb Pos.eqb].
  fold n. rewrite (proj2 (Z.eqb_neq n 0)) by lia.
  fold content_id ctx. rewrite Hit. fold metadata position size.
  rewrite Hvalid. cbn [negb orb].
  rewrite Z.geb_leb, (proj2 (Z.leb_gt size position)) by lia.
  fold L. rewrite Hcontent. cbn [mbind option_bind].
  rewrite (to_u32_small (size - position)) by lia. fold len.
  unfold SNANDContent.GetRange. rewrite bool_decide_eq_true_2 by lia.
  fold data. rewrite Hdata, Z2Nat.id by lia. fold buffer.
  destruct (crypt_cbc_encrypts (take 16 (TitleExportContext.title_key ctx))
              (ExportContent.iv it) buffer k Hiv Hbk) as [Hr Hcl].
  cbv zeta in Hr. rewrite <- Hk in Hr, Hcl. fold ciphertext in Hr, Hcl.
  rewrite Hr. cbn [fst snd Z.eqb negb].
  rewrite (to_u32_small (position + len)) by lia.
  split; [reflexivity|]. split; [|done]. rewrite Hcl, Hbuffer. lia.
Qed.

(** X12.  [ExportContentData] streams a content.  For an open stream that
    is not at its end, with the session valid and the blob holding the
    bytes, a request of [n > 0] bytes replies IPC_SUCCESS, takes
    [len = min (size - position) n] bytes from the position, zero-pads
    them to the next multiple of 32 and writes their AES-CBC encryption
    under the session's title key and the stream's IV to the output
    address.  The position moves forward by [len], never past the size, and
    the stream's IV becomes the last ciphertext block, so the next chunk
    continues the chain. *)
Theorem ExportContentData_streams st request it content :
  let content_id :=
    Read_U32 (State.memory st) (IOVector.address (ES.in_vector request 0)) in
  let n := IOVector.size (ES.io_vector request 0) in
  let ctx := State.m_export_title_context st in
  let metadata := ExportContent.content it in
  let position := OpenedContent.m_position metadata in
  let size := Content.size (OpenedContent.m_content metadata) in
  let L := ES.AccessContentDevice P st (OpenedContent.m_title_id metadata) in
  let len := Z.min (size - position) n in
  let buffer :=
    take (Z.to_nat len)
      (drop (Z.to_nat position) (SNANDContent.m_Data content)) ++
    replicate (Z.to_nat (AlignUp len 32) - Z.to_nat len)%nat 0 in
  let ciphertext :=
    (cbc_encrypt (aes_encrypt_block P)
       (take 16 (TitleExportContext.title_key ctx))
       (Z.to_nat (AlignUp len 32 / 16)) (ExportContent.iv it) buffer).2 in
  ES.HasNumberOfValidVectors P request 1 1 = true ->
  IOVector.size (ES.in_vector request 0) = 4 ->
  0 < n ->
  TitleExportContext.valid ctx = true ->
  TitleExportContext.contents ctx !! content_id = Some it ->
  0 <= position < size -> size < 2 ^ 32 ->
  CNANDContentLoader.GetContentByID L
    (Content.id (OpenedContent.m_content metadata)) = Some content ->
  position + len <= Z.of_nat (length (SNANDContent.m_Data content)) ->
  length (ExportContent.iv it) = 16%nat ->
  exists st',
    ES.ExportContentData P st request =
      Some (GetDefaultReply (Code IPC_SUCCESS), st')
    /\ State.memory st' =
         CopyToEmu (State.memory st)
           (IOVector.address (ES.io_vector request 0)) ciphertext
    /\ Z.of_nat (length ciphertext) = AlignUp len 32
    /\ AlignUp len 32 mod 32 = 0
    /\ TitleExportContext.contents (State.m_export_title_context st')
         !! content_id =
         Some (ExportContent.mk
                 (OpenedContent.set_position metadata (position + len))
                 (last_block ciphertext))
    /\ position < position + len <= size.
Proof.
  intros content_id n ctx metadata position size L len buffer ciphertext
    Hshape Hsize Hn Hvalid Hit Hpos Hsz Hcontent Hblob Hiv.
  destruct (ExportContentData_accepted st request it content Hshape Hsize Hn
              Hvalid Hit Hpos Hsz Hcontent Hblob Hiv) as (E & Hlen & _).
  eexists. split; [exact E|].
  cbn [State.memory State.set_memory State.set_export_title_context
       State.m_export_title_context TitleExportContext.contents
       TitleExportContext.set_contents].
  split; [done|]. split; [exact Hlen|].
  split; [apply AlignUp_32; unfold len; lia|].
  split; [by rewrite lookup_insert_eq|]. unfold len. lia.
Qed.

Hypothesis dec_enc : forall key b,
  length b = 16%nat ->
  aes_decrypt_block P key (aes_encrypt_block P key b) = b.

(** X13.  What is exported can be imported.  When a whole content is
    exported in one chunk (a fresh stream, [n] at least the size, the blob
    holding exactly the declared size), the bytes [ExportContentData]
    writes are such that an [AddContentFinish] over them, in any import
    whose TMD lists a content of the same index and size and whose ticket
    has the same title key, writes exactly the blob to the content's
    path. *)
Theorem exported_content_imports_back st request it content :
  let content_id :=
    Read_U32 (State.memory st) (IOVector.address (ES.in_vector request 0)) in
  let n := IOVector.size (ES.io_vector request 0) in
  let ctx := State.m_export_title_context st in
  let metadata := ExportContent.content it in
  let size := Content.size (OpenedContent.m_content metadata) in
  let index := Content.index (OpenedContent.m_content metadata) in
  let L := ES.AccessContentDevice P st (OpenedContent.m_title_id metadata) in
  let blob := SNANDContent.m_Data content in
  ES.HasNumberOfValidVectors P request 1 1 = true ->
  IOVector.size (ES.in_vector request 0) = 4 ->
  TitleExportContext.valid ctx = true ->
  TitleExportContext.contents ctx !! content_id = Some it ->
  OpenedContent.m_position metadata = 0 ->
  ExportContent.iv it = content_iv index ->
  0 < size <= n -> size < 2 ^ 32 ->
  CNANDContentLoader.GetContentByID L
    (Content.id (OpenedContent.m_content metadata)) = Some content ->
  Z.of_nat (length blob) = size ->
  exists st' ciphertext,
    ES.ExportContentData P st request =
      Some (GetDefaultReply (Code IPC_SUCCESS), st')
    /\ State.memory st' =
         CopyToEmu (State.memory st)
           (IOVector.address (ES.io_vector request 0)) ciphertext
    /\ forall sti finish content_info,
         let tmd := State.m_addtitle_tmd sti in
         let ticket := FindSignedTicket P (TMDReader.GetTitleId tmd) in
         ES.HasNumberOfValidVectors P finish 1 0 = true ->
         TMDReader.IsValid tmd = true ->
         TicketReader.IsValid ticket = true ->
         TMDReader.FindContentById tmd (State.m_addtitle_content_id sti) =
           Some content_info ->
         Content.index content_info = index ->
         Content.size content_info = size ->
         is_u16 index ->
         take 16 (TicketReader.GetTitleKey ticket) =
           take 16 (TitleExportContext.title_key ctx) ->
         State.m_addtitle_content_buffer sti = ciphertext ->
         exists sti',
           ES.AddContentFinish P sti finish =
             Some (GetDefaultReply (Code IPC_SUCCESS), sti')
           /\ State.trace sti' =
                State.trace sti ++
                [WriteBytes (content_path tmd content_info) blob].
Proof.
  intros content_id n ctx metadata size index L blob Hshape Hsize Hvalid Hit
    Hpos Hiv Hn Hsz Hcontent Hblob.
  destruct (ExportContentData_accepted st request it content Hshape Hsize
              ltac:(fold n; lia) Hvalid Hit
              ltac:(fold metadata size; rewrite Hpos; lia) Hsz Hcontent
              ltac:(fold metadata size blob n; rewrite Hpos; lia)
              ltac:(rewrite Hiv; apply content_iv_length))
    as (E & Hlen & Hbuf).
  cbv zeta in E, Hlen, Hbuf.
  fold content_id n ctx metadata size L blob in E, Hlen, Hbuf.
  rewrite Hpos, Z.sub_0_r in E, Hlen, Hbuf.
  replace (size `min` n) with size in E, Hlen, Hbuf by lia.
  rewrite drop_0, (take_ge blob) in E, Hlen, Hbuf by lia.
  rewrite Hiv in E, Hlen, Hbuf.
  set (buffer := blob ++ _) in *.
  set (k := Z.to_nat (AlignUp size 32 / 16)) in *.
  set (ciphertext := (cbc_encrypt _ _ k _ buffer).2) in *.
  eexists. exists ciphertext. split; [exact E|]. split; [done|].
  intros sti finish content_info tmd ticket Hshape' Htmd Hticket Hfind Hindex
    Hsize' Hu16 Hkey Hbuffer.
  rewrite (AddContentFinish_accepted P sti finish content_info);
    [|done|done|done|done|by rewrite Hindex|].
  2:{ rewrite Hsize', Hbuffer, Hlen. apply AlignUp_32. lia. }
  eexists. split; [reflexivity|].
  cbn [State.trace State.emit State.set_addtitle_content_id].
  do 3 f_equal. fold tmd ticket. rewrite Hkey, Hbuffer, Hindex, Hsize'.
  assert (Hk : length buffer = (16 * k)%nat).
  { destruct (AlignUp_32 size ltac:(lia)) as [Hmod _].
    assert (AlignUp size 32 = 16 * (AlignUp size 32 / 16)).
    { apply Z.div_exact; [lia|].
      rewrite (Z.div_mod (AlignUp size 32) 32), Hmod, Z.add_0_r by lia.
      replace (32 * (AlignUp size 32 / 32))
        with (2 * (AlignUp size 32 / 32) * 16) by lia.
      apply Z.mod_mul. lia. }
    rewrite Hbuf. unfold k. lia. }
  unfold ciphertext.
  rewrite (crypt_cbc_decrypts P enc_length dec_enc) ;
    [|apply content_iv_length|exact Hk].
  unfold buffer. rewrite take_app_length' by lia. done.
Qed.
End Cipher.
End ExportSession.

Lemma ExportTitleInit_opens_session_witness :
  let st := State.set_memory State.init SampleExport.mem in
  let request :=
    IOCtlVRequest.mk 0x1000 IOCTL_ES_EXPORTTITLEINIT
      [IOVector.mk 0x100 8] [IOVector.mk 0x2000 4] in
  exists st',
    ES.ExportTitleInit Sample.platform st request =
      Some (GetDefaultReply (Code IPC_SUCCESS), st')
    /\ State.m_export_title_context st' =
         TitleExportContext.mk true Sample.tmd (replicate 16 0x11) ∅
    /\ CopyFromEmu (State.memory st') 0x2000 4 = [1; 2; 3; 4]
    /\ ES.ExportTitleInit Sample.platform st' request =
         Some (GetDefaultReply (Code ES_PARAMETER_SIZE_OR_ALIGNMENT), st').
Proof.
  intros st request.
  destruct (ExportTitleInit_opens_session Sample.platform st request
              eq_refl eq_refl eq_refl eq_refl eq_refl eq_refl eq_refl eq_refl
              ltac:(repeat constructor; lia))
    as (st' & E & Hctx & Hcopy & _ & Hagain).
  exists st'. split; [exact E|]. split; [exact Hctx|].
  split; [exact Hcopy|apply Hagain].
Defined.

Lemma ExportContentData_streams_witness :
  let contents : gmap Z ExportContent.t := {[0 := SampleExport.stream 0]} in
  exists st',
    ES.ExportContentData Sample.platform (SampleExport.state contents)
      (SampleExport.data_request 32) =
      Some (GetDefaultReply (Code IPC_SUCCESS), st')
    /\ (fun e => OpenedContent.m_position (ExportContent.content e)) <$>
         TitleExportContext.contents (State.m_export_title_context st') !! 0
         = Some 32.
Proof.
  intros contents.
  destruct (ExportContentData_streams Sample.platform
              Sample_encrypt_block_length (SampleExport.state contents)
              (SampleExport.data_request 32) (SampleExport.stream 0)
              (SNANDContent.mk Sample.content0 (seqZ 0 50))
              eq_refl eq_refl ltac:(cbn; lia) eq_refl
              ltac:(vm_compute; reflexivity)
              ltac:(cbn; lia) ltac:(cbn; lia) eq_refl
              ltac:(apply Z.leb_le; reflexivity) eq_refl)
    as (st' & E & _ & _ & _ & Hstream & _).
  exists st'. split; [exact E|].
  change (TitleExportContext.contents (State.m_export_title_context st') !! 0
          = Some (ExportContent.mk
                    (OpenedContent.mk Sample.title_id Sample.content0 32)
                    (last_block
                       (cbc_encrypt Sample.encrypt_block (replicate 16 0x11)
                          2 (content_iv 0x0102)
                          (seqZ 0 32 ++ replicate 0 0)).2))) in Hstream.
  by rewrite Hstream.
Defined.

Lemma exported_content_imports_back_witness :
  let contents : gmap Z ExportContent.t := {[0 := SampleExport.stream 0]} in
  exists st' ciphertext sti',
    ES.ExportContentData Sample.platform (SampleExport.state contents)
      (SampleExport.data_request 64) =
      Some (GetDefaultReply (Code IPC_SUCCESS), st')
    /\ ES.AddContentFinish Sample.platform
         (State.set_addtitle_content_buffer SampleImport.finish_state
            ciphertext)
         SampleImport.finish_request =
         Some (GetDefaultReply (Code IPC_SUCCESS), sti')
    /\ State.trace sti' =
         [WriteBytes (TitleContentPath Sample.title_id 7) (seqZ 0 50)].
Proof.
  intros contents.
  destruct (exported_content_imports_back Sample.platform
              Sample_encrypt_block_length Sample_decrypt_encrypt_block
              (SampleExport.state contents)
              (SampleExport.data_request 64) (SampleExport.stream 0)
              (SNANDContent.mk Sample.content0 (seqZ 0 50))
              eq_refl eq_refl eq_refl ltac:(vm_compute; reflexivity)
              eq_refl eq_refl
              ltac:(cbn; lia) ltac:(cbn; lia) eq_refl eq_refl)
    as (st' & ciphertext & E & _ & Himport).
  destruct (Himport
              (State.set_addtitle_content_buffer SampleImport.finish_state
                 ciphertext)
              SampleImport.finish_request Sample.content0
              eq_refl eq_refl eq_refl eq_refl eq_refl eq_refl
              ltac:(cbn; unfold is_u16; lia) eq_refl eq_refl)
    as (sti' & E' & Htrace).
  exists st', ciphertext, sti'. split; [exact E|]. split; [exact E'|].
  exact Htrace.
Defined.

(** ** Failed, deferred and unbounded launches *)

Section LaunchProps.
Variable P : Platform.
Implicit Types (st : State.t).

Lemma emit_nil st : State.emit st [] = st.
Proof. destruct st. unfold State.emit. cbn. by rewrite app_nil_r. Qed.

Lemma LaunchTitle_ordinary fuel title_id skip_reload st :
  is_ios_title P title_id = false ->
  ES.LaunchTitle P (S fuel) title_id skip_reload st =
    ES.LaunchPPCTitle_body P (ES.LaunchTitle P fuel) title_id skip_reload
      (launch_cleared st).
Proof.
  intros Hios.
  assert (Hstep :
    ES.LaunchTitle P (S fuel) title_id skip_reload st =
      if is_ios_title P title_id
      then Some (ES.LaunchIOS P title_id (launch_cleared st))
      else ES.LaunchPPCTitle_body P (ES.LaunchTitle P fuel) title_id
             skip_reload (launch_cleared st)) by reflexivity.
  by rewrite Hstep, Hios.
Qed.

(** X14.  A launch that fails has already dropped the running title.  For
    a title that is not an IOS, when the title is not installed, or its
    TMD or ticket is not valid, [LaunchTitle] returns false with the title
    context cleared and the content cache flushed; nothing is recorded as
    pending, nothing is reloaded or bootstrapped, and the panic alert is
    raised exactly when the title is missing altogether. *)
Theorem LaunchTitle_failure_clears_context fuel title_id skip_reload st :
  let L := GetNANDLoader_title P title_id in
  is_ios_title P title_id = false ->
  CNANDContentLoader.IsValid L &&
    TMDReader.IsValid (CNANDContentLoader.GetTMD L) &&
    TicketReader.IsValid (CNANDContentLoader.GetTicket L) = false ->
  ES.LaunchTitle P (S fuel) title_id skip_reload st =
    Some (false,
          State.emit (launch_cleared st)
            (if CNANDContentLoader.IsValid L then [] else [PanicAlert]))
  /\ TitleContext.active (State.s_title_context (launch_cleared st)) = false
  /\ State.s_title_to_launch (launch_cleared st) = State.s_title_to_launch st
  /\ State.trace (launch_cleared st) = State.trace st ++ [ClearCache].
Proof.
  intros L Hios Hbad. split; [|done].
  rewrite LaunchTitle_ordinary by done.
  unfold ES.LaunchPPCTitle_body. rewrite AccessContentDevice_cleared.
  fold L. destruct (CNANDContentLoader.IsValid L); cbn [negb andb] in *.
  - rewrite emit_nil.
    apply andb_false_iff in Hbad as [-> | ->]; cbn [negb orb]; [done|].
    by rewrite orb_true_r.
  - done.
Qed.

(** X15.  [ES::Init] finishes a launch that was deferred.  With an
    installed ordinary title pending, [Init] resets the content file and
    the title context, makes the pending title the running one (the
    running-game notification fires, the context being new), bootstraps
    it from its NAND loader and leaves nothing pending; with nothing
    pending it only resets the content file and the title context. *)
Theorem Init_relaunches_pending_title fuel st :
  let title_id := State.s_title_to_launch st in
  let L := GetNANDLoader_title P title_id in
  let tmd := CNANDContentLoader.GetTMD L in
  let ticket := CNANDContentLoader.GetTicket L in
  let reset :=
    State.mk "" TitleContext.init title_id (State.m_ContentAccessMap st)
      (State.m_AccessIdentID st) (State.m_addtitle_tmd st)
      (State.m_addtitle_content_id st) (State.m_addtitle_content_buffer st)
      (State.m_export_title_context st) (State.m_is_active st)
      (State.memory st) (State.trace st) in
  (title_id = 0 -> ES.Init P fuel st = Some reset)
  /\ (title_id <> 0 ->
      is_ios_title P title_id = false ->
      CNANDContentLoader.IsValid L = true ->
      TMDReader.IsValid tmd = true ->
      TicketReader.IsValid ticket = true ->
      let running :=
        State.emit
          (State.set_title_context reset
             (TitleContext.mk ticket tmd true false))
          [ClearCache; UpdateRunningGame (TMDReader.GetTitleId tmd)] in
      ES.Init P (S fuel) st =
        Some (State.set_title_to_launch (BootstrapPPC P L running).2 0)).
Proof.
  intros title_id L tmd ticket reset. split.
  - intros H0. unfold ES.Init. cbn [State.s_title_to_launch].
    fold title_id. rewrite H0. cbn. unfold reset. by rewrite H0.
  - intros Hne Hios Hvalid Htmd Hticket running.
    unfold ES.Init. cbn [State.s_title_to_launch]. fold title_id.
    rewrite (proj2 (Z.eqb_neq title_id 0)) by done. cbn [negb].
    fold reset. rewrite LaunchTitle_ordinary by done.
    unfold ES.LaunchPPCTitle_body. rewrite AccessContentDevice_cleared.
    fold L. rewrite Hvalid. cbn [negb]. fold tmd ticket.
    rewrite Htmd, Hticket. cbn [negb orb].
    unfold TitleContext.Update_loader. rewrite Hvalid. cbn [negb].
    fold tmd ticket. unfold TitleContext.Update. rewrite Htmd, Hticket.
    cbn [negb orb]. cbn [mbind option_bind]. do 3 f_equal.
    unfold running, launch_cleared, State.emit, State.set_title_context.
    cbn. by rewrite <- app_assoc.
Qed.

(** X16.  [LaunchTitle] and [LaunchPPCTitle] call each other without a
    bound.  For an installed ordinary title whose TMD names the title
    itself as the IOS it requires, a launch with the reload not skipped
    never returns: whatever the depth allowed, the recursion is still
    going. *)
Theorem LaunchTitle_of_self_requiring_title_diverges title_id fuel :
  let L := GetNANDLoader_title P title_id in
  is_ios_title P title_id = false ->
  CNANDContentLoader.IsValid L = true ->
  TMDReader.IsValid (CNANDContentLoader.GetTMD L) = true ->
  TicketReader.IsValid (CNANDContentLoader.GetTicket L) = true ->
  TMDReader.GetIOSId (CNANDContentLoader.GetTMD L) = title_id ->
  forall st, ES.LaunchTitle P fuel title_id false st = None.
Proof.
  intros L Hios Hvalid Htmd Hticket Hself.
  induction fuel as [|fuel IH]; intros st; [done|].
  rewrite LaunchTitle_ordinary by done.
  unfold ES.LaunchPPCTitle_body. rewrite AccessContentDevice_cleared.
  fold L. rewrite Hvalid, Htmd, Hticket, Hself. cbn [negb orb]. apply IH.
Qed.
End LaunchProps.

Lemma LaunchTitle_failure_clears_context_witness :
  ES.LaunchTitle Sample.platform 1 0x0001000100000099 false
    (State.set_title_context State.init
       (TitleContext.mk Sample.ticket Sample.tmd true false)) =
    Some (false,
          State.emit
            (State.set_title_context State.init
               (TitleContext.mk TicketReader.empty TMDReader.empty false
                  false))
            [ClearCache; PanicAlert]).
Proof.
  destruct (LaunchTitle_failure_clears_context Sample.platform 0
              0x0001000100000099 false
              (State.set_title_context State.init
                 (TitleContext.mk Sample.ticket Sample.tmd true false))
              eq_refl eq_refl) as [E _].
  rewrite E. reflexivity.
Defined.

Lemma Init_relaunches_pending_title_witness :
  (fun st => (State.s_title_to_launch st,
              TitleContext.active (State.s_title_context st),
              TMDReader.GetTitleId (TitleContext.tmd (State.s_title_context st)),
              State.trace st)) <$>
    ES.Init Sample.platform 1
      (State.set_title_to_launch State.init Sample.title_id) =
    Some (0, true, Sample.title_id,
          [ClearCache; UpdateRunningGame Sample.title_id;
           PPCBootstrap Sample.title_id]).
Proof.
  destruct (Init_relaunches_pending_title Sample.platform 0
              (State.set_title_to_launch State.init Sample.title_id))
    as [_ H].
  rewrite (H ltac:(discriminate) eq_refl eq_refl eq_refl eq_refl).
  reflexivity.
Defined.

Lemma LaunchTitle_of_self_requiring_title_diverges_witness :
  let tmd :=
    TMDReader.mk [1] true Sample.title_id Sample.title_id 0 [] in
  let P :=
    Build_Platform Sample.encrypt_block Sample.decrypt_block
      (fun _ => true) (fun _ => true)
      (fun _ => CNANDContentLoader.invalid)
      (fun _ => CNANDContentLoader.mk true tmd Sample.ticket [])
      (fun _ => Sample.ticket) 0x0000000100000002
      (fun ios st => (true, st)) (fun l st => (true, st)) in
  ES.LaunchTitle P 1000 Sample.title_id false State.init = None.
Proof.
  intros tmd P.
  exact (LaunchTitle_of_self_requiring_title_diverges P Sample.title_id 1000
           eq_refl eq_refl eq_refl eq_refl eq_refl State.init).
Defined.

(** ** Words in guest memory *)

Section WordProps.
Implicit Types (m : Memory) (a x v : Z).

Lemma Write_U32_lookup_outside m v a x :
  ~ (a <= x < a + 4) -> Write_U32 m v a !! x = m !! x.
Proof. intros H. unfold Write_U32. apply CopyToEmu_outside. cbn. lia. Qed.

Lemma Read_U8_Write_U32_outside m v a x :
  ~ (a <= x < a + 4) -> Read_U8 (Write_U32 m v a) x = Read_U8 m x.
Proof. intros H. unfold Read_U8. by rewrite Write_U32_lookup_outside. Qed.

Lemma to_u8_idemp z : to_u8 (to_u8 z) = to_u8 z.
Proof. unfold to_u8. apply Z.mod_mod. lia. Qed.

Lemma u32_bytes v :
  to_u8 (Z.shiftr v 24) * 2 ^ 24 + to_u8 (Z.shiftr v 16) * 2 ^ 16 +
  to_u8 (Z.shiftr v 8) * 2 ^ 8 + to_u8 v = to_u32 v.
Proof.
  unfold to_u8, to_u32. rewrite !Z.shiftr_div_pow2 by lia.
  change (2 ^ 32) with (2 ^ 8 * (2 ^ 8 * (2 ^ 8 * 2 ^ 8))).
  rewrite !Z.rem_mul_r by lia.
  replace (v / 2 ^ 16) with (v / 2 ^ 8 / 2 ^ 8)
    by (rewrite Z.div_div by lia; reflexivity).
  replace (v / 2 ^ 24) with (v / 2 ^ 8 / 2 ^ 8 / 2 ^ 8)
    by (rewrite !Z.div_div by lia; reflexivity).
  lia.
Qed.

Lemma Read_U32_Write_U32 m v a : Read_U32 (Write_U32 m v a) a = to_u32 v.
Proof.
  unfold Read_U32, Write_U32.
  rewrite <- (Z.add_0_r a) at 2.
  rewrite (Read_U8_CopyToEmu_inside _ m a 0 (to_u8 (Z.shiftr v 24))) by done.
  rewrite (Read_U8_CopyToEmu_inside _ m a 1 (to_u8 (Z.shiftr v 16))) by done.
  rewrite (Read_U8_CopyToEmu_inside _ m a 2 (to_u8 (Z.shiftr v 8))) by done.
  rewrite (Read_U8_CopyToEmu_inside _ m a 3 (to_u8 v)) by done.
  rewrite !to_u8_idemp. apply u32_bytes.
Qed.

Lemma Read_U32_Write_U32_disjoint m v a b :
  b + 4 <= a \/ a + 4 <= b ->
  Read_U32 (Write_U32 m v a) b = Read_U32 m b.
Proof.
  intros H. unfold Read_U32.
  rewrite !Read_U8_Write_U32_outside by lia. done.
Qed.

Lemma Write_U64_lookup_outside m v a x :
  ~ (a <= x < a + 8) -> Write_U64 m v a !! x = m !! x.
Proof.
  intros H. unfold Write_U64.
  rewrite !Write_U32_lookup_outside by lia. done.
Qed.

Lemma u64_words v :
  to_u32 (Z.shiftr v 32) * 2 ^ 32 + to_u32 v = to_u64 v.
Proof.
  unfold to_u32, to_u64. rewrite Z.shiftr_div_pow2 by lia.
  change (2 ^ 64) with (2 ^ 32 * 2 ^ 32).
  rewrite Z.rem_mul_r by lia. lia.
Qed.

Lemma Read_U64_Write_U64 m v a : Read_U64 (Write_U64 m v a) a = to_u64 v.
Proof.
  unfold Read_U64, Write_U64.
  rewrite Read_U32_Write_U32_disjoint by lia.
  rewrite !Read_U32_Write_U32. apply u64_words.
Qed.

Lemma Read_U64_Write_U64_disjoint m v a b :
  b + 8 <= a \/ a + 8 <= b ->
  Read_U64 (Write_U64 m v a) b = Read_U64 m b.
Proof.
  intros H. unfold Read_U64, Write_U64.
  rewrite !Read_U32_Write_U32_disjoint by lia. done.
Qed.
End WordProps.

(** ** The running title *)

Section RunningTitle.
Variable P : Platform.
Implicit Types (st : State.t) (request : IOCtlVRequest.t).

(** X17.  [LoadWAD] redirects content access to the file.  It records the
    file name before it looks at the file.  For a file whose loader, TMD
    and ticket are valid, the title of the WAD becomes the running title
    and [AccessContentDevice] resolves that title, and no other, to the
    loader of the file.  For a file whose loader is not valid, the title
    context stays as it was, and a title that was running is from then on
    resolved to the loader of the bad file. *)
Theorem LoadWAD_redirects_access st file :
  let L := GetNANDLoader_file P file in
  let tmd := CNANDContentLoader.GetTMD L in
  let st' := ES.LoadWAD P st file in
  file <> "" ->
  State.s_content_file st' = file
  /\ (CNANDContentLoader.IsValid L = true ->
      TMDReader.IsValid tmd = true ->
      TicketReader.IsValid (CNANDContentLoader.GetTicket L) = true ->
      TitleContext.active (State.s_title_context st') = true
      /\ TitleContext.tmd (State.s_title_context st') = tmd
      /\ forall title_id,
           ES.AccessContentDevice P st' title_id =
             if title_id =? TMDReader.GetTitleId tmd then L
             else GetNANDLoader_title P title_id)
  /\ (CNANDContentLoader.IsValid L = false ->
      State.s_title_context st' = State.s_title_context st
      /\ (TitleContext.active (State.s_title_context st) = true ->
          ES.AccessContentDevice P st'
            (TMDReader.GetTitleId
               (TitleContext.tmd (State.s_title_context st))) = L)).
Proof.
  intros L tmd st' Hfile. split; [done|]. split.
  - intros Hvalid Htmd Hticket.
    unfold st', ES.LoadWAD, TitleContext.Update_loader.
    cbn [State.s_content_file State.set_content_file State.s_title_context].
    fold L. rewrite Hvalid. cbn [negb]. fold tmd.
    rewrite Update_valid by (by rewrite Htmd, Hticket).
    cbn [fst snd State.s_title_context State.emit State.set_title_context
         State.set_content_file TitleContext.active TitleContext.tmd].
    split; [done|]. split; [done|].
    intros title_id. unfold ES.AccessContentDevice.
    cbn [TitleContext.active TitleContext.tmd andb State.s_content_file
         State.s_title_context State.emit State.set_title_context
         State.set_content_file].
    rewrite (bool_decide_eq_false_2 (file = "")) by done. cbn [negb].
    rewrite Z.eqb_sym, andb_true_r.
    destruct (title_id =? TMDReader.GetTitleId tmd); reflexivity.
  - intros Hinvalid.
    assert (Hst : st' = State.emit (State.set_content_file st file) []).
    { unfold st', ES.LoadWAD, TitleContext.Update_loader.
      cbn [State.s_content_file State.set_content_file
           State.s_title_context].
      fold L. rewrite Hinvalid. cbn [negb fst snd]. by destruct st. }
    rewrite Hst. split; [done|]. intros Hactive.
    unfold ES.AccessContentDevice.
    cbn [State.s_title_context State.emit State.set_content_file
         State.s_content_file].
    rewrite Hactive, Z.eqb_refl.
    rewrite (bool_decide_eq_false_2 (file = "")) by done. done.
Qed.

(** X18.  [DIVerify] drops the running title before it checks anything.
    It succeeds exactly when the TMD and the ticket are valid and name the
    same title.  When it fails, the title context has been cleared all the
    same and the NAND has not been touched.  When it succeeds, the title of
    the TMD is the running title, the content cache has been flushed, the
    title has been added to the title index, and the TMD file has been
    written exactly when none existed. *)
Theorem DIVerify_outcome tmd_exists tmd ticket st :
  let r := ES.DIVerify tmd_exists tmd ticket st in
  let ok :=
    TMDReader.IsValid tmd && TicketReader.IsValid ticket &&
    (TMDReader.GetTitleId tmd =? TicketReader.GetTitleId ticket) in
  let title_id := TMDReader.GetTitleId tmd in
  r.1.1 = (if ok then IPC_SUCCESS else ES_PARAMETER_SIZE_OR_ALIGNMENT)
  /\ (ok = false ->
      r.1.2 =
        State.set_title_context st
          (TitleContext.Clear (State.s_title_context st))
      /\ r.2 = [])
  /\ (ok = true ->
      State.s_title_context r.1.2 = TitleContext.mk ticket tmd true false
      /\ State.trace r.1.2 =
           State.trace st ++
           ClearCache ::
           (if TitleContext.first_change (State.s_title_context st)
            then [UpdateRunningGame title_id] else [])
      /\ r.2 =
           [CreateFullPath (TMDFileName title_id);
            CreateFullPath (TitleDataPath title_id)] ++
           (if tmd_exists then []
            else [File_WriteBytes (TMDFileName title_id)
                    (TMDReader.GetRawTMD tmd)]) ++
           [UIDSys_AddTitle title_id]).
Proof.
  intros r ok title_id. unfold r, ok, ES.DIVerify.
  destruct (TMDReader.IsValid tmd) eqn:Htmd;
    destruct (TicketReader.IsValid ticket) eqn:Hticket;
    cbn [negb orb andb fst snd]; try (split; [done|]; split; done).
  destruct (TMDReader.GetTitleId tmd =? TicketReader.GetTitleId ticket);
    cbn [negb fst snd]; [|split; [done|]; split; done].
  split; [done|]. split; [done|]. intros _.
  unfold TitleContext.Update. rewrite Htmd, Hticket. cbn [negb orb].
  cbn [State.s_title_context State.emit State.set_title_context
       TitleContext.Clear TitleContext.first_change].
  fold title_id.
  destruct (TitleContext.first_change (State.s_title_context st)) eqn:E;
    cbn; rewrite <- ?app_assoc; repeat split; try done;
    by destruct tmd_exists.
Qed.

(** X19.  [GetTitleID] reports the running title.  With no title running
    it replies the parameter error and changes nothing; with a title
    running it replies IPC_SUCCESS and the eight bytes at the output
    address are the title id of the context's TMD, most significant byte
    first, nothing else in guest memory being written. *)
Theorem GetTitleID_reports_running_title st request :
  let ctx := State.s_title_context st in
  let out := IOVector.address (ES.io_vector request 0) in
  ES.HasNumberOfValidVectors P request 0 1 = true ->
  (TitleContext.active ctx = false ->
   ES.GetTitleID P st request =
     Some (GetDefaultReply (Code ES_PARAMETER_SIZE_OR_ALIGNMENT), st))
  /\ (TitleContext.active ctx = true ->
      exists st',
        ES.GetTitleID P st request =
          Some (GetDefaultReply (Code IPC_SUCCESS), st')
        /\ Read_U64 (State.memory st') out =
             to_u64 (TMDReader.GetTitleId (TitleContext.tmd ctx))
        /\ (forall x, ~ (out <= x < out + 8) ->
              State.memory st' !! x = State.memory st !! x)
        /\ st' = State.set_memory st (State.memory st')).
Proof.
  intros ctx out Hshape. unfold ES.GetTitleID, ES.reply.
  rewrite Hshape. cbn [negb]. fold ctx out. split; intros ->; cbn [negb].
  - done.
  - eexists. split; [reflexivity|].
    cbn [State.memory State.set_memory].
    split; [apply Read_U64_Write_U64|]. split; [|done].
    intros x Hx. by apply Write_U64_lookup_outside.
Qed.
End RunningTitle.

Lemma LoadWAD_redirects_access_witness :
  let P :=
    Build_Platform Sample.encrypt_block Sample.decrypt_block
      (fun _ => true) (fun _ => true)
      (fun file => if String.eqb file "title.wad" then Sample.loader
                   else CNANDContentLoader.invalid)
      (fun _ => CNANDContentLoader.invalid)
      (fun _ => Sample.ticket) 0x0000000100000002
      (fun ios st => (true, st)) (fun l st => (true, st)) in
  let st' := ES.LoadWAD P State.init "title.wad" in
  TitleContext.active (State.s_title_context st') = true
  /\ ES.AccessContentDevice P st' Sample.title_id = Sample.loader
  /\ ES.AccessContentDevice P st' Sample.ios_id = CNANDContentLoader.invalid.
Proof.
  intros P st'.
  destruct (LoadWAD_redirects_access P State.init "title.wad"
              ltac:(discriminate)) as (_ & H & _).
  destruct (H eq_refl eq_refl eq_refl) as (Hactive & _ & Haccess).
  split; [exact Hactive|].
  split; [exact (Haccess Sample.title_id)|exact (Haccess Sample.ios_id)].
Defined.

Lemma GetTitleID_reports_running_title_witness :
  let st :=
    State.set_title_context State.init
      (TitleContext.mk Sample.ticket Sample.tmd true false) in
  let request :=
    IOCtlVRequest.mk 0x1000 (IOCTL_ES_unknown 0x20) [] [IOVector.mk 0x2000 8]
  in
  exists st',
    ES.GetTitleID Sample.platform st request =
      Some (GetDefaultReply (Code IPC_SUCCESS), st')
    /\ Read_U64 (State.memory st') 0x2000 = Sample.title_id.
Proof.
  intros st request.
  destruct (GetTitleID_reports_running_title Sample.platform st request
              eq_refl) as [_ H].
  destruct (H eq_refl) as (st' & E & Hread & _).
  exists st'. split; [exact E|exact Hread].
Defined.

(** ** Title queries *)

Section TitleQueries.
Variable P : Platform.
Implicit Types (st : State.t) (request : IOCtlVRequest.t).

Lemma Read_U32_frame (m m' : Memory) a :
  (forall x, a <= x < a + 4 -> m' !! x = m !! x) ->
  Read_U32 m' a = Read_U32 m a.
Proof.
  intros H. unfold Read_U32, Read_U8. rewrite !H by lia. done.
Qed.

Lemma Read_U64_frame (m m' : Memory) a :
  (forall x, a <= x < a + 8 -> m' !! x = m !! x) ->
  Read_U64 m' a = Read_U64 m a.
Proof.
  intros H. unfold Read_U64.
  rewrite !(Read_U32_frame m m') by (intros x Hx; apply H; lia). done.
Qed.

Lemma content_slot a index :
  0 <= a -> is_u16 index -> a + 4 * index + 4 <= 2 ^ 32 ->
  to_u32 (a + to_u16 index * 4) = a + 4 * index.
Proof.
  unfold is_u16. intros Ha Hi Hb. unfold to_u16.
  rewrite (Z.mod_small index) by lia.
  rewrite to_u32_small by lia. lia.
Qed.

Lemma contents_fold_outside a (cs : list Content.t) :
  forall (m : Memory) x,
  Forall (fun c => ~ (to_u32 (a + to_u16 (Content.index c) * 4) <= x
                      < to_u32 (a + to_u16 (Content.index c) * 4) + 4)) cs ->
  foldl (fun mem c =>
           Write_U32 mem (Content.id c)
             (to_u32 (a + to_u16 (Content.index c) * 4))) m cs !! x =
    m !! x.
Proof.
  induction cs as [|c cs IH]; intros m x Hall; cbn [foldl]; [done|].
  apply Forall_cons in Hall as [Hc Hall].
  rewrite IH by done. by apply Write_U32_lookup_outside.
Qed.

Lemma contents_fold_slot a (cs : list Content.t) :
  0 <= a ->
  Forall (fun c => is_u16 (Content.index c)
                   /\ a + 4 * Content.index c + 4 <= 2 ^ 32) cs ->
  NoDup (Content.index <$> cs) ->
  forall (m : Memory) c,
  c ∈ cs ->
  Read_U32
    (foldl (fun mem c =>
              Write_U32 mem (Content.id c)
                (to_u32 (a + to_u16 (Content.index c) * 4))) m cs)
    (a + 4 * Content.index c) = to_u32 (Content.id c).
Proof.
  intros Ha. induction cs as [|c0 cs IH]; intros Hall Hnodup m c Hin.
  - by apply elem_of_nil in Hin.
  - apply Forall_cons in Hall as [[Hu Hb] Hall].
    cbn [fmap list_fmap] in Hnodup. apply NoDup_cons in Hnodup as [Hc0 Hnodup].
    cbn [foldl]. apply elem_of_cons in Hin as [->|Hin]; [|by apply IH].
    rewrite (Read_U32_frame
               (Write_U32 m (Content.id c0)
                  (to_u32 (a + to_u16 (Content.index c0) * 4)))).
    + rewrite content_slot by done. apply Read_U32_Write_U32.
    + intros x Hx. apply contents_fold_outside.
      apply Forall_forall. intros c1 H1.
      pose proof (proj1 (Forall_forall _ _) Hall c1 H1) as [Hu1 Hb1].
      rewrite content_slot by done.
      assert (Content.index c1 <> Content.index c0).
      { intros E. apply Hc0. rewrite <- E.
        apply list_elem_of_fmap. by exists c1. }
      lia.
Qed.

(** X20.  [GetTitleContents] lists content ids by content index.  For an
    installed title with a valid TMD whose contents have pairwise distinct
    16-bit indices, it replies IPC_SUCCESS and the 32-bit word at the
    output address plus four times a content's index holds that content's
    id; no byte outside these words is written.  The sizes of the output
    vector and of the second input vector play no part. *)
Theorem GetTitleContents_by_index st request :
  let TitleID :=
    Read_U64 (State.memory st) (IOVector.address (ES.in_vector request 0)) in
  let L := ES.AccessContentDevice P st TitleID in
  let contents := TMDReader.GetContents (CNANDContentLoader.GetTMD L) in
  let out := IOVector.address (ES.io_vector request 0) in
  ES.HasNumberOfValidVectors P request 2 1 = true ->
  CNANDContentLoader.IsValid L = true ->
  TMDReader.IsValid (CNANDContentLoader.GetTMD L) = true ->
  0 <= out ->
  Forall (fun c => is_u16 (Content.index c)
                   /\ out + 4 * Content.index c + 4 <= 2 ^ 32) contents ->
  NoDup (Content.index <$> contents) ->
  exists st',
    ES.GetTitleContents P st request =
      Some (GetDefaultReply (Code IPC_SUCCESS), st')
    /\ (forall c, c ∈ contents ->
          Read_U32 (State.memory st') (out + 4 * Content.index c) =
            to_u32 (Content.id c))
    /\ (forall x,
          (forall c, c ∈ contents ->
             ~ (out + 4 * Content.index c <= x
                < out + 4 * Content.index c + 4)) ->
          State.memory st' !! x = State.memory st !! x)
    /\ st' = State.set_memory st (State.memory st').
Proof.
  intros TitleID L contents out Hshape Hvalid Htmd Hout Hall Hnodup.
  unfold ES.GetTitleContents, ES.reply. rewrite Hshape. cbn [negb].
  fold TitleID L. rewrite Hvalid, Htmd. cbn [negb orb]. fold contents out.
  eexists. split; [reflexivity|]. cbn [State.memory State.set_memory].
  split; [|split; [|done]].
  - intros c Hc. by apply contents_fold_slot.
  - intros x Hx. apply contents_fold_outside.
    apply Forall_forall. intros c Hc.
    pose proof (proj1 (Forall_forall _ _) Hall c Hc) as [Hu Hb].
    rewrite content_slot by done. by apply Hx.
Qed.

Lemma write_titles_outside titles : forall (m : Memory) a i x,
  0 <= a -> 0 <= i ->
  a + 8 * (i + Z.of_nat (length titles)) <= 2 ^ 32 ->
  ~ (a + 8 * i <= x < a + 8 * (i + Z.of_nat (length titles))) ->
  ES.write_titles m a i titles !! x = m !! x.
Proof.
  induction titles as [|t titles IH]; intros m a i x Ha Hi Hb Hx;
    cbn [ES.write_titles]; [done|].
  cbn [length] in Hb, Hx.
  rewrite IH by lia.
  rewrite (to_u32_small i), to_u32_small by lia.
  apply Write_U64_lookup_outside. lia.
Qed.

Lemma write_titles_slot titles : forall (m : Memory) a i (k : nat) t,
  0 <= a -> 0 <= i ->
  a + 8 * (i + Z.of_nat (length titles)) <= 2 ^ 32 ->
  titles !! k = Some t ->
  Read_U64 (ES.write_titles m a i titles) (a + 8 * (i + Z.of_nat k)) =
    to_u64 t.
Proof.
  induction titles as [|t0 titles IH]; intros m a i k t Ha Hi Hb Hk;
    cbn [ES.write_titles]; [done|].
  cbn [length] in Hb.
  destruct k as [|k].
  - injection Hk as ->.
    rewrite (Read_U64_frame
               (Write_U64 m t (to_u32 (a + to_u32 i * 8)))).
    + rewrite (to_u32_small i), to_u32_small by lia.
      replace (a + 8 * (i + Z.of_nat 0)) with (a + i * 8) by lia.
      apply Read_U64_Write_U64.
    + intros x Hx. apply write_titles_outside; lia.
  - replace (a + 8 * (i + Z.of_nat (S k))) with (a + 8 * (i + 1 + Z.of_nat k))
      by lia.
    apply IH; (done || lia).
Qed.

(** X21.  [GetTitles] writes a prefix of the list.  Given a list of title
    ids, it replies IPC_SUCCESS and stores the first
    [min max_count (length titles)] of them as consecutive 64-bit words
    from the output address on, [max_count] being the word its input
    vector points at; no other byte of guest memory is written, whatever
    the size of the output vector. *)
Theorem GetTitles_writes_prefix titles st request :
  let max_count :=
    Read_U32 (State.memory st) (IOVector.address (ES.in_vector request 0)) in
  let count := Z.min max_count (Z.of_nat (length titles)) in
  let out := IOVector.address (ES.io_vector request 0) in
  ES.HasNumberOfValidVectors P request 1 1 = true ->
  0 <= out -> out + 8 * count <= 2 ^ 32 ->
  exists st',
    ES.GetTitles P titles st request =
      Some (GetDefaultReply (Code IPC_SUCCESS), st')
    /\ (forall (k : nat) t,
          Z.of_nat k < count -> titles !! k = Some t ->
          Read_U64 (State.memory st') (out + 8 * Z.of_nat k) = to_u64 t)
    /\ (forall x, ~ (out <= x < out + 8 * count) ->
          State.memory st' !! x = State.memory st !! x)
    /\ st' = State.set_memory st (State.memory st').
Proof.
  intros max_count count out Hshape Hout Hb.
  pose proof (Read_U32_range (State.memory st)
                (IOVector.address (ES.in_vector request 0))) as Hmax.
  fold max_count in Hmax.
  unfold ES.GetTitles, ES.reply. rewrite Hshape. cbn [negb].
  fold max_count count out. eexists. split; [reflexivity|].
  cbn [State.memory State.set_memory].
  assert (Hlen : Z.of_nat (length (take (Z.to_nat count) titles)) = count).
  { rewrite length_take. unfold count in *. lia. }
  split; [|split; [|done]].
  - intros k t Hk Ht.
    replace (out + 8 * Z.of_nat k) with (out + 8 * (0 + Z.of_nat k)) by lia.
    apply write_titles_slot; [done|lia|lia|].
    rewrite lookup_take_lt by lia. done.
  - intros x Hx. apply write_titles_outside; lia.
Qed.

(** X22.  [GetStoredTMD] takes the size [GetStoredTMDSize] reports.  For
    an installed title with a valid TMD of fewer than 2^32 bytes,
    [GetStoredTMDSize] replies IPC_SUCCESS and stores the length of the raw
    TMD at its output address; a [GetStoredTMD] for the same title then
    succeeds exactly when its output vector has that size, in which case
    it copies the raw TMD there, and otherwise replies the parameter error
    and changes nothing. *)
Theorem GetStoredTMD_takes_reported_size st request :
  let TitleID :=
    Read_U64 (State.memory st) (IOVector.address (ES.in_vector request 0)) in
  let L := ES.AccessContentDevice P st TitleID in
  let raw_tmd := TMDReader.GetRawTMD (CNANDContentLoader.GetTMD L) in
  ES.HasNumberOfValidVectors P request 1 1 = true ->
  CNANDContentLoader.IsValid L = true ->
  TMDReader.IsValid (CNANDContentLoader.GetTMD L) = true ->
  Z.of_nat (length raw_tmd) < 2 ^ 32 ->
  Forall (fun b => 0 <= b < 2 ^ 8) raw_tmd ->
  exists st1,
    ES.GetStoredTMDSize P st request =
      Some (GetDefaultReply (Code IPC_SUCCESS), st1)
    /\ Read_U32 (State.memory st1) (IOVector.address (ES.io_vector request 0))
         = Z.of_nat (length raw_tmd)
    /\ forall request2,
         let out := ES.io_vector request2 0 in
         ES.HasNumberOfValidVectors P request2 2 1 = true ->
         Read_U64 (State.memory st1)
           (IOVector.address (ES.in_vector request2 0)) = TitleID ->
         (IOVector.size out = Z.of_nat (length raw_tmd) ->
          exists st2,
            ES.GetStoredTMD P st1 request2 =
              Some (GetDefaultReply (Code IPC_SUCCESS), st2)
            /\ CopyFromEmu (State.memory st2) (IOVector.address out)
                 (IOVector.size out) = raw_tmd)
         /\ (IOVector.size out <> Z.of_nat (length raw_tmd) ->
             ES.GetStoredTMD P st1 request2 =
               Some (GetDefaultReply (Code ES_PARAMETER_SIZE_OR_ALIGNMENT),
                     st1)).
Proof.
  intros TitleID L raw_tmd Hshape Hvalid Htmd Hlen Hbytes.
  unfold ES.GetStoredTMDSize, ES.reply. rewrite Hshape. cbn [negb].
  fold TitleID L. rewrite Hvalid, Htmd. cbn [negb orb]. fold raw_tmd.
  eexists. split; [reflexivity|]. split.
  { cbn [State.memory State.set_memory]. rewrite Read_U32_Write_U32.
    rewrite !(to_u32_small (Z.of_nat (length raw_tmd))) by lia. done. }
  intros request2 Hshape2 Htitle.
  unfold ES.GetStoredTMD, ES.reply. rewrite Hshape2. cbn [negb].
  cbn [State.memory State.set_memory] in *. rewrite Htitle.
  change (ES.AccessContentDevice P (State.set_memory st _) TitleID) with L.
  rewrite Hvalid, Htmd. cbn [negb orb]. fold raw_tmd. split.
  - intros Hsize. rewrite Hsize, Z.eqb_refl. cbn [negb].
    eexists. split; [reflexivity|]. cbn [State.memory State.set_memory].
    rewrite CopyFromEmu_CopyToEmu. by apply to_u8_bytes.
  - intros Hsize. rewrite (proj2 (Z.eqb_neq _ _)) by lia. done.
Qed.
End TitleQueries.

Lemma GetTitleContents_by_index_witness :
  let st := State.set_memory State.init SampleExport.mem in
  let request :=
    IOCtlVRequest.mk 0x1000 (IOCTL_ES_unknown 0x11)
      [IOVector.mk 0x100 8; IOVector.mk 0x300 4] [IOVector.mk 0x2000 4] in
  exists st',
    ES.GetTitleContents Sample.platform st request =
      Some (GetDefaultReply (Code IPC_SUCCESS), st')
    /\ Read_U32 (State.memory st') (0x2000 + 4 * 0x0102) = 7.
Proof.
  intros st request.
  destruct (GetTitleContents_by_index Sample.platform st request
              eq_refl eq_refl eq_refl ltac:(cbn; lia)
              ltac:(repeat constructor; cbn; unfold is_u16; lia)
              ltac:(repeat constructor; set_solver))
    as (st' & E & Hslot & _).
  exists st'. split; [exact E|].
  exact (Hslot Sample.content0 ltac:(apply list_elem_of_here)).
Defined.

Lemma GetTitles_writes_prefix_witness :
  let st := State.set_memory State.init (Sample.poke32 ∅ 0x100 2) in
  let request :=
    IOCtlVRequest.mk 0x1000 (IOCTL_ES_unknown 0x0f)
      [IOVector.mk 0x100 4] [IOVector.mk 0x2000 16] in
  exists st',
    ES.GetTitles Sample.platform [Sample.title_id; Sample.ios_id; 5] st
      request = Some (GetDefaultReply (Code IPC_SUCCESS), st')
    /\ Read_U64 (State.memory st') 0x2000 = Sample.title_id
    /\ Read_U64 (State.memory st') 0x2008 = Sample.ios_id
    /\ State.memory st' !! 0x2010 = None.
Proof.
  intros st request.
  destruct (GetTitles_writes_prefix Sample.platform
              [Sample.title_id; Sample.ios_id; 5] st request
              eq_refl ltac:(cbn; lia) ltac:(vm_compute; discriminate))
    as (st' & E & Hslot & Hframe & _).
  exists st'. split; [exact E|].
  split; [exact (Hslot 0%nat Sample.title_id ltac:(vm_compute; reflexivity)
                   eq_refl)|].
  split; [exact (Hslot 1%nat Sample.ios_id ltac:(vm_compute; reflexivity)
                   eq_refl)|].
  rewrite (Hframe 0x2010); [reflexivity|vm_compute; intros [_ H]; discriminate H].
Defined.

Lemma GetStoredTMD_takes_reported_size_witness :
  let st := State.set_memory State.init SampleExport.mem in
  let request1 :=
    IOCtlVRequest.mk 0x1000 (IOCTL_ES_unknown 0x39)
      [IOVector.mk 0x100 8] [IOVector.mk 0x2000 4] in
  let request2 :=
    IOCtlVRequest.mk 0x1000 (IOCTL_ES_unknown 0x35)
      [IOVector.mk 0x100 8; IOVector.mk 0x300 4] [IOVector.mk 0x3000 4] in
  exists st1 st2,
    ES.GetStoredTMDSize Sample.platform st request1 =
      Some (GetDefaultReply (Code IPC_SUCCESS), st1)
    /\ Read_U32 (State.memory st1) 0x2000 = 4
    /\ ES.GetStoredTMD Sample.platform st1 request2 =
         Some (GetDefaultReply (Code IPC_SUCCESS), st2)
    /\ CopyFromEmu (State.memory st2) 0x3000 4 = [1; 2; 3; 4].
Proof.
  intros st request1 request2.
  destruct (GetStoredTMD_takes_reported_size Sample.platform st request1
              eq_refl eq_refl eq_refl ltac:(vm_compute; reflexivity)
              ltac:(repeat constructor; lia))
    as (st1 & E1 & Hsize & Hnext).
  assert (Hst1 : Some (GetDefaultReply (Code IPC_SUCCESS), st1) =
                 Some (GetDefaultReply (Code IPC_SUCCESS),
                       State.set_memory st
                         (Write_U32 SampleExport.mem 4 0x2000)))
    by (rewrite <- E1; reflexivity).
  injection Hst1 as Hst1.
  destruct (Hnext request2 eq_refl
              ltac:(rewrite Hst1; vm_compute; reflexivity)) as [Hok _].
  destruct (Hok eq_refl) as (st2 & E2 & Hcopy).
  exists st1, st2. split; [exact E1|]. split; [exact Hsize|].
  split; [exact E2|exact Hcopy].
Defined.

(** ** Title import and TMD views *)

Section TitleImport.
Variable P : Platform.
Variable TMDReader_SetBytes : list Z -> TMDReader.t.
Variable GetRawView : TMDReader.t -> list Z.
Implicit Types (st : State.t) (request : IOCtlVRequest.t).

(** X23.  [AddTitleStart] replaces the import TMD whatever it replies.
    The TMD decoded from the first input vector becomes the TMD of the
    import in all three outcomes.  An invalid TMD is answered
    ES_INVALID_TMD without a call into the NAND.  A valid TMD whose file
    cannot be written is answered ES_WRITE_FAILURE and is not added to the
    title index, but the import is open all the same: [AddTitleFinish]
    accepts it. *)
Theorem AddTitleStart_outcome write_ok st request :
  let in0 := ES.in_vector request 0 in
  let tmd :=
    TMDReader_SetBytes
      (CopyFromEmu (State.memory st) (IOVector.address in0)
         (IOVector.size in0)) in
  let st' := State.set_addtitle_tmd st tmd in
  let tmd_path := TMDFileName (TMDReader.GetTitleId tmd) in
  ES.HasNumberOfValidVectors P request 4 0 = true ->
  ES.AddTitleStart P TMDReader_SetBytes write_ok st request =
    (Some (GetDefaultReply
             (Code (if negb (TMDReader.IsValid tmd) then ES_INVALID_TMD
                    else if write_ok then IPC_SUCCESS
                    else ES_WRITE_FAILURE)), st'),
     if TMDReader.IsValid tmd
     then [CreateFullPath tmd_path;
           File_WriteBytes tmd_path (TMDReader.GetRawTMD tmd)] ++
          (if write_ok then [UIDSys_AddTitle (TMDReader.GetTitleId tmd)]
           else [])
     else [])
  /\ forall request2,
       ES.HasNumberOfValidVectors P request2 0 0 = true ->
       ES.AddTitleFinish P st' request2 =
         Some (GetDefaultReply
                 (Code (if TMDReader.IsValid tmd then IPC_SUCCESS
                        else ES_PARAMETER_SIZE_OR_ALIGNMENT)),
               if TMDReader.IsValid tmd
               then State.set_addtitle_tmd st' TMDReader.empty else st').
Proof.
  intros in0 tmd st' tmd_path Hshape. split.
  - unfold ES.AddTitleStart, ES.WriteTMD, ES.reply. rewrite Hshape.
    cbn [negb State.m_addtitle_tmd State.set_addtitle_tmd fst snd].
    fold in0 tmd st' tmd_path.
    destruct (TMDReader.IsValid tmd), write_ok; reflexivity.
  - intros request2 Hshape2. unfold ES.AddTitleFinish, ES.reply.
    rewrite Hshape2. unfold st' at 1.
    cbn [negb orb State.m_addtitle_tmd State.set_addtitle_tmd].
    destruct (TMDReader.IsValid tmd); reflexivity.
Qed.

(** X24.  [AddTMD] is [AddTitleStart] without the title index.  On
    requests with the same first input vector, the one with one input
    vector and the other with four, both give the same reply and leave
    the same state, and the calls of [AddTitleStart] into the NAND are
    those of [AddTMD], followed on success by the call that adds the title
    to the title index. *)
Theorem AddTMD_skips_title_index write_ok st request1 request4 :
  let r1 := ES.AddTMD P TMDReader_SetBytes write_ok st request1 in
  let r4 := ES.AddTitleStart P TMDReader_SetBytes write_ok st request4 in
  ES.HasNumberOfValidVectors P request1 1 0 = true ->
  ES.HasNumberOfValidVectors P request4 4 0 = true ->
  ES.in_vector request1 0 = ES.in_vector request4 0 ->
  r1.1 = r4.1
  /\ exists code st',
       r1.1 = Some (GetDefaultReply (Code code), st')
       /\ r4.2 =
            r1.2 ++
            match code with
            | IPC_SUCCESS =>
                [UIDSys_AddTitle
                   (TMDReader.GetTitleId (State.m_addtitle_tmd st'))]
            | _ => []
            end
       /\ Forall (fun call =>
                    match call with UIDSys_AddTitle _ => False | _ => True end)
            r1.2.
Proof.
  intros r1 r4 Hshape1 Hshape4 Hin. unfold r1, r4.
  unfold ES.AddTMD, ES.AddTitleStart, ES.WriteTMD, ES.reply.
  rewrite Hshape1, Hshape4, Hin.
  cbn [negb State.m_addtitle_tmd State.set_addtitle_tmd fst snd].
  destruct (TMDReader.IsValid _) eqn:Hvalid; cbn [negb].
  - destruct write_ok; cbn [negb fst snd].
    + split; [done|]. eexists _, _. split; [done|]. split; [done|].
      repeat constructor.
    + split; [done|]. eexists _, _. split; [done|].
      split; [by rewrite app_nil_r|]. repeat constructor.
  - split; [done|]. eexists _, _. split; [done|]. split; [done|].
    constructor.
Qed.

(** X25.  [AddTitleFinish] closes the import.  With an import open it
    replies IPC_SUCCESS and only forgets the TMD of the import: a content
    that was started and not finished stays pending.  From then on a
    second [AddTitleFinish] and every [AddContentFinish] are answered with
    the parameter error and change nothing, and [AddContentStart] never
    hands out a descriptor. *)
Theorem AddTitleFinish_closes_import st request :
  let st' := State.set_addtitle_tmd st TMDReader.empty in
  ES.HasNumberOfValidVectors P request 0 0 = true ->
  TMDReader.IsValid (State.m_addtitle_tmd st) = true ->
  ES.AddTitleFinish P st request =
    Some (GetDefaultReply (Code IPC_SUCCESS), st')
  /\ State.m_addtitle_content_id st' = State.m_addtitle_content_id st
  /\ State.m_addtitle_content_buffer st' = State.m_addtitle_content_buffer st
  /\ forall request2,
       ES.AddTitleFinish P st' request2 =
         Some (GetDefaultReply (Code ES_PARAMETER_SIZE_OR_ALIGNMENT), st')
       /\ ES.AddContentFinish P st' request2 =
            Some (GetDefaultReply (Code ES_PARAMETER_SIZE_OR_ALIGNMENT), st')
       /\ exists code st'',
            ES.AddContentStart P st' request2 =
              Some (GetDefaultReply (Code code), st'')
            /\ (code = ES_PARAMETER_SIZE_OR_ALIGNMENT
                \/ code = ES_WRITE_FAILURE)
            /\ TMDReader.IsValid (State.m_addtitle_tmd st'') = false.
Proof.
  intros st' Hshape Hvalid. split.
  { unfold ES.AddTitleFinish, ES.reply. by rewrite Hshape, Hvalid. }
  split; [done|]. split; [done|]. intros request2. split; [|split].
  - unfold ES.AddTitleFinish, ES.reply.
    cbn [State.m_addtitle_tmd st' State.set_addtitle_tmd TMDReader.IsValid
         TMDReader.empty negb].
    by rewrite orb_true_r.
  - unfold ES.AddContentFinish, ES.reply.
    cbn [State.m_addtitle_tmd st' State.set_addtitle_tmd TMDReader.IsValid
         TMDReader.empty negb].
    by destruct (ES.HasNumberOfValidVectors P request2 1 0).
  - unfold ES.AddContentStart, ES.reply.
    destruct (ES.HasNumberOfValidVectors P request2 2 0); cbn [negb].
    + destruct (State.m_addtitle_content_id st' =? 0xFFFFFFFF); cbn [negb].
      * eexists _, _. split; [reflexivity|]. split; [by left|done].
      * eexists _, _. split; [reflexivity|]. split; [by right|done].
    + eexists _, _. split; [reflexivity|]. split; [by left|done].
Qed.

(** X26.  [DIGetTMDView] copies the view that [DIGetTMDViewSize] measures.
    Both take the TMD from the first input vector, or the TMD of the
    running title when that vector is empty.  [DIGetTMDViewSize] reports
    the length of its view.  [DIGetTMDView] succeeds exactly when the
    first input vector is shorter than 4 MiB, the second has four bytes
    and holds the size of the output vector, the TMD is valid (the title
    is running), and the view has the size of the output vector; it then
    copies the view to the output address, and otherwise replies the
    parameter error and changes nothing. *)
Theorem DIGetTMDView_copies_measured_view st request :
  let mem := State.memory st in
  let ctx := State.s_title_context st in
  let in0 := ES.in_vector request 0 in
  let in1 := ES.in_vector request 1 in
  let out := ES.io_vector request 0 in
  let has_tmd := negb (IOVector.size in0 =? 0) in
  let tmd :=
    if has_tmd
    then TMDReader_SetBytes
           (CopyFromEmu mem (IOVector.address in0) (IOVector.size in0))
    else TitleContext.tmd ctx in
  let available :=
    if has_tmd then TMDReader.IsValid tmd else TitleContext.active ctx in
  let view := GetRawView tmd in
  let ok :=
    (IOVector.size in0 <? 4 * 1024 * 1024) && (IOVector.size in1 =? 4) &&
    (Read_U32 mem (IOVector.address in1) =? IOVector.size out) &&
    available && (Z.of_nat (length view) =? IOVector.size out) in
  ES.HasNumberOfValidVectors P request 2 1 = true ->
  Forall (fun b => 0 <= b < 2 ^ 8) view ->
  (if ok
   then exists st',
          ES.DIGetTMDView P TMDReader_SetBytes GetRawView st request =
            Some (GetDefaultReply (Code IPC_SUCCESS), st')
          /\ CopyFromEmu (State.memory st') (IOVector.address out)
               (IOVector.size out) = view
          /\ (forall x,
                ~ (IOVector.address out <= x
                   < IOVector.address out + IOVector.size out) ->
                State.memory st' !! x = mem !! x)
          /\ st' = State.set_memory st (State.memory st')
   else ES.DIGetTMDView P TMDReader_SetBytes GetRawView st request =
          Some (GetDefaultReply (Code ES_PARAMETER_SIZE_OR_ALIGNMENT), st))
  /\ forall request1,
       ES.HasNumberOfValidVectors P request1 1 1 = true ->
       ES.in_vector request1 0 = in0 ->
       IOVector.size (ES.io_vector request1 0) = 4 ->
       IOVector.size in0 < 4 * 1024 * 1024 ->
       available = true ->
       Z.of_nat (length view) < 2 ^ 32 ->
       exists st1,
         ES.DIGetTMDViewSize P TMDReader_SetBytes GetRawView st request1 =
           Some (GetDefaultReply (Code IPC_SUCCESS), st1)
         /\ Read_U32 (State.memory st1)
              (IOVector.address (ES.io_vector request1 0)) =
              Z.of_nat (length view).
Proof.
  intros mem ctx in0 in1 out has_tmd tmd available view ok Hshape Hbytes.
  split.
  - unfold ES.DIGetTMDView, ES.reply. rewrite Hshape. cbn [negb].
    fold mem ctx in0 in1 out. unfold ok. rewrite Z.geb_leb.
    destruct (Z.leb_spec (4 * 1024 * 1024) (IOVector.size in0)) as [Hge|Hlt].
    { by rewrite (proj2 (Z.ltb_ge _ _)) by lia. }
    rewrite (proj2 (Z.ltb_lt _ _)) by lia. cbn [negb andb].
    destruct (IOVector.size in1 =? 4); cbn [negb andb orb]; [|done].
    destruct (Read_U32 mem (IOVector.address in1) =? IOVector.size out);
      cbn [negb andb]; [|done].
    fold has_tmd. unfold available, view, tmd.
    assert (Hcopy : forall v,
      Forall (fun b => 0 <= b < 2 ^ 8) v ->
      if Z.of_nat (length v) =? IOVector.size out
      then exists st',
             (if negb (Z.of_nat (length v) =? IOVector.size out)
              then Some (GetDefaultReply (Code ES_PARAMETER_SIZE_OR_ALIGNMENT),
                         st)
              else Some (GetDefaultReply (Code IPC_SUCCESS),
                         State.set_memory st
                           (CopyToEmu mem (IOVector.address out) v))) =
               Some (GetDefaultReply (Code IPC_SUCCESS), st')
             /\ CopyFromEmu (State.memory st') (IOVector.address out)
                  (IOVector.size out) = v
             /\ (forall x,
                   ~ (IOVector.address out <= x
                      < IOVector.address out + IOVector.size out) ->
                   State.memory st' !! x = mem !! x)
             /\ st' = State.set_memory st (State.memory st')
      else (if negb (Z.of_nat (length v) =? IOVector.size out)
            then Some (GetDefaultReply (Code ES_PARAMETER_SIZE_OR_ALIGNMENT),
                       st)
            else Some (GetDefaultReply (Code IPC_SUCCESS),
                       State.set_memory st
                         (CopyToEmu mem (IOVector.address out) v))) =
             Some (GetDefaultReply (Code ES_PARAMETER_SIZE_OR_ALIGNMENT), st)).
    { intros v Hv.
      destruct (Z.of_nat (length v) =? IOVector.size out) eqn:E; [|done].
      apply Z.eqb_eq in E. cbn [negb]. eexists. split; [reflexivity|].
      cbn [State.memory State.set_memory]. split; [|split; [|done]].
      - rewrite <- E, CopyFromEmu_CopyToEmu. by apply to_u8_bytes.
      - intros x Hx. apply CopyToEmu_outside. lia. }
    unfold view, tmd in Hbytes.
    destruct has_tmd.
    + destruct (TMDReader.IsValid _); cbn [negb andb]; [|done].
      by apply Hcopy.
    + destruct (TitleContext.active ctx); cbn [negb andb]; [|done].
      by apply Hcopy.
  - intros request1 Hshape1 Hin Hout Hsmall Havailable Hlen.
    unfold ES.DIGetTMDViewSize, ES.reply. rewrite Hshape1, Hin, Hout.
    cbn [negb]. fold mem ctx.
    rewrite Z.geb_leb, (proj2 (Z.leb_gt _ _)) by lia.
    change (4 =? 4) with true. cbn [negb]. fold has_tmd.
    unfold available, view, tmd in *.
    destruct has_tmd.
    + rewrite Havailable. cbn [negb]. eexists. split; [reflexivity|].
      cbn [State.memory State.set_memory].
      rewrite Read_U32_Write_U32, !(to_u32_small (Z.of_nat _)) by lia. done.
    + rewrite Havailable. cbn [negb]. eexists. split; [reflexivity|].
      cbn [State.memory State.set_memory].
      rewrite Read_U32_Write_U32, !(to_u32_small (Z.of_nat _)) by lia. done.
Qed.

(** X27.  [GetTitleCount] counts what [GetTitles] lists.  For fewer than
    2^32 titles and a four-byte output vector, [GetTitleCount] stores the
    number of titles; an output vector of another size is refused and
    nothing is written.  A [GetTitles] request that passes the reported
    number as its maximum gets every title of the list. *)
Theorem GetTitleCount_counts_listed_titles titles st request :
  let out := ES.io_vector request 0 in
  ES.HasNumberOfValidVectors P request 0 1 = true ->
  Z.of_nat (length titles) < 2 ^ 32 ->
  (IOVector.size out <> 4 ->
   ES.GetTitleCount P titles st request =
     Some (GetDefaultReply (Code ES_PARAMETER_SIZE_OR_ALIGNMENT), st))
  /\ (IOVector.size out = 4 ->
      exists st1,
        ES.GetTitleCount P titles st request =
          Some (GetDefaultReply (Code IPC_SUCCESS), st1)
        /\ Read_U32 (State.memory st1) (IOVector.address out) =
             Z.of_nat (length titles)
        /\ forall st2 request2,
             let out2 := IOVector.address (ES.io_vector request2 0) in
             ES.HasNumberOfValidVectors P request2 1 1 = true ->
             Read_U32 (State.memory st2)
               (IOVector.address (ES.in_vector request2 0)) =
               Read_U32 (State.memory st1) (IOVector.address out) ->
             0 <= out2 ->
             out2 + 8 * Z.of_nat (length titles) <= 2 ^ 32 ->
             exists st3,
               ES.GetTitles P titles st2 request2 =
                 Some (GetDefaultReply (Code IPC_SUCCESS), st3)
               /\ forall (k : nat) t,
                    titles !! k = Some t ->
                    Read_U64 (State.memory st3) (out2 + 8 * Z.of_nat k) =
                      to_u64 t).
Proof.
  intros out Hshape Hlen. unfold ES.GetTitleCount, ES.reply.
  rewrite Hshape. fold out. cbn [negb orb]. split.
  - intros Hsize. by rewrite (proj2 (Z.eqb_neq _ _)).
  - intros ->. change (4 =? 4) with true. cbn [negb].
    eexists. split; [reflexivity|]. cbn [State.memory State.set_memory].
    rewrite Read_U32_Write_U32, !(to_u32_small (Z.of_nat _)) by lia.
    split; [done|]. intros st2 request2 Hshape2 Hmax Hout2 Hfit.
    unfold ES.GetTitles, ES.reply. rewrite Hshape2, Hmax. cbn [negb].
    rewrite Z.min_id.
    replace (Z.to_nat (Z.of_nat (length titles))) with (length titles) by lia.
    rewrite firstn_all. eexists. split; [reflexivity|].
    cbn [State.memory State.set_memory]. intros k t Hk.
    replace (IOVector.address (ES.io_vector request2 0) + 8 * Z.of_nat k)
      with (IOVector.address (ES.io_vector request2 0) + 8 * (0 + Z.of_nat k))
      by lia.
    apply write_titles_slot; (done || lia).
Qed.
End TitleImport.

Lemma AddTitleStart_outcome_witness :
  let SetBytes := fun bytes : list Z =>
    if Z.of_nat (length bytes) =? 4 then Sample.tmd else TMDReader.empty in
  let st :=
    State.set_memory State.init (CopyToEmu ∅ 0x500 [1; 2; 3; 4]) in
  let request :=
    IOCtlVRequest.mk 0x1000 (IOCTL_ES_unknown 0x02)
      [IOVector.mk 0x500 4; IOVector.mk 0x600 0; IOVector.mk 0x700 0;
       IOVector.mk 0x800 0] [] in
  let st' := State.set_addtitle_tmd st Sample.tmd in
  ES.AddTitleStart Sample.platform SetBytes false st request =
    (Some (GetDefaultReply (Code ES_WRITE_FAILURE), st'),
     [CreateFullPath (TMDFileName Sample.title_id);
      File_WriteBytes (TMDFileName Sample.title_id) [1; 2; 3; 4]])
  /\ ES.AddTitleFinish Sample.platform st'
       (IOCtlVRequest.mk 0x1000 (IOCTL_ES_unknown 0x06) [] []) =
       Some (GetDefaultReply (Code IPC_SUCCESS),
             State.set_addtitle_tmd st' TMDReader.empty).
Proof.
  intros SetBytes st request st'.
  destruct (AddTitleStart_outcome Sample.platform SetBytes false st request
              eq_refl) as [H1 H2].
  split; [exact H1|].
  exact (H2 (IOCtlVRequest.mk 0x1000 (IOCTL_ES_unknown 0x06) [] []) eq_refl).
Defined.

Lemma AddTMD_skips_title_index_witness :
  let SetBytes := fun bytes : list Z =>
    if Z.of_nat (length bytes) =? 4 then Sample.tmd else TMDReader.empty in
  let st :=
    State.set_memory State.init (CopyToEmu ∅ 0x500 [1; 2; 3; 4]) in
  let request1 :=
    IOCtlVRequest.mk 0x1000 (IOCTL_ES_unknown 0x2B) [IOVector.mk 0x500 4] []
  in
  let request4 :=
    IOCtlVRequest.mk 0x1000 (IOCTL_ES_unknown 0x02)
      [IOVector.mk 0x500 4; IOVector.mk 0x600 0; IOVector.mk 0x700 0;
       IOVector.mk 0x800 0] [] in
  let r1 := ES.AddTMD Sample.platform SetBytes true st request1 in
  let r4 := ES.AddTitleStart Sample.platform SetBytes true st request4 in
  r1.1 = r4.1 /\ r4.2 = r1.2 ++ [UIDSys_AddTitle Sample.title_id].
Proof.
  intros SetBytes st request1 request4 r1 r4.
  destruct (AddTMD_skips_title_index Sample.platform SetBytes true st
              request1 request4 eq_refl eq_refl eq_refl)
    as (Heq & code & st' & Hr & Hcalls & _).
  assert (Some (GetDefaultReply (Code code), st') =
          Some (GetDefaultReply (Code IPC_SUCCESS),
                State.set_addtitle_tmd st Sample.tmd)) as [= -> ->]
    by (rewrite <- Hr; vm_compute; reflexivity).
  split; [exact Heq|exact Hcalls].
Defined.

Lemma AddTitleFinish_closes_import_witness :
  let st := State.set_addtitle_tmd State.init Sample.tmd in
  let st' := State.set_addtitle_tmd st TMDReader.empty in
  let request := IOCtlVRequest.mk 0x1000 (IOCTL_ES_unknown 0x06) [] [] in
  ES.AddTitleFinish Sample.platform st request =
    Some (GetDefaultReply (Code IPC_SUCCESS), st')
  /\ ES.AddTitleFinish Sample.platform st' request =
       Some (GetDefaultReply (Code ES_PARAMETER_SIZE_OR_ALIGNMENT), st').
Proof.
  intros st st' request.
  destruct (AddTitleFinish_closes_import Sample.platform st request
              eq_refl eq_refl) as (H1 & _ & _ & H2).
  split; [exact H1|exact (proj1 (H2 request))].
Defined.

Lemma DIGetTMDView_copies_measured_view_witness :
  let SetBytes := fun bytes : list Z =>
    if Z.of_nat (length bytes) =? 4 then Sample.tmd else TMDReader.empty in
  let RawView := fun tmd : TMDReader.t => take 2 (TMDReader.GetRawTMD tmd) in
  let st :=
    State.set_memory
      (State.set_title_context State.init
         (TitleContext.mk Sample.ticket Sample.tmd true false))
      (Sample.poke32 ∅ 0x300 2) in
  let request :=
    IOCtlVRequest.mk 0x1000 (IOCTL_ES_unknown 0x1A)
      [IOVector.mk 0 0; IOVector.mk 0x300 4] [IOVector.mk 0x2000 2] in
  exists st',
    ES.DIGetTMDView Sample.platform SetBytes RawView st request =
      Some (GetDefaultReply (Code IPC_SUCCESS), st')
    /\ CopyFromEmu (State.memory st') 0x2000 2 = [1; 2].
Proof.
  intros SetBytes RawView st request.
  destruct (DIGetTMDView_copies_measured_view Sample.platform SetBytes
              RawView st request eq_refl ltac:(repeat constructor; lia))
    as [(st' & E & Hcopy & _) _].
  exists st'. split; [exact E|exact Hcopy].
Defined.

Lemma GetTitleCount_counts_listed_titles_witness :
  let titles := [Sample.title_id; Sample.ios_id] in
  let request :=
    IOCtlVRequest.mk 0x1000 (IOCTL_ES_unknown 0x0E) [] [IOVector.mk 0x100 4]
  in
  let request2 :=
    IOCtlVRequest.mk 0x1000 (IOCTL_ES_unknown 0x0F)
      [IOVector.mk 0x100 4] [IOVector.mk 0x2000 16] in
  exists st1 st3,
    ES.GetTitleCount Sample.platform titles State.init request =
      Some (GetDefaultReply (Code IPC_SUCCESS), st1)
    /\ Read_U32 (State.memory st1) 0x100 = 2
    /\ ES.GetTitles Sample.platform titles st1 request2 =
         Some (GetDefaultReply (Code IPC_SUCCESS), st3)
    /\ Read_U64 (State.memory st3) 0x2008 = Sample.ios_id.
Proof.
  intros titles request request2.
  destruct (GetTitleCount_counts_listed_titles Sample.platform titles
              State.init request eq_refl ltac:(vm_compute; reflexivity))
    as [_ H].
  destruct (H eq_refl) as (st1 & E1 & Hcount & Hnext).
  destruct (Hnext st1 request2 eq_refl eq_refl ltac:(cbn; lia)
              ltac:(vm_compute; discriminate)) as (st3 & E3 & Hslot).
  exists st1, st3. split; [exact E1|]. split; [exact Hcount|].
  split; [exact E3|exact (Hslot 1%nat Sample.ios_id eq_refl)].
Defined.

(** ** Title ids in path names *)

Section PathNames.
Implicit Types (v d : Z) (s : string).

Lemma hex_value_hex_char d : 0 <= d < 16 -> hex_value (hex_char d) = Some d.
Proof.
  intros H. destruct d as [|p|p]; [reflexivity| |lia].
  do 4 (destruct p as [p|p|]; try lia; try reflexivity).
Qed.

Lemma foldl_hex_digits (n : nat) : forall v acc,
  foldl (fun acc c => acc * 16 + default 0 (hex_value c)) acc
    (hex_digits n v) =
    acc * 16 ^ Z.of_nat n + v mod 16 ^ Z.of_nat n.
Proof.
  induction n as [|n IH]; intros v acc.
  - cbn [hex_digits foldl]. change (16 ^ Z.of_nat 0) with 1.
    rewrite Z.mod_1_r. lia.
  - cbn [hex_digits]. rewrite foldl_app, IH. cbn [foldl].
    rewrite hex_value_hex_char by (apply Z.mod_pos_bound; lia).
    cbn [default from_option].
    replace (16 ^ Z.of_nat (S n)) with (16 * 16 ^ Z.of_nat n)
      by (rewrite Nat2Z.inj_succ, Z.pow_succ_r by lia; reflexivity).
    assert (0 < 16 ^ Z.of_nat n) by (apply Z.pow_pos_nonneg; lia).
    rewrite (Z.rem_mul_r v 16 (16 ^ Z.of_nat n)) by lia.
    unfold id. ring.
Qed.

Lemma stoul16_format_08x v : stoul16 (format_08x v) = to_u32 v.
Proof.
  unfold stoul16, format_08x.
  rewrite String.list_ascii_of_string_of_list_ascii, foldl_hex_digits.
  change (16 ^ Z.of_nat 8) with (2 ^ 32).
  rewrite Z.mod_small; [lia|]. unfold to_u32. apply Z.mod_pos_bound. lia.
Qed.

Lemma length_string_of_list_ascii (l : list Ascii.ascii) :
  String.length (String.string_of_list_ascii l) = length l.
Proof. induction l as [|c l IH]; [done|]. cbn. f_equal. exact IH. Qed.

Lemma length_list_ascii_of_string s :
  length (String.list_ascii_of_string s) = String.length s.
Proof. induction s as [|c s IH]; [done|]. cbn. f_equal. exact IH. Qed.

Lemma string_length_append s1 s2 :
  String.length (s1 +:+ s2) = (String.length s1 + String.length s2)%nat.
Proof.
  induction s1 as [|c s1 IH]; [done|].
  change (String c s1 +:+ s2) with (String c (s1 +:+ s2)).
  cbn. f_equal. exact IH.
Qed.

Lemma substring_prefix s1 s2 :
  String.substring 0 (String.length s1) (s1 +:+ s2) = s1.
Proof.
  induction s1 as [|c s1 IH]; [by destruct s2|].
  change (String c s1 +:+ s2) with (String c (s1 +:+ s2)).
  cbn. f_equal. exact IH.
Qed.

Lemma length_hex_digits (n : nat) : forall v, length (hex_digits n v) = n.
Proof.
  induction n as [|n IH]; intros v; [done|].
  cbn [hex_digits]. rewrite length_app, IH. cbn. lia.
Qed.

Lemma forallb_hex_digits (n : nat) : forall v,
  forallb isxdigit (hex_digits n v) = true.
Proof.
  induction n as [|n IH]; intros v; [done|].
  cbn [hex_digits]. rewrite forallb_app, IH. cbn [forallb andb].
  unfold isxdigit.
  rewrite hex_value_hex_char by (apply Z.mod_pos_bound; lia). done.
Qed.

Lemma length_format_08x v : String.length (format_08x v) = 8%nat.
Proof.
  unfold format_08x. by rewrite length_string_of_list_ascii, length_hex_digits.
Qed.

Lemma IsValidPartOfTitleID_format_08x v :
  IsValidPartOfTitleID (format_08x v) = true.
Proof.
  unfold IsValidPartOfTitleID. rewrite length_format_08x. cbn [andb].
  unfold format_08x.
  rewrite String.list_ascii_of_string_of_list_ascii.
  apply forallb_hex_digits.
Qed.

Lemma title_id_of_parts v :
  Z.lor (Z.shiftl (to_u32 (Z.shiftr v 32)) 32) (to_u32 v) = to_u64 v.
Proof.
  rewrite <- Z.add_nocarry_lor.
  - rewrite Z.shiftl_mul_pow2 by lia. apply u64_words.
  - apply Z.bits_inj'. intros n Hn.
    rewrite Z.land_spec, Z.bits_0.
    destruct (Z.lt_ge_cases n 32).
    + by rewrite Z.shiftl_spec_low.
    + unfold to_u32 at 2. rewrite Z.mod_pow2_bits_high by lia.
      apply andb_false_r.
Qed.

Lemma to_u32_idemp v : to_u32 (to_u32 v) = to_u32 v.
Proof. unfold to_u32. apply Z.mod_mod. lia. Qed.

Lemma Read_U64_range (m : Memory) a : 0 <= Read_U64 m a < 2 ^ 64.
Proof.
  unfold Read_U64.
  pose proof (Read_U32_range m a). pose proof (Read_U32_range m (a + 4)).
  lia.
Qed.

Lemma c_str_bytes s : Forall (fun b => 0 <= b < 2 ^ 8) (c_str s).
Proof.
  unfold c_str. apply Forall_app. split.
  - apply Forall_fmap, Forall_forall. intros c _. cbn.
    pose proof (Ascii.N_ascii_bounded c). lia.
  - repeat constructor; lia.
Qed.

Lemma length_c_str s : length (c_str s) = S (String.length s).
Proof.
  unfold c_str.
  rewrite length_app, length_fmap, length_list_ascii_of_string. cbn. lia.
Qed.

Section Directory.
Variable P : Platform.
Implicit Types (st : State.t) (request : IOCtlVRequest.t).

(** X28.  [GetTitleDirectory] names the directory that [GetInstalledTitles]
    reads the title id back from.  It writes the 29 characters of
    "/title/<type>/<identifier>/data" and a NUL at the output address,
    both names being eight hexadecimal digits, whatever the size of the
    output vector, and nothing else.  When the titles directory has a
    directory of the first name holding a directory of the second,
    [GetInstalledTitles] lists the title id of the request. *)
Theorem GetTitleDirectory_names_installed_title st request :
  let TitleID :=
    Read_U64 (State.memory st) (IOVector.address (ES.in_vector request 0)) in
  let out := IOVector.address (ES.io_vector request 0) in
  ES.HasNumberOfValidVectors P request 1 1 = true ->
  GetPointer P out = true ->
  exists type_name id_name st',
    ES.GetTitleDirectory P st request =
      Some (GetDefaultReply (Code IPC_SUCCESS), st')
    /\ CopyFromEmu (State.memory st') out 30 =
         c_str ("/title/" +:+ type_name +:+ "/" +:+ id_name +:+ "/data")
    /\ (forall x, ~ (out <= x < out + 30) ->
          State.memory st' !! x = State.memory st !! x)
    /\ IsValidPartOfTitleID type_name = true
    /\ IsValidPartOfTitleID id_name = true
    /\ forall entries type_dir id_dir,
         type_dir ∈ children entries -> id_dir ∈ children type_dir ->
         isDirectory type_dir = true -> isDirectory id_dir = true ->
         virtualName type_dir = type_name ->
         virtualName id_dir = id_name ->
         TitleID ∈ GetInstalledTitles true entries.
Proof.
  intros TitleID out Hshape Hpointer.
  unfold ES.GetTitleDirectory, ES.reply. rewrite Hshape. cbn [negb].
  fold TitleID out. rewrite Hpointer.
  set (type_name := format_08x (to_u32 (Z.shiftr TitleID 32))).
  set (id_name := format_08x (to_u32 TitleID)).
  set (path := "/title/" +:+ type_name +:+ "/" +:+ id_name +:+ "/data").
  assert (Hlen : Z.of_nat (length (c_str path)) = 30).
  { rewrite length_c_str. unfold path.
    rewrite !string_length_append. unfold type_name, id_name.
    rewrite !length_format_08x. reflexivity. }
  exists type_name, id_name. eexists. split; [reflexivity|].
  cbn [State.memory State.set_memory].
  split; [|split; [|split; [|split]]].
  - rewrite <- Hlen, CopyFromEmu_CopyToEmu.
    apply to_u8_bytes, c_str_bytes.
  - intros x Hx. apply CopyToEmu_outside. lia.
  - apply IsValidPartOfTitleID_format_08x.
  - apply IsValidPartOfTitleID_format_08x.
  - intros entries type_dir id_dir Htype Hid Hdir1 Hdir2 Hname1 Hname2.
    apply list_elem_of_In. unfold GetInstalledTitles. cbn [negb].
    apply in_flat_map. exists type_dir.
    split; [by apply list_elem_of_In|].
    rewrite Hdir1, Hname1. unfold type_name at 1.
    rewrite IsValidPartOfTitleID_format_08x. cbn [negb orb].
    apply in_flat_map. exists id_dir.
    split; [by apply list_elem_of_In|].
    rewrite Hdir2, Hname2. unfold id_name at 1.
    rewrite IsValidPartOfTitleID_format_08x. cbn [negb orb]. left.
    unfold type_name, id_name. rewrite !stoul16_format_08x, !to_u32_idemp.
    rewrite title_id_of_parts. unfold to_u64. apply Z.mod_small.
    apply Read_U64_range.
Qed.
End Directory.

(** X29.  [GetTitlesWithTickets] lists ticket files only.  Every title id
    it returns comes from an entry that is not a directory, named by
    eight hexadecimal digits followed by ".tik", inside a directory named
    by eight hexadecimal digits, and is the two numbers put together;
    nothing is returned when the tickets directory is missing.
    Conversely, the file named by [%08x] of the low word and ".tik" in
    the directory named by [%08x] of the high word makes the title id
    listed. *)
Theorem GetTitlesWithTickets_lists_ticket_files is_directory entries :
  (forall title_id,
     title_id ∈ GetTitlesWithTickets is_directory entries ->
     is_directory = true
     /\ exists type_dir ticket name,
          type_dir ∈ children entries /\ ticket ∈ children type_dir
          /\ isDirectory type_dir = true /\ isDirectory ticket = false
          /\ IsValidPartOfTitleID (virtualName type_dir) = true
          /\ IsValidPartOfTitleID name = true
          /\ virtualName ticket = name +:+ ".tik"
          /\ title_id =
               to_u32 (stoul16 (virtualName type_dir)) * 2 ^ 32 +
               to_u32 (stoul16 name))
  /\ (forall title_id type_dir ticket,
        is_directory = true ->
        type_dir ∈ children entries -> ticket ∈ children type_dir ->
        isDirectory type_dir = true -> isDirectory ticket = false ->
        virtualName type_dir = format_08x (Z.shiftr title_id 32) ->
        virtualName ticket = format_08x title_id +:+ ".tik" ->
        to_u64 title_id ∈ GetTitlesWithTickets is_directory entries).
Proof.
  split.
  - intros title_id Hin. unfold GetTitlesWithTickets in Hin.
    destruct is_directory; cbn [negb] in Hin; [|by apply elem_of_nil in Hin].
    split; [done|].
    apply list_elem_of_In, in_flat_map in Hin as (type_dir & Htype & Hin).
    destruct (isDirectory type_dir) eqn:Hdir1; cbn [negb orb] in Hin;
      [|done].
    destruct (IsValidPartOfTitleID (virtualName type_dir)) eqn:Hvalid1;
      cbn [negb] in Hin; [|done].
    apply in_flat_map in Hin as (ticket & Hticket & Hin).
    destruct (isDirectory ticket) eqn:Hdir2; cbn [negb orb] in Hin; [done|].
    destruct (IsValidPartOfTitleID _) eqn:Hvalid2 in Hin;
      cbn [negb orb] in Hin; [|done].
    destruct (String.eqb _ _) eqn:Hname in Hin; cbn [negb] in Hin; [|done].
    destruct Hin as [<-|[]].
    exists type_dir, ticket, (String.substring 0 8 (virtualName ticket)).
    apply String.eqb_eq in Hname.
    repeat (split; [by (done || apply list_elem_of_In)|]).
    rewrite <- Z.add_nocarry_lor; [by rewrite Z.shiftl_mul_pow2 by lia|].
    apply Z.bits_inj'. intros n Hn. rewrite Z.land_spec, Z.bits_0.
    destruct (Z.lt_ge_cases n 32).
    + by rewrite Z.shiftl_spec_low.
    + unfold to_u32 at 2. rewrite Z.mod_pow2_bits_high by lia.
      apply andb_false_r.
  - intros title_id type_dir ticket -> Htype Hticket Hdir1 Hdir2 Hname1 Hname2.
    apply list_elem_of_In. unfold GetTitlesWithTickets. cbn [negb].
    apply in_flat_map. exists type_dir.
    split; [by apply list_elem_of_In|].
    rewrite Hdir1, Hname1, IsValidPartOfTitleID_format_08x. cbn [negb orb].
    apply in_flat_map. exists ticket.
    split; [by apply list_elem_of_In|].
    rewrite Hdir2, Hname2. cbn [orb].
    replace (String.substring 0 8 (format_08x title_id +:+ ".tik"))
      with (format_08x title_id)
      by (pose proof (substring_prefix (format_08x title_id) ".tik") as Hs;
          rewrite length_format_08x in Hs; by rewrite Hs).
    rewrite IsValidPartOfTitleID_format_08x, String.eqb_refl.
    cbn [negb orb]. left.
    rewrite !stoul16_format_08x, !to_u32_idemp. apply title_id_of_parts.
Qed.
End PathNames.

Lemma GetTitleDirectory_names_installed_title_witness :
  let st := State.set_memory State.init SampleExport.mem in
  let request :=
    IOCtlVRequest.mk 0x1000 (IOCTL_ES_unknown 0x1D)
      [IOVector.mk 0x100 8] [IOVector.mk 0x2000 4] in
  let entries :=
    mkFSTEntry true ""
      [mkFSTEntry true "00010001"
         [mkFSTEntry true "48415858" [mkFSTEntry true "data" []]]] in
  exists st',
    ES.GetTitleDirectory Sample.platform st request =
      Some (GetDefaultReply (Code IPC_SUCCESS), st')
    /\ CopyFromEmu (State.memory st') 0x2000 30 =
         c_str "/title/00010001/48415858/data"
    /\ Sample.title_id ∈ GetInstalledTitles true entries.
Proof.
  intros st request entries.
  destruct (GetTitleDirectory_names_installed_title Sample.platform st
              request eq_refl eq_refl)
    as (type_name & id_name & st' & E & _).
  exists st'. split; [exact E|]. split.
  - replace (State.memory st')
      with (match ES.GetTitleDirectory Sample.platform st request with
            | Some (_, s) => State.memory s
            | None => ∅
            end) by (rewrite E; reflexivity).
    vm_compute. reflexivity.
  - apply list_elem_of_In. vm_compute. left. reflexivity.
Defined.

Lemma GetTitlesWithTickets_lists_ticket_files_witness :
  let entries :=
    mkFSTEntry true ""
      [mkFSTEntry true "00010001"
         [mkFSTEntry false "48415858.tik" [];
          mkFSTEntry false "48415858.bak" []]] in
  Sample.title_id ∈ GetTitlesWithTickets true entries.
Proof.
  intros entries.
  exact (proj2 (GetTitlesWithTickets_lists_ticket_files true entries)
           Sample.title_id
           (mkFSTEntry true "00010001"
              [mkFSTEntry false "48415858.tik" [];
               mkFSTEntry false "48415858.bak" []])
           (mkFSTEntry false "48415858.tik" [])
           eq_refl ltac:(apply list_elem_of_here) ltac:(apply list_elem_of_here)
           eq_refl eq_refl eq_refl eq_refl).
Defined.

(** ** Encrypt and Decrypt in guest memory *)

Section CryptInMemory.
Variable P : Platform.
Implicit Types (st : State.t) (request : IOCtlVRequest.t) (m : Memory).
Hypothesis enc_length : forall key b,
  length b = 16%nat -> length (aes_encrypt_block P key b) = 16%nat.
Hypothesis dec_length : forall key b,
  length b = 16%nat -> length (aes_decrypt_block P key b) = 16%nat.

Lemma cbc_decrypt_length key n : forall iv input,
  length iv = 16%nat -> length input = (16 * n)%nat ->
  length (cbc_decrypt (aes_decrypt_block P) key n iv input).2 = (16 * n)%nat.
Proof.
  induction n as [|n IH]; intros iv input Hiv Hin; simpl; [done|].
  assert (Ht : length (take 16 input) = 16%nat) by (rewrite length_take; lia).
  rewrite length_app, IH; [|done|rewrite length_drop; lia].
  rewrite xor_block_length; rewrite dec_length by done; lia.
Qed.

Lemma CopyFromEmu_frame m a bytes b n :
  b + n <= a \/ a + Z.of_nat (length bytes) <= b ->
  CopyFromEmu (CopyToEmu m a bytes) b n = CopyFromEmu m b n.
Proof.
  intros H. unfold CopyFromEmu. apply list_fmap_ext.
  intros k i Hi. apply lookup_seqZ in Hi as [-> Hk].
  apply Read_U8_CopyToEmu_outside. lia.
Qed.

Lemma ranges_overlap_false (a n b k : Z) :
  ES.ranges_overlap a n b k = false ->
  n <= 0 \/ k <= 0 \/ b + k <= a \/ a + n <= b.
Proof. unfold ES.ranges_overlap. intros H. lia. Qed.

Lemma cbc_processes_spec size :
  0 <= size ->
  if ES.cbc_processes size
  then exists n, Z.to_nat (size / 16) = S n /\ Z.to_nat size = (16 * S n)%nat
                 /\ size mod 16 = 0
  else size mod 16 <> 0 \/ size = 0.
Proof.
  intros H0. unfold ES.cbc_processes.
  destruct (decide (size mod 16 = 0)) as [Hm|Hm].
  - rewrite bool_decide_eq_true_2 by done. cbn [andb].
    destruct (Z.ltb_spec 0 size); [|right; lia].
    exists (Z.to_nat (size / 16) - 1)%nat.
    assert (size = 16 * (size / 16)) by (apply Z.div_exact; lia). lia.
  - rewrite bool_decide_eq_false_2 by done. by left.
Qed.

(** The bytes the two handlers leave in guest memory. *)
Lemma crypt_written m newIV destination size (new_iv output : list Z) :
  length new_iv = 16%nat ->
  let m' :=
    if ES.cbc_processes size
    then CopyToEmu (CopyToEmu m newIV new_iv) destination output
    else CopyToEmu m newIV new_iv in
  (ES.cbc_processes size = true ->
   Z.of_nat (length output) = size
   /\ ES.ranges_overlap newIV 16 destination size = false) ->
  CopyFromEmu m' newIV 16 = to_u8 <$> new_iv
  /\ (ES.cbc_processes size = true ->
      CopyFromEmu m' destination size = to_u8 <$> output)
  /\ forall x,
       ~ (newIV <= x < newIV + 16) ->
       (ES.cbc_processes size = true ->
        ~ (destination <= x < destination + size)) ->
       m' !! x = m !! x.
Proof.
  intros Hiv m' Hp. unfold m'.
  assert (Hread : CopyFromEmu (CopyToEmu m newIV new_iv) newIV 16 =
                  to_u8 <$> new_iv).
  { replace 16 with (Z.of_nat (length new_iv)) by lia.
    apply CopyFromEmu_CopyToEmu. }
  destruct (ES.cbc_processes size).
  - destruct (Hp eq_refl) as [Hout Hapart].
    apply ranges_overlap_false in Hapart.
    assert (0 <= size) by lia.
    split; [|split].
    + destruct (decide (size = 0)) as [Hz|Hz].
      * assert (output = []) as -> by (apply nil_length_inv; lia). done.
      * rewrite CopyFromEmu_frame by lia. done.
    + intros _. rewrite <- Hout. apply CopyFromEmu_CopyToEmu.
    + intros x Hx1 Hx2. specialize (Hx2 eq_refl).
      rewrite !CopyToEmu_outside by lia. done.
  - split; [done|]. split; [done|].
    intros x Hx _. apply CopyToEmu_outside. lia.
Qed.

(** X30.  [Encrypt] and [Decrypt] through guest memory.  For a request of
    the right shape whose four buffers are there and do not overlap where
    the call writes (the new-IV vector may be the IV vector itself), and a
    key index of the table, both handlers reply IPC_SUCCESS and change
    guest memory only.  When the length of the source is a positive
    multiple of 16, the destination receives the AES-CBC encryption
    (decryption) of the source under the key and the 16 bytes at the IV,
    the new-IV vector receives the last ciphertext block (of the output
    for [Encrypt], of the source for [Decrypt]), and nothing else is
    written.  Otherwise only the new-IV vector is written, with the 16
    bytes at the IV.  A request whose IV or new-IV vector has no pointer
    has no reply. *)
Theorem crypt_through_guest_memory st request :
  let mem := State.memory st in
  let keyIndex := Read_U32 mem (IOVector.address (ES.in_vector request 0)) in
  let IV := IOVector.address (ES.in_vector request 1) in
  let source := IOVector.address (ES.in_vector request 2) in
  let size := IOVector.size (ES.in_vector request 2) in
  let newIV := IOVector.address (ES.io_vector request 0) in
  let destination := IOVector.address (ES.io_vector request 1) in
  let iv := CopyFromEmu mem IV 16 in
  let data := CopyFromEmu mem source size in
  let written st' (new_iv output : list Z) :=
    st' = State.set_memory st (State.memory st')
    /\ CopyFromEmu (State.memory st') newIV 16 = to_u8 <$> new_iv
    /\ (ES.cbc_processes size = true ->
        CopyFromEmu (State.memory st') destination size = to_u8 <$> output)
    /\ forall x,
         ~ (newIV <= x < newIV + 16) ->
         (ES.cbc_processes size = true ->
          ~ (destination <= x < destination + size)) ->
         State.memory st' !! x = mem !! x in
  ES.HasNumberOfValidVectors P request 3 2 = true ->
  0 <= size ->
  (ES.crypt_buffers_ok P IV source size newIV destination = true ->
   keyIndex < 11 ->
   exists key st1 st2,
     s_key_table !! Z.to_nat keyIndex = Some key
     /\ ES.Encrypt P st request =
          Some (GetDefaultReply (Code IPC_SUCCESS), st1)
     /\ ES.Decrypt P st request =
          Some (GetDefaultReply (Code IPC_SUCCESS), st2)
     /\ let ciphertext :=
          (cbc_encrypt (aes_encrypt_block P) (take 16 key)
             (Z.to_nat (size / 16)) iv data).2 in
        let plaintext :=
          (cbc_decrypt (aes_decrypt_block P) (take 16 key)
             (Z.to_nat (size / 16)) iv data).2 in
        if ES.cbc_processes size
        then written st1 (last_block ciphertext) ciphertext
             /\ written st2 (last_block data) plaintext
        else written st1 iv [] /\ written st2 iv [])
  /\ (GetPointer P IV = false \/ GetPointer P newIV = false ->
      ES.Encrypt P st request = None /\ ES.Decrypt P st request = None).
Proof.
  intros mem keyIndex IV source size newIV destination iv data written
    Hshape Hsize.
  split.
  - intros Hok Hkey.
    pose proof (Read_U32_range mem
                  (IOVector.address (ES.in_vector request 0))) as Hk.
    fold keyIndex in Hk.
    destruct (key_table_lookup keyIndex ltac:(lia)) as [key Hlookup].
    assert (Hiv : length iv = 16%nat)
      by (unfold iv; by rewrite CopyFromEmu_length).
    assert (Hdata : length data = Z.to_nat size)
      by (unfold data; by rewrite CopyFromEmu_length).
    assert (Hold : length (CopyFromEmu mem destination size) = Z.to_nat size)
      by by rewrite CopyFromEmu_length.
    unfold ES.Encrypt, ES.Decrypt, ES.reply. rewrite Hshape. cbn [negb].
    fold mem keyIndex IV source size newIV destination. rewrite Hok.
    cbn [negb]. fold iv data.
    unfold ES.EncryptContent, ES.DecryptContent. rewrite Hlookup.
    cbn [mbind option_bind fst snd]. rewrite (take_ge iv) by lia.
    exists key. do 2 eexists. split; [done|]. split; [reflexivity|].
    split; [reflexivity|]. cbv zeta. unfold written.
    cbn [State.memory State.set_memory].
    assert (Hapart : ES.cbc_processes size = true ->
                     ES.ranges_overlap newIV 16 destination size = false).
    { intros Hp. unfold ES.crypt_buffers_ok in Hok. rewrite Hp in Hok.
      cbn [negb orb] in Hok.
      repeat match goal with
             | H : _ && _ = true |- _ => apply andb_true_iff in H as [? ?]
             end.
      by apply negb_true_iff. }
    pose proof (cbc_processes_spec size Hsize) as Hspec.
    unfold mbedtls_aes_crypt_cbc.
    destruct (ES.cbc_processes size) eqn:Hp.
    + destruct Hspec as (n & Hn & Hlen & Hmod).
      rewrite bool_decide_eq_true_2 by done. cbn [fst snd]. rewrite Hn.
      rewrite Hlen in Hdata, Hold.
      set (ciphertext := (cbc_encrypt _ (take 16 key) (S n) iv data).2).
      set (plaintext := (cbc_decrypt _ (take 16 key) (S n) iv data).2).
      assert (Hc : length ciphertext = (16 * S n)%nat)
        by by apply (cbc_encrypt_length _ enc_length).
      assert (Hpl : length plaintext = (16 * S n)%nat)
        by by apply cbc_decrypt_length.
      rewrite (cbc_encrypt_iv _ enc_length) by done. fold ciphertext.
      rewrite cbc_decrypt_iv by done.
      rewrite !drop_ge, !app_nil_r by lia.
      assert (Hlast : forall l : list Z,
                length l = (16 * S n)%nat -> length (last_block l) = 16%nat).
      { intros l Hl. unfold last_block. rewrite length_drop. lia. }
      split; (split; [done|]).
      * pose proof (crypt_written mem newIV destination size
                      (last_block ciphertext) ciphertext (Hlast _ Hc)) as Hw.
        cbv zeta in Hw. rewrite Hp in Hw. apply Hw.
        intros _. split; [lia|by apply Hapart].
      * pose proof (crypt_written mem newIV destination size
                      (last_block data) plaintext (Hlast _ Hdata)) as Hw.
        cbv zeta in Hw. rewrite Hp in Hw. apply Hw.
        intros _. split; [lia|by apply Hapart].
    + assert (Hnone :
        forall mode,
          (if bool_decide (size mod 16 = 0)
           then
             (0,
              (match mode with
               | MBEDTLS_AES_ENCRYPT =>
                   cbc_encrypt (aes_encrypt_block P) (take 16 key)
                     (Z.to_nat (size / 16)) iv data
               | MBEDTLS_AES_DECRYPT =>
                   cbc_decrypt (aes_decrypt_block P) (take 16 key)
                     (Z.to_nat (size / 16)) iv data
               end).1,
              (match mode with
               | MBEDTLS_AES_ENCRYPT =>
                   cbc_encrypt (aes_encrypt_block P) (take 16 key)
                     (Z.to_nat (size / 16)) iv data
               | MBEDTLS_AES_DECRYPT =>
                   cbc_decrypt (aes_decrypt_block P) (take 16 key)
                     (Z.to_nat (size / 16)) iv data
               end).2 ++
              drop
                (length
                   (match mode with
                    | MBEDTLS_AES_ENCRYPT =>
                        cbc_encrypt (aes_encrypt_block P) (take 16 key)
                          (Z.to_nat (size / 16)) iv data
                    | MBEDTLS_AES_DECRYPT =>
                        cbc_decrypt (aes_decrypt_block P) (take 16 key)
                          (Z.to_nat (size / 16)) iv data
                    end).2)
                (CopyFromEmu mem destination size))
           else
             (MBEDTLS_ERR_AES_INVALID_INPUT_LENGTH, iv,
              CopyFromEmu mem destination size)).1.2 = iv).
      { intros mode. destruct Hspec as [Hmod| ->].
        - by rewrite bool_decide_eq_false_2.
        - rewrite bool_decide_eq_true_2 by done.
          change (Z.to_nat (0 / 16)) with 0%nat. by destruct mode. }
      rewrite (Hnone MBEDTLS_AES_ENCRYPT), (Hnone MBEDTLS_AES_DECRYPT).
      pose proof (crypt_written mem newIV destination size iv [] Hiv) as Hw.
      cbv zeta in Hw. rewrite Hp in Hw.
      split; (split; [done|]); apply Hw; discriminate.
  - intros Hnull. unfold ES.Encrypt, ES.Decrypt. rewrite Hshape. cbn [negb].
    fold mem keyIndex IV source size newIV destination.
    unfold ES.crypt_buffers_ok.
    destruct Hnull as [-> | ->]; [done|]. by rewrite andb_false_r.
Qed.
End CryptInMemory.

Lemma Sample_decrypt_block_length key b :
  length b = 16%nat ->
  length (aes_decrypt_block Sample.platform key b) = 16%nat.
Proof.
  intros H. simpl. unfold Sample.decrypt_block.
  by rewrite Sample_xor_key_length, length_reverse.
Qed.

Lemma crypt_through_guest_memory_witness :
  let st :=
    State.set_memory State.init
      (CopyToEmu (Sample.poke32 ∅ 0x100 6) 0x300 (seqZ 0 32)) in
  let request ioctl :=
    IOCtlVRequest.mk 0x1000 ioctl
      [IOVector.mk 0x100 4; IOVector.mk 0x200 16; IOVector.mk 0x300 32]
      [IOVector.mk 0x200 16; IOVector.mk 0x400 32] in
  let ciphertext :=
    (cbc_encrypt Sample.encrypt_block s_key_sd 2 (replicate 16 0)
       (seqZ 0 32)).2 in
  let plaintext :=
    (cbc_decrypt Sample.decrypt_block s_key_sd 2 (replicate 16 0)
       (seqZ 0 32)).2 in
  exists st1 st2,
    ES.Encrypt Sample.platform st (request IOCTL_ES_ENCRYPT) =
      Some (GetDefaultReply (Code IPC_SUCCESS), st1)
    /\ CopyFromEmu (State.memory st1) 0x400 32 = to_u8 <$> ciphertext
    /\ CopyFromEmu (State.memory st1) 0x200 16 =
         to_u8 <$> last_block ciphertext
    /\ ES.Decrypt Sample.platform st (request IOCTL_ES_DECRYPT) =
         Some (GetDefaultReply (Code IPC_SUCCESS), st2)
    /\ CopyFromEmu (State.memory st2) 0x400 32 = to_u8 <$> plaintext
    /\ CopyFromEmu (State.memory st2) 0x200 16 = seqZ 16 16.
Proof.
  intros st request ciphertext plaintext.
  destruct (crypt_through_guest_memory Sample.platform
              Sample_encrypt_block_length Sample_decrypt_block_length
              st (request IOCTL_ES_ENCRYPT) eq_refl
              ltac:(cbn; lia)) as [Hok _].
  destruct (Hok eq_refl ltac:(vm_compute; reflexivity))
    as (key & st1 & st2 & Hkey & E1 & E2 & Hmem).
  assert (Some key = Some s_key_sd) as [= ->]
    by (rewrite <- Hkey; reflexivity).
  destruct Hmem as ((_ & Hiv1 & Hdst1 & _) & (_ & Hiv2 & Hdst2 & _)).
  exists st1, st2. split; [exact E1|]. split; [exact (Hdst1 eq_refl)|].
  split; [exact Hiv1|]. split; [exact E2|]. split; [exact (Hdst2 eq_refl)|].
  exact Hiv2.
Defined.
